(** * Schocken: the hand-ranking and round-resolution engine

    A shallow embedding of [src/schocken/base.py] and [src/schocken/game.py].
    Python classes become modules holding a record [t] and the methods of
    the class; attributes keep their Python names.  Exceptions are values of
    [exn] carried by [result]; the random number generator is an explicit
    tape of die rolls threaded through the monad [M]. *)

From Stdlib Require Import ZArith List String Ascii Bool Lia DecimalString.
From Stdlib Require Import Permutation Sorted.
Import ListNotations.
Open Scope string_scope.
Open Scope list_scope.
Open Scope Z_scope.

(** ** Exceptions and the two monads *)

Inductive exn : Type :=
| ValueError (msg : string)
| TypeError (msg : string)
| AssertionError (msg : string)
| Warning (msg : string)
| KeyError
| IndexError
| StopIteration.

Inductive result (A : Type) : Type :=
| Ok (a : A)
| Raise (e : exn).
Arguments Ok {A} a.
Arguments Raise {A} e.

Definition rbind {A B} (x : result A) (k : A -> result B) : result B :=
  match x with
  | Ok a => k a
  | Raise e => Raise e
  end.

Declare Scope result_scope.
Delimit Scope result_scope with res.
Notation "x <- e ;; k" := (rbind e (fun x => k))
  (at level 61, e at next level, right associativity) : result_scope.
Notation "' p <- e ;; k" := (rbind e (fun p => k))
  (at level 61, p pattern, e at next level, right associativity) : result_scope.

(** [random.randint(1, 6)]: the generator is a tape of outcomes and a read
    position.  [rng_ok] says that the tape only holds faces of a die. *)
Record Rng : Type := mkRng { tape : nat -> Z; pos : nat }.

Definition rng_ok (r : Rng) : Prop := forall i, 1 <= tape r i <= 6.

Definition M (A : Type) : Type := Rng -> result (A * Rng).

Definition ret {A} (a : A) : M A := fun r => Ok (a, r).

Definition bind {A B} (x : M A) (k : A -> M B) : M B :=
  fun r => match x r with
           | Ok (a, r') => k a r'
           | Raise e => Raise e
           end.

Definition lift {A} (x : result A) : M A :=
  fun r => match x with
           | Ok a => Ok (a, r)
           | Raise e => Raise e
           end.

Definition raise {A} (e : exn) : M A := fun _ => Raise e.

Declare Scope m_scope.
Delimit Scope m_scope with M.
Notation "x <- e ;; k" := (bind e (fun x => k))
  (at level 61, e at next level, right associativity) : m_scope.
Notation "' p <- e ;; k" := (bind e (fun p => k))
  (at level 61, p pattern, e at next level, right associativity) : m_scope.

Definition randint_1_6 : M Z :=
  fun r => Ok (tape r (pos r), mkRng (tape r) (S (pos r))).

(** Monadic map over a list, left to right. *)
Fixpoint rmapM {A B} (f : A -> result B) (l : list A) : result (list B) :=
  match l with
  | [] => Ok []
  | a :: l' => (b <- f a ;; bs <- rmapM f l' ;; Ok (b :: bs))%res
  end.

(** ** Die *)

Module Die.

Record t : Type := mk { value : Z; visible : bool; taken_out : bool }.

Definition __post_init__ (d : t) : result t :=
  if negb ((1 <=? value d) && (value d <=? 6)) && negb (value d =? -1)
  then Raise (ValueError "Die value must be between 1 and 6 or -1")
  else Ok d.

(** [Die(value, visible, taken_out)] *)
Definition new (v : Z) (vis tk : bool) : result t := __post_init__ (mk v vis tk).

(** [Die(v)] *)
Definition of_value (v : Z) : result t := new v false false.

(** [Die()]: the default factory rolls the die. *)
Definition random : M t :=
  (v <- randint_1_6 ;; lift (of_value v))%M.

Definition make_a_one (d : t) : t := mk 1 true true.

Definition throw (d : t) : M t :=
  (v <- randint_1_6 ;; ret (mk v false false))%M.

Definition copy (d : t) : result t := new (value d) (visible d) (taken_out d).

(** The dataclass-generated [__eq__]: field by field. *)
Definition __eq__ (a b : t) : bool :=
  (value a =? value b) && Bool.eqb (visible a) (visible b)
  && Bool.eqb (taken_out a) (taken_out b).

End Die.

(** [str(n)] for an integer. *)
Definition str (n : Z) : string := NilZero.string_of_int (Z.to_int n).

(** ** HandType *)

Module HandType.

Record t : Type := mk { hand_type : string; hand_type_value : Z }.

Definition str_in (s : string) (l : list string) : bool :=
  existsb (String.eqb s) l.

(** A name between double quotes, as the message of [__post_init__] lists
    the categories (character 34 is the double quote). *)
Definition quoted (s : string) : string :=
  (String (ascii_of_nat 34) s ++ String (ascii_of_nat 34) EmptyString)%string.

Definition __post_init__ (h : t) : result t :=
  let ty := hand_type h in
  let v := hand_type_value h in
  if (ty =? EmptyString)%string then Raise (ValueError "Hand type cannot be empty")
  else if negb (str_in ty ["Schock-out"; "Schock"; "General"; "Straight"; "High Dice"])
  then Raise (ValueError
                ("hand_type must be one of ["
                 ++ String.concat ", "
                      (map quoted ["Schock-out"; "Schock"; "General"; "Straight"; "High Dice"])
                 ++ "]")%string)
  else if str_in ty ["Schock"; "General"; "Straight"; "High Dice"] && (v =? 0)%Z
  then Raise (ValueError "hand_type_value cannot be empty for Schock, General, Straight, High Dice.")
  else if (ty =? "Schock")%string && ((v <? 2)%Z || (v >? 6)%Z)
  then Raise (ValueError "hand_type_value must be between 2 and 6 for Schock")
  else if (ty =? "General")%string && ((v <? 2)%Z || (v >? 6)%Z)
  then Raise (ValueError "hand_type_value must be between 2 and 6 for General")
  else if (ty =? "Straight")%string && ((v <? 1)%Z || (v >? 4)%Z)
  then Raise (ValueError "hand_type_value must be between 1 and 4 for Straight")
  else if (ty =? "High Dice")%string && ((v <? 221)%Z || (v >? 665)%Z)
  then Raise (ValueError
                ("hand_type_value must be between 221 and 665 for High Dice: "
                 ++ str v)%string)
  else Ok h.

(** [HandType(hand_type, hand_type_value)]; both arguments default to the
    empty string and 0. *)
Definition new (ty : string) (v : Z) : result t := __post_init__ (mk ty v).

Definition chips (h : t) : result Z :=
  let ty := hand_type h in
  if (ty =? "Schock-out")%string then Ok 13
  else if (ty =? "Schock")%string then Ok (hand_type_value h)
  else if (ty =? "General")%string then Ok 3
  else if (ty =? "Straight")%string then Ok 2
  else if (ty =? "High Dice")%string then Ok 1
  else Raise (ValueError "Invalid hand type. Chips can only be calculated for Schock, General, Straight, or High Dice").

Definition internal_rank (h : t) : result Z :=
  let ty := hand_type h in
  if (ty =? "Schock-out")%string then Ok 5000
  else if (ty =? "Schock")%string then Ok (4000 + hand_type_value h)
  else if (ty =? "General")%string then Ok (3000 + hand_type_value h)
  else if (ty =? "Straight")%string then Ok (2000 + hand_type_value h)
  else if (ty =? "High Dice")%string then Ok (1000 + hand_type_value h)
  else Raise (ValueError "Invalid hand type. Internal rank can only be calculated for Schock-out, Schock, General, Straight, or High Dice").

Definition __eq__ (a b : t) : result bool :=
  (ra <- internal_rank a ;; rb <- internal_rank b ;; Ok (ra =? rb)%Z)%res.

Definition __lt__ (a b : t) : result bool :=
  (ra <- internal_rank a ;; rb <- internal_rank b ;; Ok (ra <? rb)%Z)%res.

(** The comparisons [functools.total_ordering] derives from [__lt__] and
    [__eq__]. *)
Definition __le__ (a b : t) : result bool :=
  (lt <- __lt__ a b ;; if lt : bool then Ok true else __eq__ a b)%res.

Definition __gt__ (a b : t) : result bool :=
  (lt <- __lt__ a b ;;
   if lt : bool then Ok false else (e <- __eq__ a b ;; Ok (negb e)))%res.

(** The five categories, as the values the constructor accepts. *)
Definition SchockOut : t := mk "Schock-out" 0.
Definition Schock (n : Z) : t := mk "Schock" n.
Definition General (n : Z) : t := mk "General" n.
Definition Straight (n : Z) : t := mk "Straight" n.
Definition HighDice (v : Z) : t := mk "High Dice" v.

(** A value is valid when the constructor accepts it. *)
Definition valid (h : t) : Prop := __post_init__ h = Ok h.

End HandType.

(** ** Small pieces of the Python runtime used by the classes below *)

(** [list == list] on integers. *)
Fixpoint list_Z_eqb (a b : list Z) : bool :=
  match a, b with
  | [], [] => true
  | x :: a', y :: b' => (x =? y) && list_Z_eqb a' b'
  | _, _ => false
  end.

(** [sorted(values)], ascending. *)
Fixpoint insert_asc (v : Z) (l : list Z) : list Z :=
  match l with
  | [] => [v]
  | x :: l' => if x <? v then x :: insert_asc v l' else v :: l
  end.

Fixpoint sorted (l : list Z) : list Z :=
  match l with
  | [] => []
  | v :: l' => insert_asc v (sorted l')
  end.

(** [len(set(values))]. *)
Definition len_set (l : list Z) : nat := List.length (nodup Z.eq_dec l).

(** [int(s)], for the strings that reach it here: an optional minus sign
    and decimal digits.  (Python also accepts surrounding blanks, a plus
    sign and underscores; none of these occurs in a hand name.) *)
Definition int (s : string) : result Z :=
  match NilZero.int_of_string s with
  | Some d => Ok (Z.of_int d)
  | None => Raise (ValueError "invalid literal for int() with base 10")
  end.

(** [sub in s] on strings. *)
Fixpoint contains (sub s : string) : bool :=
  prefix sub s
  || match s with
     | EmptyString => false
     | String _ s' => contains sub s'
     end.

(** [s.split(sep)] for a separator of one character. *)
Fixpoint split (sep : ascii) (s : string) : list string :=
  match s with
  | EmptyString => [EmptyString]
  | String c s' =>
      if Ascii.eqb c sep then EmptyString :: split sep s'
      else match split sep s' with
           | w :: ws => String c w :: ws
           | [] => [String c EmptyString]
           end
  end.

(** [l[i]] for a non-negative index. *)
Definition getitem {A} (l : list A) (i : nat) : result A :=
  match nth_error l i with
  | Some a => Ok a
  | None => Raise IndexError
  end.

(** [s[:n]] and [s[i]] on strings. *)
Definition str_take (n : nat) (s : string) : string := substring 0 n s.

Definition str_at (i : nat) (s : string) : result string :=
  match get i s with
  | Some c => Ok (String c EmptyString)
  | None => Raise IndexError
  end.

(** The characters of a string, as [for v in values] visits them. *)
Fixpoint chars (s : string) : list string :=
  match s with
  | EmptyString => []
  | String c s' => String c EmptyString :: chars s'
  end.

(** ** Hand *)

Module Hand.

Record t : Type := mk {
  _dice : list Die.t;
  _hand_type : option HandType.t;
  put_together : bool;
  players_turn_ind : Z;
  finalized : bool
}.

Definition set_dice_raw (h : t) (d : list Die.t) : t :=
  mk d (_hand_type h) (put_together h) (players_turn_ind h) (finalized h).
Definition set_hand_type_raw (h : t) (ty : option HandType.t) : t :=
  mk (_dice h) ty (put_together h) (players_turn_ind h) (finalized h).
Definition set_put_together (h : t) (b : bool) : t :=
  mk (_dice h) (_hand_type h) b (players_turn_ind h) (finalized h).
Definition set_players_turn_ind (h : t) (i : Z) : t :=
  mk (_dice h) (_hand_type h) (put_together h) i (finalized h).
Definition set_finalized (h : t) (b : bool) : t :=
  mk (_dice h) (_hand_type h) (put_together h) (players_turn_ind h) b.

(** [self._dice.sort(key=lambda die: die.value, reverse=True)]: a stable
    sort, greatest value first; dice of equal value keep their order. *)
Fixpoint insert_desc (d : Die.t) (l : list Die.t) : list Die.t :=
  match l with
  | [] => [d]
  | x :: l' =>
      if Die.value x >? Die.value d then x :: insert_desc d l' else d :: l
  end.

Fixpoint sort_desc (l : list Die.t) : list Die.t :=
  match l with
  | [] => []
  | d :: l' => insert_desc d (sort_desc l')
  end.

Definition sort (h : t) : t := set_dice_raw h (sort_desc (_dice h)).

Definition clear (h : t) : t := set_dice_raw h [].

(** The two places where [detemine_hand_type] builds a High Dice. *)
Definition high_dice (h : t) : result t :=
  let h := sort h in
  (d0 <- getitem (_dice h) 0 ;;
   d1 <- getitem (_dice h) 1 ;;
   d2 <- getitem (_dice h) 2 ;;
   ty <- HandType.new "High Dice"
           (100 * Die.value d0 + 10 * Die.value d1 + Die.value d2) ;;
   Ok (set_hand_type_raw h (Some ty)))%res.

Definition detemine_hand_type (h : t) : result t :=
  if negb (List.length (_dice h) =? 3)%nat then Ok h
  else
    let values := map Die.value (_dice h) in
    let ones_count := List.length (filter (fun v => v =? 1) values) in
    if (ones_count =? 3)%nat then
      (ty <- HandType.new "Schock-out" 0 ;;
       Ok (set_hand_type_raw h (Some ty)))%res
    else if (ones_count =? 2)%nat then
      let die_list := filter (fun d => negb (Die.value d =? 1)) (_dice h) in
      if negb (List.length die_list =? 1)%nat
      then Raise (AssertionError "Schock detected, but Hand doesnt match")
      else
        (d <- getitem die_list 0 ;;
         ty <- HandType.new "Schock" (Die.value d) ;;
         Ok (set_hand_type_raw h (Some ty)))%res
    else if (len_set values =? 1)%nat then
      (d <- getitem (_dice h) 0 ;;
       ty <- HandType.new "General" (Die.value d) ;;
       Ok (set_hand_type_raw h (Some ty)))%res
    else if (len_set values =? 3)%nat then
      let sorted_values := sorted values in
      if list_Z_eqb sorted_values [1; 2; 3] && negb (put_together h) then
        (ty <- HandType.new "Straight" 1 ;;
         Ok (set_hand_type_raw h (Some ty)))%res
      else if list_Z_eqb sorted_values [2; 3; 4] then
        (ty <- HandType.new "Straight" 2 ;;
         Ok (set_hand_type_raw h (Some ty)))%res
      else if list_Z_eqb sorted_values [3; 4; 5] then
        (ty <- HandType.new "Straight" 3 ;;
         Ok (set_hand_type_raw h (Some ty)))%res
      else if list_Z_eqb sorted_values [4; 5; 6] then
        (ty <- HandType.new "Straight" 4 ;;
         Ok (set_hand_type_raw h (Some ty)))%res
      else high_dice h
    else high_dice h.

Definition update (h : t) : result t :=
  let h := sort h in
  let h := if existsb Die.taken_out (_dice h)
           then set_put_together h true else h in
  detemine_hand_type h.

(** [Hand(_dice, put_together, players_turn_ind, finalized)]:
    [__post_init__] calls [update]. *)
Definition new (d : list Die.t) (pt : bool) (ind : Z) (fin : bool) : result t :=
  update (mk d None pt ind fin).

(** [Hand()] *)
Definition empty : result t := new [] false 0 false.

(** [Hand([Die(v) for v in values])] *)
Definition of_values (vs : list Z) : result t :=
  (d <- rmapM Die.of_value vs ;; new d false 0 false)%res.

(** The setter of the [dice] property. *)
Definition set_dice (h : t) (d : list Die.t) : result t :=
  update (set_dice_raw h d).

(** The getter of the [hand_type] property. *)
Definition hand_type (h : t) : result HandType.t :=
  match _hand_type h with
  | None => HandType.new EmptyString 0
  | Some ty => Ok ty
  end.

Definition __eq__ (a b : t) : result bool :=
  if players_turn_ind a =? players_turn_ind b then
    (ta <- hand_type a ;; tb <- hand_type b ;; HandType.__eq__ ta tb)%res
  else Ok false.

Definition __lt__ (a b : t) : result bool :=
  (ta <- hand_type a ;;
   tb <- hand_type b ;;
   e <- HandType.__eq__ ta tb ;;
   if e : bool then Ok (players_turn_ind a >? players_turn_ind b)
   else
     (ta' <- hand_type a ;; tb' <- hand_type b ;; HandType.__lt__ ta' tb'))%res.

(** [!=], the inverse of [__eq__], and the comparisons
    [functools.total_ordering] derives from [__lt__] and [__eq__]. *)
Definition __ne__ (a b : t) : result bool :=
  (e <- __eq__ a b ;; Ok (negb e))%res.

Definition __le__ (a b : t) : result bool :=
  (lt <- __lt__ a b ;; if lt : bool then Ok true else __eq__ a b)%res.

Definition __gt__ (a b : t) : result bool :=
  (lt <- __lt__ a b ;; if lt : bool then Ok false else __ne__ a b)%res.

Definition __ge__ (a b : t) : result bool :=
  (lt <- __lt__ a b ;; Ok (negb lt))%res.

Definition copy (h : t) : result t :=
  (new_hand <- empty ;;
   ds <- rmapM Die.copy (_dice h) ;;
   new_hand <- set_dice new_hand ds ;;
   let new_hand := set_put_together new_hand (put_together h) in
   let new_hand := set_players_turn_ind new_hand (players_turn_ind h) in
   let new_hand := set_finalized new_hand (finalized h) in
   let new_hand := set_hand_type_raw new_hand (_hand_type h) in
   update new_hand)%res.

Definition get_chip_count (h : t) : result Z :=
  if negb (List.length (_dice h) =? 3)%nat
  then Raise (ValueError "Hand must contain exactly 3 dice to count chips")
  else (ty <- hand_type h ;; HandType.chips ty)%res.

Definition finalize (h : t) : result t :=
  if negb (List.length (_dice h) =? 3)%nat
  then Raise (ValueError "Hand must contain exactly 3 dice to finalize")
  else
    (h <- update h ;;
     let h := fold_left
                (fun h die => if Die.taken_out die
                              then set_put_together h true else h)
                (_dice h) h in
     Ok (set_finalized h true))%res.

(** [initialize]: three fresh dice; the setter of [dice] and the explicit
    call both run [update]. *)
Definition initialize (h : t) : M t :=
  (d0 <- Die.random ;;
   d1 <- Die.random ;;
   d2 <- Die.random ;;
   h <- lift (set_dice h [d0; d1; d2]) ;;
   let h := set_put_together h false in
   let h := set_finalized h false in
   lift (update h))%M.

Definition get_visible_dice (h : t) : option (list Die.t) :=
  if negb (finalized h) then None
  else Some (filter Die.visible (_dice h)).

Definition to_name (h : t) : result string :=
  (ty <- hand_type h ;;
   let kind := HandType.hand_type ty in
   if (kind =? "Schock-out")%string then Ok "Schock-out"
   else if (kind =? "Schock")%string then
     Ok ("Schock-" ++ str (HandType.hand_type_value ty))%string
   else if (kind =? "General")%string then
     Ok ("General-" ++ str (HandType.hand_type_value ty))%string
   else if (kind =? "Straight")%string then
     let val := HandType.hand_type_value ty in
     Ok ("Straight-" ++ str val ++ ":" ++ str (val + 2))%string
   else if (kind =? "High Dice")%string then
     let val := str (HandType.hand_type_value ty) in
     (last <- str_at 2 val ;;
      let name := (str_take 2 val ++ "-" ++ last)%string in
      if (val =? "221")%string then Ok "Motte" else Ok name)
   else Ok "not defined")%res.

Definition from_name (name : string) : result t :=
  (hand <- empty ;;
   hand <-
     (if (name =? "Motte")%string then
        (d <- rmapM Die.of_value [1; 2; 2] ;; set_dice hand d)
      else if contains "Schock-out" name then
        (d <- rmapM Die.of_value [1; 1; 1] ;; set_dice hand d)
      else if contains "Schock-" name then
        (part <- getitem (split "-" name) 1 ;;
         value <- int part ;;
         d <- rmapM Die.of_value [1; 1; value] ;; set_dice hand d)
      else if contains "General-" name then
        (part <- getitem (split "-" name) 1 ;;
         value <- int part ;;
         d <- rmapM Die.of_value [value; value; value] ;; set_dice hand d)
      else if contains "Straight-" name then
        (part <- getitem (split "-" name) 1 ;;
         part0 <- getitem (split ":" part) 0 ;;
         value <- int part0 ;;
         d <- rmapM Die.of_value [value; value + 1; value + 2] ;;
         set_dice hand d)
      else if contains "-" name then
        let values := String.concat EmptyString (split "-" name) in
        if negb (String.length values =? 3)%nat
        then Raise (AssertionError "Invalid hand name format")
        else
          (vs <- rmapM int (chars values) ;;
           d <- rmapM Die.of_value vs ;;
           hand <- set_dice hand d ;;
           if contains "1" values
           then Ok (set_put_together hand true) else Ok hand)
      else Raise (ValueError "Unknown hand type")) ;;
   update hand)%res.

End Hand.

(** ** [list.sort()] with a comparison that may raise

    [list.sort] is a stable comparison sort that only calls [<].  For the
    short lists of this program CPython runs an insertion sort: each element
    in turn is moved left past the earlier elements it is smaller than.  This
    is that insertion sort with a linear scan; [lt x y] is [x < y]. *)
Section ListSort.
Context {A : Type} (lt : A -> A -> result bool).

Fixpoint insert_sorted (x : A) (acc : list A) : result (list A) :=
  match acc with
  | [] => Ok [x]
  | y :: acc' =>
      (b <- lt x y ;;
       if b : bool then Ok (x :: y :: acc')
       else (r <- insert_sorted x acc' ;; Ok (y :: r)))%res
  end.

Fixpoint sort_into (acc l : list A) : result (list A) :=
  match l with
  | [] => Ok acc
  | x :: l' => (acc' <- insert_sorted x acc ;; sort_into acc' l')%res
  end.

Definition list_sort (l : list A) : result (list A) := sort_into [] l.
End ListSort.

(** [any(f(x) for x in l)], left to right, stopping at the first hit. *)
Fixpoint anyM {A} (f : A -> result bool) (l : list A) : result bool :=
  match l with
  | [] => Ok false
  | x :: l' => (b <- f x ;; if b : bool then Ok true else anyM f l')%res
  end.

(** [itertools.combinations_with_replacement(pool, r)]. *)
Fixpoint combinations_with_replacement (r : nat) (pool : list Z) : list (list Z) :=
  match r with
  | O => [[]]
  | S r' =>
      (fix from (pool : list Z) : list (list Z) :=
         match pool with
         | [] => []
         | x :: rest =>
             map (cons x) (combinations_with_replacement r' pool) ++ from rest
         end) pool
  end.

(** [sorted(combo, reverse=True)]. *)
Fixpoint insert_rev (v : Z) (l : list Z) : list Z :=
  match l with
  | [] => [v]
  | x :: l' => if x >? v then x :: insert_rev v l' else v :: l
  end.

Fixpoint sorted_reverse (l : list Z) : list Z :=
  match l with
  | [] => []
  | v :: l' => insert_rev v (sorted_reverse l')
  end.

Module HandEnum.

(** [h.hand_type.internal_rank == hand.hand_type.internal_rank] *)
Definition same_rank (hand h : Hand.t) : result bool :=
  (th <- Hand.hand_type h ;;
   rh <- HandType.internal_rank th ;;
   t0 <- Hand.hand_type hand ;;
   r0 <- HandType.internal_rank t0 ;;
   Ok (rh =? r0))%res.

Definition add_if_new (possible_hands : list Hand.t) (hand : Hand.t)
  : result (list Hand.t) :=
  (seen <- anyM (same_rank hand) possible_hands ;;
   if seen : bool then Ok possible_hands else Ok (possible_hands ++ [hand]))%res.

(** One pass of the loop over the combinations. *)
Definition add_combo (possible_hands : list Hand.t) (combo : list Z)
  : result (list Hand.t) :=
  (dice <- rmapM Die.of_value (sorted_reverse combo) ;;
   hand <- Hand.empty ;;
   hand <- Hand.set_dice hand dice ;;
   hand <- Hand.update hand ;;
   hand2 <- Hand.copy hand ;;
   let hand2 := Hand.set_put_together hand2 true in
   hand2 <- Hand.update hand2 ;;
   possible_hands <- add_if_new possible_hands hand ;;
   add_if_new possible_hands hand2)%res.

Fixpoint add_combos (possible_hands : list Hand.t) (combos : list (list Z))
  : result (list Hand.t) :=
  match combos with
  | [] => Ok possible_hands
  | c :: cs =>
      (possible_hands <- add_combo possible_hands c ;;
       add_combos possible_hands cs)%res
  end.

(** [Hand.get_all_possible_hands(return_names=False)] *)
Definition get_all_possible_hands : result (list Hand.t) :=
  (possible_hands <-
     add_combos [] (combinations_with_replacement 3 [1; 2; 3; 4; 5; 6]) ;;
   list_sort Hand.__lt__ possible_hands)%res.

(** [Hand.get_all_possible_hands(return_names=True)] *)
Definition get_all_possible_hand_names : result (list string) :=
  (possible_hands <- get_all_possible_hands ;;
   rmapM Hand.to_name possible_hands)%res.

End HandEnum.

(** ** PlayerID, Turn *)

(** [PlayerID(_id)]: a frozen dataclass around an integer, compared by it.
    [None] is the id of a player that was never added to a game. *)
Definition PlayerID : Type := Z.

Definition pid_eqb (a b : option PlayerID) : bool :=
  match a, b with
  | Some x, Some y => x =? y
  | None, None => true
  | _, _ => false
  end.

Module Turn.

Record t : Type := mk {
  turn_index : Z;
  player_id : option PlayerID;
  final_hand : option Hand.t;
  num_throws : Z
}.

(** The value of [final_hand]; comparing against [None] is a TypeError. *)
Definition the_hand (x : t) : result Hand.t :=
  match final_hand x with
  | Some h => Ok h
  | None => Raise (TypeError "'<' not supported between instances of 'NoneType' and 'Hand'")
  end.

(** [@dataclass(order=True)] with [final_hand] as the only compared
    field: [(a.final_hand,) < (b.final_hand,)].  Tuples compare by their
    first differing position ([==] first, then [<]); equal tuples are not
    smaller. *)
Definition __lt__ (a b : t) : result bool :=
  (ha <- the_hand a ;;
   hb <- the_hand b ;;
   e <- Hand.__eq__ ha hb ;;
   if e : bool then Ok false else Hand.__lt__ ha hb)%res.

Definition __eq__ (a b : t) : result bool :=
  match final_hand a, final_hand b with
  | Some ha, Some hb => Hand.__eq__ ha hb
  | None, None => Ok true
  | _, _ => Ok false
  end.

Definition set_players_turn_ind (x : t) (i : Z) : t :=
  mk (turn_index x) (player_id x)
     (option_map (fun h => Hand.set_players_turn_ind h i) (final_hand x))
     (num_throws x).

End Turn.

(** ** BasePlayer

    A player is an object with a mutable [hand] and [throw_count]; its
    decision method [eval_hand_and_throw] is abstract.  The method is a
    field here: it receives the snapshot of the hand and [max_throws], may
    roll dice and may raise.  These are the decision methods of the
    repository (the body of [BasePlayer.eval_hand_and_throw], [Player] of
    [custom_player.py] and the players of the tests); a method that assigns
    attributes of its player, or of the game passed along as a keyword
    argument, has no counterpart here. *)

Module BasePlayer.

Definition strategy : Type := Hand.t -> Z -> M (bool * Hand.t).

Record t : Type := mk {
  name : string;
  _id : option PlayerID;
  hand : Hand.t;
  throw_count : Z;
  eval_hand_and_throw : strategy
}.

Definition set_hand (p : t) (h : Hand.t) : t :=
  mk (name p) (_id p) h (throw_count p) (eval_hand_and_throw p).
Definition set_throw_count (p : t) (n : Z) : t :=
  mk (name p) (_id p) (hand p) n (eval_hand_and_throw p).
Definition set_id (p : t) (i : option PlayerID) : t :=
  mk (name p) i (hand p) (throw_count p) (eval_hand_and_throw p).

(** [BasePlayer(name)] with the given decision method. *)
Definition new (nm : string) (s : strategy) : result t :=
  (h <- Hand.empty ;; Ok (mk nm None h 0 s))%res.

(** *** The helpers of the default strategy

    [dice_processed] is a Python list of references to dice of the hand.
    A reference is the position of the die in [hand.dice], which none of
    these helpers reorders.  [die in dice_processed] compares with the
    dataclass [==] of [Die], that is by value and flags. *)

Definition die_in (dice : list Die.t) (refs : list nat) (die : Die.t) : bool :=
  existsb (fun j => match nth_error dice j with
                    | Some e => Die.__eq__ e die
                    | None => false
                    end) refs.

Fixpoint set_nth {A} (i : nat) (a : A) (l : list A) : list A :=
  match l, i with
  | [], _ => []
  | _ :: l', O => a :: l'
  | x :: l', S i' => x :: set_nth i' a l'
  end.

(** [[die for die in hand.dice if not die in dice_processed]] *)
Definition dice_to_process (dice : list Die.t) (dice_processed : list nat) : list nat :=
  filter (fun i => match nth_error dice i with
                   | Some die => negb (die_in dice dice_processed die)
                   | None => false
                   end) (seq 0 (List.length dice)).

Definition take_out_ones (hand : Hand.t) (dice_processed : list nat)
  : result (Hand.t * list nat) :=
  if Hand.finalized hand
  then Raise (ValueError "Cannot take out ones in a finalized hand")
  else
    let to_process := dice_to_process (Hand._dice hand) dice_processed in
    let '(dice, processed) :=
      fold_left
        (fun '(dice, processed) i =>
           match nth_error dice i with
           | Some die =>
               if die_in dice to_process die && (Die.value die =? 1)
               then (set_nth i (Die.make_a_one die) dice, processed ++ [i])
               else (dice, processed)
           | None => (dice, processed)
           end)
        (seq 0 (List.length (Hand._dice hand)))
        (Hand._dice hand, dice_processed) in
    Ok (Hand.set_dice_raw hand dice, processed).

(** The loop of the two-sixes case: the first unprocessed six becomes a
    one, then [break]. *)
Fixpoint convert_first_six (to_process : list nat) (idx : list nat)
    (dice : list Die.t) (processed : list nat) : list Die.t * list nat :=
  match idx with
  | [] => (dice, processed)
  | i :: idx' =>
      match nth_error dice i with
      | Some die =>
          if die_in dice to_process die && (Die.value die =? 6)
          then (set_nth i (Die.make_a_one die) dice, processed ++ [i])
          else convert_first_six to_process idx' dice processed
      | None => convert_first_six to_process idx' dice processed
      end
  end.

Definition convert_sixes (hand : Hand.t) (dice_processed : list nat)
  : result (Hand.t * list nat) :=
  if Hand.finalized hand
  then Raise (ValueError "Cannot convert sixes in a finalized hand")
  else if negb (List.length (Hand._dice hand) =? 3)%nat
  then Raise (ValueError "Hand must contain exactly 3 dice to convert sixes")
  else
    let dice := Hand._dice hand in
    let to_process := dice_to_process dice dice_processed in
    let sixes :=
      List.length
        (filter (fun i => match nth_error dice i with
                          | Some die => Die.value die =? 6
                          | None => false
                          end) to_process) in
    if (sixes =? 3)%nat then
      (* for die in hand.dice[:-1] *)
      let '(dice, processed) :=
        fold_left
          (fun '(dice, processed) i =>
             match nth_error dice i with
             | Some die =>
                 (set_nth i (Die.make_a_one die) dice, processed ++ [i])
             | None => (dice, processed)
             end)
          (seq 0 (List.length dice - 1))
          (dice, dice_processed) in
      Ok (Hand.set_dice_raw hand dice, processed)
    else if (sixes =? 2)%nat then
      let '(dice, processed) :=
        convert_first_six to_process (seq 0 (List.length dice))
          dice dice_processed in
      Ok (Hand.set_dice_raw hand dice, processed)
    else Ok (hand, dice_processed).

(** [for die in new_hand.dice: if die not in dice_processed: die.throw();
    dice_processed.append(die)] *)
Fixpoint throw_rest (idx : list nat) (dice : list Die.t) (processed : list nat)
  : M (list Die.t * list nat) :=
  match idx with
  | [] => ret (dice, processed)
  | i :: idx' =>
      match nth_error dice i with
      | Some die =>
          if negb (die_in dice processed die) then
            (die' <- Die.throw die ;;
             throw_rest idx' (set_nth i die' dice) (processed ++ [i]))%M
          else throw_rest idx' dice processed
      | None => throw_rest idx' dice processed
      end
  end.

Definition _throw_new_hand (current_hand : Hand.t)
    (should_take_out_ones should_convert_sixes should_throw_all : bool)
  : M Hand.t :=
  (let dice_processed : list nat := [] in
   new_hand <- lift (Hand.copy current_hand) ;;
   '(new_hand, dice_processed) <-
      (if negb should_throw_all then
         ('(new_hand, dice_processed) <-
            (if should_take_out_ones
             then lift (take_out_ones new_hand dice_processed)
             else ret (new_hand, dice_processed)) ;;
          if should_convert_sixes
          then lift (convert_sixes new_hand dice_processed)
          else ret (new_hand, dice_processed))
       else ret (new_hand, dice_processed)) ;;
   '(dice, dice_processed) <-
      throw_rest (seq 0 (List.length (Hand._dice new_hand)))
        (Hand._dice new_hand) dice_processed ;;
   let new_hand := Hand.set_dice_raw new_hand dice in
   if negb (List.length (Hand._dice new_hand) =? 3)%nat
   then raise (AssertionError "Hand must contain exactly 3 dice after throwing")
   else
     (* the second assert compares the results of two in-place sorts,
        [None == None]; its effect is to sort the dice of the hand *)
     ret (Hand.sort new_hand))%M.

(** The default decision: always throw again
    ([BasePlayer.eval_hand_and_throw] and [custom_player.Player]). *)
Definition default_strategy : strategy :=
  fun current_hand _ =>
    (new_hand <- _throw_new_hand current_hand true true false ;;
     ret (false, new_hand))%M.

(** [Player(name)] of [custom_player.py]. *)
Definition Player (nm : string) : result t := new nm default_strategy.

(** *** play_turn *)

Definition finish_turn (p : t) (turn_index : Z) : M (t * Turn.t) :=
  (h <- lift (Hand.finalize (hand p)) ;;
   let p := set_hand p h in
   final <- lift (Hand.copy (hand p)) ;;
   ret (p, Turn.mk turn_index (_id p) (Some final) (throw_count p)))%M.

(** The [while self.throw_count < max_throws] loop.  Every pass that does
    not [break] adds one to [throw_count], so the loop is a recursion on
    [max_throws - throw_count], passed as [remaining]. *)
Fixpoint throw_loop (remaining : nat) (p : t) (max_throws turn_index : Z)
  : M (t * Turn.t) :=
  match remaining with
  | O => finish_turn p turn_index
  | S remaining' =>
      (current_hand <- lift (Hand.copy (hand p)) ;;
       '(end_turn, new_hand) <- eval_hand_and_throw p current_hand max_throws ;;
       if end_turn : bool then finish_turn p turn_index
       else
         (h <- lift (Hand.update new_hand) ;;
          let p := set_hand p h in
          let p := set_throw_count p (throw_count p + 1) in
          throw_loop remaining' p max_throws turn_index))%M
  end.

Definition play_turn (p : t) (max_throws turn_index : Z) : M (t * Turn.t) :=
  (let p := set_throw_count p 1 in
   h <- Hand.initialize (hand p) ;;
   let p := set_hand p h in
   throw_loop (Z.to_nat (max_throws - throw_count p)) p max_throws turn_index)%M.

End BasePlayer.

(** ** Dictionaries keyed by player ids

    A Python [dict] keeps its keys in insertion order, and [play_half]
    iterates over [chip_balances.items()]: an association list with one
    entry per key, updated in place. *)

Definition dict : Type := list (option PlayerID * Z).

Fixpoint dict_get (d : dict) (k : option PlayerID) : result Z :=
  match d with
  | [] => Raise KeyError
  | (k', v) :: d' => if pid_eqb k' k then Ok v else dict_get d' k
  end.

Fixpoint dict_set (d : dict) (k : option PlayerID) (v : Z) : dict :=
  match d with
  | [] => [(k, v)]
  | (k', v') :: d' =>
      if pid_eqb k' k then (k', v) :: d' else (k', v') :: dict_set d' k v
  end.

Definition dict_sum (d : dict) : Z := fold_right (fun kv s => snd kv + s) 0 d.

(** ** The records of a game *)

Module MiniRound.
Record t : Type := mk {
  mini_round_players : list BasePlayer.t;
  mini_round_index : Z;
  turns : list Turn.t;
  worst_turn : option Turn.t;
  best_turn : option Turn.t;
  given_chips : Z;
  lost_by : option PlayerID
}.

Definition set_given_chips (m : t) (c : Z) : t :=
  mk (mini_round_players m) (mini_round_index m) (turns m) (worst_turn m)
     (best_turn m) c (lost_by m).
Definition set_mini_round_players (m : t) (ps : list BasePlayer.t) : t :=
  mk ps (mini_round_index m) (turns m) (worst_turn m)
     (best_turn m) (given_chips m) (lost_by m).
End MiniRound.

Module ChipManager.
Record t : Type := mk { chips_in_stock : Z; chip_balances : dict }.
(** [ChipManager()] *)
Definition new : t := mk 13 [].
End ChipManager.

Module Half.
Record t : Type := mk {
  halves_index : Z;
  active_players : list BasePlayer.t;
  mini_rounds : list MiniRound.t;
  lost_by : option PlayerID;
  stock_chips_gone : bool;
  chip_manager : ChipManager.t
}.

(** [Half(halves_index=...)] *)
Definition new (i : Z) : t := mk i [] [] None false ChipManager.new.

Definition set_active_players (h : t) (ps : list BasePlayer.t) : t :=
  mk (halves_index h) ps (mini_rounds h) (lost_by h) (stock_chips_gone h)
     (chip_manager h).
Definition set_mini_rounds (h : t) (ms : list MiniRound.t) : t :=
  mk (halves_index h) (active_players h) ms (lost_by h) (stock_chips_gone h)
     (chip_manager h).
Definition set_lost_by (h : t) (l : option PlayerID) : t :=
  mk (halves_index h) (active_players h) (mini_rounds h) l
     (stock_chips_gone h) (chip_manager h).
Definition set_stock_chips_gone (h : t) (b : bool) : t :=
  mk (halves_index h) (active_players h) (mini_rounds h) (lost_by h) b
     (chip_manager h).
Definition set_chip_manager (h : t) (c : ChipManager.t) : t :=
  mk (halves_index h) (active_players h) (mini_rounds h) (lost_by h)
     (stock_chips_gone h) c.
Definition set_chips_in_stock (h : t) (s : Z) : t :=
  set_chip_manager h
    (ChipManager.mk s (ChipManager.chip_balances (chip_manager h))).
Definition set_chip_balances (h : t) (d : dict) : t :=
  set_chip_manager h
    (ChipManager.mk (ChipManager.chips_in_stock (chip_manager h)) d).

Definition stock (h : t) : Z := ChipManager.chips_in_stock (chip_manager h).
Definition balances (h : t) : dict := ChipManager.chip_balances (chip_manager h).
End Half.

Module Round.
Record t : Type := mk {
  round_index : Z;
  halves : list Half.t;
  lost_by : option PlayerID
}.
End Round.

(** ** Game

    Player objects are shared by reference between [Game.players], the
    active players of a half and the players of a mini-round.  Here the
    lists hold player records; two records denote the same object when
    their ids agree ([add_player] gives every player of a game its own id),
    and [sync] writes the players that took a turn back to [Game.players]. *)

Module Game.

Record t : Type := mk {
  players : list BasePlayer.t;
  rounds : list Round.t;
  last_mr : option MiniRound.t
}.

Definition set_players (g : t) (ps : list BasePlayer.t) : t :=
  mk ps (rounds g) (last_mr g).
Definition set_last_mr (g : t) (m : option MiniRound.t) : t :=
  mk (players g) (rounds g) m.
Definition add_round (g : t) (r : Round.t) : t :=
  mk (players g) (rounds g ++ [r]) (last_mr g).

Definition pids (g : t) : list (option PlayerID) :=
  map BasePlayer._id (players g).

Definition same_player (p q : BasePlayer.t) : bool :=
  pid_eqb (BasePlayer._id p) (BasePlayer._id q).

(** [p in l] for player objects. *)
Definition player_in (p : BasePlayer.t) (l : list BasePlayer.t) : bool :=
  existsb (same_player p) l.

(** [l.remove(p)]: drops the first occurrence, or raises. *)
Fixpoint list_remove (p : BasePlayer.t) (l : list BasePlayer.t)
  : result (list BasePlayer.t) :=
  match l with
  | [] => Raise (ValueError "list.remove(x): x not in list")
  | q :: l' =>
      if same_player q p then Ok l'
      else (r <- list_remove p l' ;; Ok (q :: r))%res
  end.

Definition sync (g : t) (ps : list BasePlayer.t) : t :=
  set_players g
    (map (fun p => match find (same_player p) ps with
                   | Some p' => p'
                   | None => p
                   end) (players g)).

(** [repr] of a player id, as the messages print it. *)
Definition repr_pid (pid : option PlayerID) : string :=
  match pid with
  | Some n => ("PID(" ++ str n ++ ")")%string
  | None => "None"
  end.

Definition type_name (pid : option PlayerID) : string :=
  match pid with
  | Some _ => "PlayerID"
  | None => "NoneType"
  end.

(** [max(self.pids)]: every further id is compared with the greatest so
    far; [>] between an id and [None] is a TypeError. *)
Fixpoint max_from (m : option PlayerID) (l : list (option PlayerID))
  : result (option PlayerID) :=
  match l with
  | [] => Ok m
  | x :: l' =>
      match x, m with
      | Some i, Some j => max_from (if i >? j then x else m) l'
      | _, _ =>
          Raise (TypeError ("'>' not supported between instances of '"
                            ++ type_name x ++ "' and '" ++ type_name m ++ "'")%string)
      end
  end.

(** [int(max(self.pids))] *)
Definition max_pid (g : t) : result Z :=
  match pids g with
  | [] => Raise (ValueError "max() arg is an empty sequence")
  | x :: l =>
      (m <- max_from x l ;;
       match m with
       | Some i => Ok i
       | None => Raise (TypeError "int() argument must be a string, a bytes-like object or a real number, not 'NoneType'")
       end)%res
  end.

(** [len(set(l))] for a list of player ids. *)
Fixpoint len_set_pid (l : list (option PlayerID)) : nat :=
  match l with
  | [] => O
  | x :: l' => if existsb (pid_eqb x) l' then len_set_pid l'
               else S (len_set_pid l')
  end.

(** [add_player] for a single player. *)
Definition add_player (g : t) (player : BasePlayer.t) : result t :=
  if existsb (pid_eqb (BasePlayer._id player)) (pids g)
  then Raise (ValueError ("Player with id=" ++ repr_pid (BasePlayer._id player)
                          ++ " already exists.")%string)
  else
    (max_pid <- match players g with
                | [] => Ok (-1)
                | _ => max_pid g
                end ;;
     let player := BasePlayer.set_id player (Some (max_pid + 1)) in
     let g := set_players g (players g ++ [player]) in
     if (List.length (players g) =? len_set_pid (pids g))%nat then Ok g
     else Raise (AssertionError "Player IDs are not unique."))%res.

(** [for p in player: self.add_player(p)] over player objects that are
    all different. *)
Fixpoint add_players (g : t) (l : list BasePlayer.t) : result t :=
  match l with
  | [] => Ok g
  | p :: l' => (g <- add_player g p ;; add_players g l')%res
  end.

(** [add_player(players)] with a list.  A Python list holds references
    and may name one object several times: [objs] are the player objects
    and [refs] is the list, as positions in [objs].  [add_player] writes the
    new id to the object itself, where a later occurrence of the same
    object finds it; the objects are returned as the call leaves them. *)
Fixpoint add_player_refs (g : t) (objs : list BasePlayer.t) (refs : list nat)
  : result (t * list BasePlayer.t) :=
  match refs with
  | [] => Ok (g, objs)
  | r :: refs' =>
      (p <- getitem objs r ;;
       g <- add_player g p ;;
       let p := last (players g) p in
       add_player_refs g (BasePlayer.set_nth r p objs) refs')%res
  end.

Definition add_player_list (g : t) (objs : list BasePlayer.t) (refs : list nat)
  : result (t * list BasePlayer.t) :=
  match refs with
  | [] => Raise (ValueError "player cannot be empty.")
  | _ =>
      ('(g, objs) <- add_player_refs g objs refs ;;
       if (List.length (players g) =? len_set_pid (pids g))%nat
       then Ok (g, objs)
       else Raise (AssertionError "Player IDs are not unique."))%res
  end.

(** [Game()] *)
Definition new : t := mk [] [] None.

(** *** play_mini_round *)

(** The loop over [enumerate(mr.mini_round_players)]: returns the players
    after their turns and the turns in playing order. *)
Fixpoint play_turns (ps : list BasePlayer.t) (i : Z) (max_throws : Z)
  : M (list BasePlayer.t * list Turn.t) :=
  match ps with
  | [] => ret ([], [])
  | player :: ps' =>
      ('(player, turn) <- BasePlayer.play_turn player max_throws i ;;
       let max_throws := if i =? 0 then Turn.num_throws turn else max_throws in
       let turn := Turn.set_players_turn_ind turn i in
       '(ps'', turns) <- play_turns ps' (i + 1) max_throws ;;
       ret (player :: ps'', turn :: turns))%M
  end.

Definition play_mini_round (g : t) (mini_round_players : list BasePlayer.t)
    (mini_round_index : Z) : M MiniRound.t :=
  (let mini_round_players :=
     match mini_round_players with
     | [] => players g
     | _ => mini_round_players
     end in
   if (List.length mini_round_players <? 2)%nat
      || (50 <? List.length mini_round_players)%nat
   then raise (ValueError
                 ("Too little or too many players to play round ("
                  ++ str (Z.of_nat (List.length mini_round_players)) ++ ").")%string)
   else
     ('(ps, turns) <- play_turns mini_round_players 0 3 ;;
      turns <- lift (list_sort Turn.__lt__ turns) ;;
      worst <- lift (getitem turns 0) ;;
      best <- lift (getitem turns (List.length turns - 1)) ;;
      final <- lift (match Turn.final_hand best with
                     | Some h => Ok h
                     | None => Raise (TypeError "'NoneType' object has no attribute 'get_chip_count'")
                     end) ;;
      chips <- lift (Hand.get_chip_count final) ;;
      ret (MiniRound.mk ps mini_round_index turns (Some worst) (Some best)
             chips (Turn.player_id worst))))%M.

(** *** play_half *)

Fixpoint pid_index (l : list (option PlayerID)) (k : option PlayerID) : option nat :=
  match l with
  | [] => None
  | x :: l' => if pid_eqb x k then Some O
               else option_map S (pid_index l' k)
  end.

Definition _change_starting_player (g : t) (active_players : list BasePlayer.t)
    (pid_of_starter : option PlayerID) : result (list BasePlayer.t) :=
  let active_players_og_order :=
    filter (fun p => player_in p active_players) (players g) in
  let pids := map BasePlayer._id active_players_og_order in
  match pid_index pids pid_of_starter with
  | Some n => Ok (skipn n active_players_og_order ++ firstn n active_players_og_order)
  | None => Raise (ValueError "Player who should start is not playing...")
  end.

(** [for p in mr.mini_round_players: ... half.active_players.remove(p)]
    when both names denote the same list object, which is the case whenever
    the half passed a non-empty list to [play_mini_round]: the list shrinks
    under the iteration, whose position [i] moves on by one all the same.
    At most [len] passes run, so [fuel = len] never cuts the loop short. *)
Fixpoint remove_players_out (fuel : nat) (i : nat) (balances : dict)
    (l : list BasePlayer.t) : result (list BasePlayer.t) :=
  match fuel with
  | O => Ok l
  | S fuel' =>
      match nth_error l i with
      | None => Ok l
      | Some p =>
          (chips <- dict_get balances (BasePlayer._id p) ;;
           if chips =? 0
           then (l' <- list_remove p l ;;
                 remove_players_out fuel' (S i) balances l')
           else remove_players_out fuel' (S i) balances l)%res
      end
  end.

(** The same loop when the mini-round played on a list of its own. *)
Fixpoint remove_players_out_of (ps : list BasePlayer.t) (balances : dict)
    (active : list BasePlayer.t) : result (list BasePlayer.t) :=
  match ps with
  | [] => Ok active
  | p :: ps' =>
      (chips <- dict_get balances (BasePlayer._id p) ;;
       if chips =? 0
       then (active' <- list_remove p active ;;
             remove_players_out_of ps' balances active')
       else remove_players_out_of ps' balances active)%res
  end.

(** [for pid, chips in half.chip_manager.chip_balances.items(): ...] *)
Fixpoint find_loser (items : dict) (lost_by : option PlayerID)
  : result (option PlayerID) :=
  match items with
  | [] => Ok lost_by
  | (pid, chips) :: items' =>
      if chips =? 13 then find_loser items' pid
      else if (chips >? 13) || (chips <? 0)
      then Raise (ValueError ("Player " ++ repr_pid pid ++ " has " ++ str chips
                              ++ ", which should not be possible.")%string)
      else find_loser items' lost_by
  end.

(** The chip transfer of one mini-round: the new half and the chips the
    loser receives. *)
Definition distribute_chips (half : Half.t) (mr : MiniRound.t)
    (best : Turn.t) : result (Half.t * MiniRound.t) :=
  ('(half, mr) <-
     (if negb (Half.stock_chips_gone half) then
        let half := Half.set_chips_in_stock half
                      (Half.stock half - MiniRound.given_chips mr) in
        if Half.stock half <=? 0 then
          let mr := MiniRound.set_given_chips mr
                      (MiniRound.given_chips mr - Z.abs (Half.stock half)) in
          let half := Half.set_chips_in_stock half 0 in
          Ok (Half.set_stock_chips_gone half true, mr)
        else Ok (half, mr)
      else
        (bal <- dict_get (Half.balances half) (Turn.player_id best) ;;
         let mr := MiniRound.set_given_chips mr
                     (Z.min (MiniRound.given_chips mr) bal) in
         bal <- dict_get (Half.balances half) (Turn.player_id best) ;;
         let half := Half.set_chip_balances half
                       (dict_set (Half.balances half) (Turn.player_id best)
                          (bal - MiniRound.given_chips mr)) in
         Ok (half, mr))) ;;
   bal <- dict_get (Half.balances half) (MiniRound.lost_by mr) ;;
   let half := Half.set_chip_balances half
                 (dict_set (Half.balances half) (MiniRound.lost_by mr)
                    (bal + MiniRound.given_chips mr)) in
   Ok (half, mr))%res.

(** [if self.last_mr and is_regular_half: half.active_players =
    _change_starting_player(half.active_players, self.last_mr.lost_by)] *)
Definition reorder_players (is_regular_half : bool) (g : t) (half : Half.t)
  : result Half.t :=
  match last_mr g with
  | Some last =>
      if is_regular_half then
        (ps <- _change_starting_player g (Half.active_players half)
                 (MiniRound.lost_by last) ;;
         Ok (Half.set_active_players half ps))%res
      else Ok half
  | None => Ok half
  end.

(** One pass of the [while] loop of [play_half]; the boolean is [true]
    when the pass ends with [break].  The record of the mini-round shares
    its list of players with the half, and follows it when players are
    removed.  In a tie-break half, where the list is never replaced, the
    records of the earlier mini-rounds of the half share it too; their
    [mini_round_players] are left as they were here. *)
Definition half_pass (is_regular_half : bool) (g : t) (half : Half.t)
    (mini_round_index : Z) : M (bool * t * Half.t) :=
  (half <- lift (reorder_players is_regular_half g half) ;;
   let shared := match Half.active_players half with
                 | [] => false
                 | _ => true
                 end in
   mr <- play_mini_round g (Half.active_players half) mini_round_index ;;
   let g := sync g (MiniRound.mini_round_players mr) in
   let half := if shared
               then Half.set_active_players half (MiniRound.mini_round_players mr)
               else half in
   best <- lift (match MiniRound.best_turn mr with
                 | Some b => Ok b
                 | None => Raise (TypeError "'NoneType' object has no attribute 'final_hand'")
                 end) ;;
   final <- lift (match Turn.final_hand best with
                  | Some h => Ok h
                  | None => Raise (TypeError "'NoneType' object has no attribute 'hand_type'")
                  end) ;;
   ty <- lift (Hand.hand_type final) ;;
   schock_out <- lift (HandType.new "Schock-out" 0) ;;
   is_out <- lift (HandType.__eq__ ty schock_out) ;;
   if is_out : bool then
     let half := Half.set_lost_by half (MiniRound.lost_by mr) in
     let half := Half.set_mini_rounds half (Half.mini_rounds half ++ [mr]) in
     ret (true, set_last_mr g (Some mr), half)
   else
     ('(half, mr) <- lift (distribute_chips half mr best) ;;
      '(half, mr) <-
        (if Half.stock_chips_gone half then
           if shared then
             (ps <- lift (remove_players_out
                            (List.length (Half.active_players half)) 0
                            (Half.balances half) (Half.active_players half)) ;;
              ret (Half.set_active_players half ps,
                   MiniRound.set_mini_round_players mr ps))
           else
             (ps <- lift (remove_players_out_of
                            (MiniRound.mini_round_players mr)
                            (Half.balances half) (Half.active_players half)) ;;
              ret (Half.set_active_players half ps, mr))
         else ret (half, mr)) ;;
      let half := Half.set_mini_rounds half (Half.mini_rounds half ++ [mr]) in
      let g := set_last_mr g (Some mr) in
      lost <- lift (find_loser (Half.balances half) (Half.lost_by half)) ;;
      ret (false, g, Half.set_lost_by half lost)))%M.

(** [while half.lost_by == None and mini_round_index < 1000]: every pass
    adds one to [mini_round_index], so the loop is a recursion on
    [1000 - mini_round_index], passed as [remaining]. *)
Fixpoint half_loop (remaining : nat) (is_regular_half : bool) (g : t)
    (half : Half.t) (mini_round_index : Z) : M (t * Half.t) :=
  match remaining with
  | O => ret (g, half)
  | S remaining' =>
      match Half.lost_by half with
      | Some _ => ret (g, half)
      | None =>
          ('(stop, g, half) <- half_pass is_regular_half g half mini_round_index ;;
           if stop : bool then ret (g, half)
           else half_loop remaining' is_regular_half g half (mini_round_index + 1))%M
      end
  end.

(** The half as [play_half] sets it up before the loop. *)
Definition start_half (g : t) (halves_index : Z)
    (players_arg : option (list BasePlayer.t)) : result Half.t :=
  let half := Half.new halves_index in
  let is_regular_half := negb (halves_index =? 2) in
  (half <-
     (match players_arg with
      | Some (p :: ps) =>
          let half := Half.set_active_players half (p :: ps) in
          if is_regular_half
          then Raise (Warning "Regular half (no final) is played with specific players, potentially not all.")
          else Ok half
      | _ =>
          if is_regular_half
          then Ok (Half.set_active_players half (players g))
          else Raise (ValueError "Please either choose halves index of 0 or 1 OR provide a list of players for the final half.")
      end) ;;
   let balances :=
     fold_left (fun d p => dict_set d (BasePlayer._id p) 0)
       (Half.active_players half) [] in
   Ok (Half.set_chip_balances half balances))%res.

Definition play_half (g : t) (halves_index : Z)
    (players_arg : option (list BasePlayer.t)) : M (t * Half.t) :=
  (half <- lift (start_half g halves_index players_arg) ;;
   half_loop 1000 (negb (halves_index =? 2)) g half 0)%M.

(** *** play_round *)

(** [next(p for p in self.players if p.id == pid)] *)
Definition next_player (g : t) (pid : option PlayerID) : result BasePlayer.t :=
  match find (fun p => pid_eqb (BasePlayer._id p) pid) (players g) with
  | Some p => Ok p
  | None => Raise StopIteration
  end.

Definition play_round (g : t) (round_index : Z) : M (t * Round.t) :=
  ('(g, half0) <- play_half g 0 None ;;
   '(g, half1) <- play_half g 1 None ;;
   let halves := [half0; half1] in
   let halves_lost_by := [Half.lost_by half0; Half.lost_by half1] in
   if (len_set_pid halves_lost_by =? 1)%nat then
     r <- lift (getitem halves_lost_by 0) ;;
     let r := Round.mk round_index halves r in
     ret (add_round g r, r)
   else if (len_set_pid halves_lost_by =? 2)%nat then
     final_players <- lift (rmapM (next_player g) halves_lost_by) ;;
     '(g, half) <- play_half g 2 (Some final_players) ;;
     let r := Round.mk round_index (halves ++ [half]) (Half.lost_by half) in
     ret (add_round g r, r)
   else raise (ValueError
                 ("How tf did we get here?! ["
                  ++ String.concat ", " (map repr_pid halves_lost_by) ++ "]")%string))%M.

(** *** get_player_by_id, play_rounds *)

(** The first player whose id is [pid]. *)
Definition get_player_by_id (g : t) (pid : option PlayerID) : result BasePlayer.t :=
  match find (fun player => pid_eqb (BasePlayer._id player) pid) (players g) with
  | Some player => Ok player
  | None => Raise (ValueError ("No player found with id=" ++ repr_pid pid)%string)
  end.

(** [for i in range(num_rounds): rounds.append(self.play_round(i))], from
    the round index [i] on. *)
Fixpoint play_rounds_from (n : nat) (i : Z) (g : t) : M (t * list Round.t) :=
  match n with
  | O => ret (g, [])
  | S n' =>
      ('(g, r) <- play_round g i ;;
       '(g, rounds) <- play_rounds_from n' (i + 1) g ;;
       ret (g, r :: rounds))%M
  end.

Definition play_rounds (g : t) (num_rounds : Z) : M (t * list Round.t) :=
  play_rounds_from (Z.to_nat num_rounds) 0 g.

End Game.

(** ** Vocabulary of the statements *)

(** A die that shows one of its six faces. *)
Definition face (d : Die.t) : Prop := 1 <= Die.value d <= 6.

(** How many of the values are ones. *)
Definition ones (l : list Z) : nat := count_occ Z.eq_dec l 1.

(** The place of a category in the order High Dice, Straight, General,
    Schock, Schock-out (1 to 5; 0 for a name that is no category). *)
Definition category_index (ty : HandType.t) : Z :=
  let k := HandType.hand_type ty in
  if (k =? "High Dice")%string then 1
  else if (k =? "Straight")%string then 2
  else if (k =? "General")%string then 3
  else if (k =? "Schock")%string then 4
  else if (k =? "Schock-out")%string then 5
  else 0.

(** A generator reading the tape [l], then [d] for ever. *)
Definition tape_of (l : list Z) (d : Z) : Rng := mkRng (fun i => nth i l d) 0.

(** The player of the tests, who ends the turn at once. *)
Definition DummyPlayer (nm : string) : result BasePlayer.t :=
  BasePlayer.new nm (fun current_hand _ => ret (true, current_hand)).

(** What the round trip asks of one hand. *)
Definition round_trips (h : Hand.t) : Prop :=
  exists name h2 ty,
    Hand.to_name h = Ok name
    /\ Hand.from_name name = Ok h2
    /\ Hand.hand_type h = Ok ty
    /\ Hand.hand_type h2 = Ok ty
    /\ HandType.__eq__ ty ty = Ok true.

(** A turn as [play_mini_round] records it for the player in position [i]:
    a final hand of three dice with a valid category, marked with [i]. *)
Definition played (i : Z) (t : Turn.t) : Prop :=
  exists h ty,
    Turn.final_hand t = Some h
    /\ Hand.players_turn_ind h = i
    /\ List.length (Hand._dice h) = 3%nat
    /\ Hand._hand_type h = Some ty
    /\ HandType.valid ty.

(** The pair a turn is ordered by: the rank of its category, then its
    position at the table (a later position is worse). *)
Definition turn_key (t : Turn.t) : Z * Z :=
  match Turn.final_hand t with
  | Some h =>
      (match Hand._hand_type h with
       | Some ty => match HandType.internal_rank ty with
                    | Ok r => r
                    | Raise _ => 0
                    end
       | None => 0
       end, Hand.players_turn_ind h)
  | None => (0, 0)
  end.

Definition key_ltb (a b : Z * Z) : bool :=
  (fst a <? fst b) || ((fst a =? fst b) && (snd b <? snd a)).

Definition turn_ltb (a b : Turn.t) : bool := key_ltb (turn_key a) (turn_key b).

(** A game of the players made by [mk] from the names, added in order. *)
Definition game_of (mk : string -> result BasePlayer.t) (names : list string)
  : Game.t :=
  match (ps <- rmapM mk names ;; Game.add_players Game.new ps)%res with
  | Ok g => g
  | Raise _ => Game.new
  end.

(** The chip invariant of a half. *)
Definition chip_inv (half : Half.t) : Prop :=
  Half.stock half + dict_sum (Half.balances half) = 13
  /\ Forall (fun kv => 0 <= snd kv) (Half.balances half)
  /\ (Half.stock_chips_gone half = true -> Half.stock half = 0)
  /\ (Half.stock_chips_gone half = false -> 0 < Half.stock half).

(** The states of the loop of [play_half] at the boundaries of its
    mini-rounds, from the state [half0] the loop starts in. *)
Inductive half_reach (is_regular_half : bool) (g0 : Game.t) (half0 : Half.t)
    (rng0 : Rng) : Game.t -> Half.t -> Z -> Rng -> Prop :=
| reach_start : half_reach is_regular_half g0 half0 rng0 g0 half0 0 rng0
| reach_pass (g : Game.t) (half : Half.t) (i : Z) (rng : Rng)
    (stop : bool) (g' : Game.t) (half' : Half.t) (rng' : Rng) :
    half_reach is_regular_half g0 half0 rng0 g half i rng ->
    Half.lost_by half = None ->
    i < 1000 ->
    Game.half_pass is_regular_half g half i rng = Ok (stop, g', half', rng') ->
    half_reach is_regular_half g0 half0 rng0 g' half' (i + 1) rng'.

(** ** The score register

    [Game._calculate_scores] with its default [condensed_hands=True]: three
    counters keyed by player id and, per player, the histogram of the names
    of the hands played.  A dictionary is an association list in insertion
    order; a missing key is a KeyError.  (A missing attribute of [None] is
    carried as a TypeError, as in [play_mini_round].) *)

Section Assoc.
Context {K V : Type} (eqb : K -> K -> bool).

Fixpoint assoc_get (d : list (K * V)) (k : K) : result V :=
  match d with
  | [] => Raise KeyError
  | (k', v) :: d' => if eqb k' k then Ok v else assoc_get d' k
  end.

Fixpoint assoc_set (d : list (K * V)) (k : K) (v : V) : list (K * V) :=
  match d with
  | [] => [(k, v)]
  | (k', v') :: d' =>
      if eqb k' k then (k', v) :: d' else (k', v') :: assoc_set d' k v
  end.

Definition assoc_mem (d : list (K * V)) (k : K) : bool :=
  existsb (fun kv => eqb (fst kv) k) d.
End Assoc.

(** A loop whose body may raise. *)
Fixpoint rfoldM {A S : Type} (f : S -> A -> result S) (l : list A) (s : S)
  : result S :=
  match l with
  | [] => Ok s
  | a :: l' => (s' <- f s a ;; rfoldM f l' s')%res
  end.

Module Scores.

(** [d[k] += 1] *)
Definition incr (d : dict) (k : option PlayerID) : result dict :=
  (v <- dict_get d k ;; Ok (dict_set d k (v + 1)))%res.

(** The four dictionaries while the rounds are walked through; the hands
    are still lists of names. *)
Record counting : Type := mkCounting {
  all_rounds_lost : dict;
  all_halves_lost : dict;
  all_minirounds_lost : dict;
  all_players_hands : list (option PlayerID * list string)
}.

Record t : Type := mk {
  rounds_lost : dict;
  halves_lost : dict;
  minirounds_lost : dict;
  hands_played : list (option PlayerID * list (string * Z))
}.

(** [all_players_hands[t.player_id].append(t.final_hand.to_name())] *)
Definition count_turn (c : counting) (t : Turn.t) : result counting :=
  (hands <- assoc_get pid_eqb (all_players_hands c) (Turn.player_id t) ;;
   final <- match Turn.final_hand t with
            | Some h => Ok h
            | None => Raise (TypeError "'NoneType' object has no attribute 'to_name'")
            end ;;
   name <- Hand.to_name final ;;
   Ok (mkCounting (all_rounds_lost c) (all_halves_lost c) (all_minirounds_lost c)
         (assoc_set pid_eqb (all_players_hands c) (Turn.player_id t)
            (hands ++ [name]))))%res.

Definition count_mini_round (c : counting) (mr : MiniRound.t) : result counting :=
  (d <- incr (all_minirounds_lost c) (MiniRound.lost_by mr) ;;
   rfoldM count_turn (MiniRound.turns mr)
     (mkCounting (all_rounds_lost c) (all_halves_lost c) d (all_players_hands c)))%res.

Definition count_half (c : counting) (h : Half.t) : result counting :=
  (d <- incr (all_halves_lost c) (Half.lost_by h) ;;
   rfoldM count_mini_round (Half.mini_rounds h)
     (mkCounting (all_rounds_lost c) d (all_minirounds_lost c)
        (all_players_hands c)))%res.

Definition count_round (c : counting) (r : Round.t) : result counting :=
  (d <- incr (all_rounds_lost c) (Round.lost_by r) ;;
   rfoldM count_half (Round.halves r)
     (mkCounting d (all_halves_lost c) (all_minirounds_lost c)
        (all_players_hands c)))%res.

(** [if hand not in hand_histogram: hand_histogram[hand] = 0];
    [hand_histogram[hand] += 1] *)
Definition count_hand (hist : list (string * Z)) (hand : string)
  : result (list (string * Z)) :=
  (let hist := if assoc_mem String.eqb hist hand then hist
               else assoc_set String.eqb hist hand 0 in
   n <- assoc_get String.eqb hist hand ;;
   Ok (assoc_set String.eqb hist hand (n + 1)))%res.

Definition histogram (hands : list string) : result (list (string * Z)) :=
  rfoldM count_hand hands [].

(** [{pid: 0 for pid in self.pids}] *)
Definition zeros (g : Game.t) : dict :=
  fold_left (fun d pid => dict_set d pid 0) (Game.pids g) [].

(** [{pid: [] for pid in self.pids}] *)
Definition no_hands (g : Game.t) : list (option PlayerID * list string) :=
  fold_left (fun d pid => assoc_set pid_eqb d pid []) (Game.pids g) [].

(** The value [_calculate_scores] stores in [self.scores]. *)
Definition _calculate_scores (g : Game.t) : result t :=
  (c <- rfoldM count_round (Game.rounds g)
          (mkCounting (zeros g) (zeros g) (zeros g) (no_hands g)) ;;
   hands <- rmapM (fun kv => (hist <- histogram (snd kv) ;; Ok (fst kv, hist)))
              (all_players_hands c) ;;
   Ok (mk (all_rounds_lost c) (all_halves_lost c) (all_minirounds_lost c) hands))%res.

End Scores.

(** ** Vocabulary of the further properties *)

(** The order [Hand.sort] leaves the dice in: no die is followed by a
    greater one. *)
Definition desc (a b : Die.t) : Prop := Die.value b <= Die.value a.

(** The dice of value [v], in the order of the list. *)
Definition of_value_in (v : Z) (l : list Die.t) : list Die.t :=
  filter (fun d => Die.value d =? v) l.

(** The pair a hand with a category is ordered by. *)
Definition hand_key (h : Hand.t) : Z * Z := turn_key (Turn.mk 0 None (Some h) 0).

(** A hand that carries a valid category. *)
Definition ranked (h : Hand.t) : Prop :=
  exists ty, Hand._hand_type h = Some ty /\ HandType.valid ty.

(** [a < b] on hands answered [True]. *)
Definition hand_lt (a b : Hand.t) : Prop := Hand.__lt__ a b = Ok true.

Definition hand_ltb (a b : Hand.t) : bool :=
  match Hand.__lt__ a b with
  | Ok true => true
  | _ => false
  end.

(** Every hand of the list is smaller than all the hands after it. *)
Fixpoint ascending (l : list Hand.t) : bool :=
  match l with
  | [] => true
  | x :: l' => forallb (hand_ltb x) l' && ascending l'
  end.

(** Equality of two categories, field by field. *)
Definition category_eqb (x y : HandType.t) : bool :=
  (HandType.hand_type x =? HandType.hand_type y)%string
  && (HandType.hand_type_value x =? HandType.hand_type_value y).

(** The hand carries the category [ty]. *)
Definition has_category (ty : HandType.t) (h : Hand.t) : bool :=
  match Hand._hand_type h with
  | Some ty' => category_eqb ty' ty
  | None => false
  end.

(** What [take_out_ones] does to one die: a one is set aside. *)
Definition set_aside_one (d : Die.t) : Die.t :=
  if Die.value d =? 1 then Die.make_a_one d else d.

(** The positions of the list at which the die shows [v]. *)
Definition positions_of (v : Z) (l : list Die.t) : list nat :=
  filter (fun i => match nth_error l i with
                   | Some d => Die.value d =? v
                   | None => false
                   end) (seq 0 (List.length l)).

(** How many of the values are sixes. *)
Definition sixes (l : list Z) : nat := count_occ Z.eq_dec l 6.

(** The ids [add_player] hands out in a new game: 0, 1, ... in order. *)
Definition numbered (n : nat) : list (option PlayerID) :=
  map (fun k => Some (Z.of_nat k)) (seq 0 n).

(** The last mini-round of the half was won with a Schock-out, and its
    loser is the loser of the half. *)
Definition ended_by_schock_out (half : Half.t) : Prop :=
  exists front mr best hand ty,
    Half.mini_rounds half = front ++ [mr]
    /\ MiniRound.best_turn mr = Some best
    /\ Turn.final_hand best = Some hand
    /\ Hand.hand_type hand = Ok ty
    /\ HandType.__eq__ ty HandType.SchockOut = Ok true
    /\ Half.lost_by half = MiniRound.lost_by mr.

(** The loser of the half holds all thirteen chips. *)
Definition ended_by_chips (half : Half.t) : Prop :=
  Half.lost_by half <> None
  /\ In (Half.lost_by half, 13) (Half.balances half)
  /\ Half.stock half = 0
  /\ forall k c, In (k, c) (Half.balances half) -> c = 13 \/ c = 0.

(** The halves, mini-rounds and turns recorded in the rounds of a game. *)
Definition halves_of (g : Game.t) : list Half.t :=
  flat_map Round.halves (Game.rounds g).

Definition mini_rounds_of (g : Game.t) : list MiniRound.t :=
  flat_map Half.mini_rounds (halves_of g).

Definition turns_of (g : Game.t) : list Turn.t :=
  flat_map MiniRound.turns (mini_rounds_of g).

(** The hands counted in a histogram, and in the histograms of all
    players. *)
Definition hist_total (h : list (string * Z)) : Z :=
  fold_right (fun kv s => snd kv + s) 0 h.

Definition hands_total (d : list (option PlayerID * list (string * Z))) : Z :=
  fold_right (fun kv s => hist_total (snd kv) + s) 0 d.

(** What the walk through the rounds keeps track of. *)
Record counted (c c' : Scores.counting) (r h m t : Z) : Prop := {
  counted_rounds :
    dict_sum (Scores.all_rounds_lost c') = dict_sum (Scores.all_rounds_lost c) + r;
  counted_halves :
    dict_sum (Scores.all_halves_lost c') = dict_sum (Scores.all_halves_lost c) + h;
  counted_minirounds :
    dict_sum (Scores.all_minirounds_lost c')
    = dict_sum (Scores.all_minirounds_lost c) + m;
  counted_hands :
    fold_right (fun kv s => Z.of_nat (List.length (snd kv)) + s) 0
      (Scores.all_players_hands c')
    = fold_right (fun kv s => Z.of_nat (List.length (snd kv)) + s) 0
        (Scores.all_players_hands c) + t;
  counted_keys :
    map fst (Scores.all_rounds_lost c') = map fst (Scores.all_rounds_lost c)
    /\ map fst (Scores.all_halves_lost c') = map fst (Scores.all_halves_lost c)
    /\ map fst (Scores.all_minirounds_lost c')
       = map fst (Scores.all_minirounds_lost c)
    /\ map fst (Scores.all_players_hands c')
       = map fst (Scores.all_players_hands c);
  counted_nonneg :
    Forall (fun kv => 0 <= snd kv) (Scores.all_rounds_lost c)
    /\ Forall (fun kv => 0 <= snd kv) (Scores.all_halves_lost c)
    /\ Forall (fun kv => 0 <= snd kv) (Scores.all_minirounds_lost c) ->
    Forall (fun kv => 0 <= snd kv) (Scores.all_rounds_lost c')
    /\ Forall (fun kv => 0 <= snd kv) (Scores.all_halves_lost c')
    /\ Forall (fun kv => 0 <= snd kv) (Scores.all_minirounds_lost c')
}.

(** The state of [add_player] over a list of references to the objects
    [objs], after the objects at the positions [done] joined a game without
    other players, in that order: their ids are 0, 1, 2, ..., the game
    holds these very objects, and no other object has an id. *)
Definition joined (g : Game.t) (objs : list BasePlayer.t) (done : list nat) : Prop :=
  Game.pids g = numbered (List.length done)
  /\ NoDup done
  /\ (forall k r, nth_error done k = Some r ->
        exists p, nth_error objs r = Some p /\ nth_error (Game.players g) k = Some p)
  /\ (forall r p, ~ In r done -> nth_error objs r = Some p -> BasePlayer._id p = None)
  /\ map BasePlayer.name (Game.players g)
     = map (fun r => nth r (map BasePlayer.name objs) EmptyString) done.

(** * Properties of the hand layer *)

Lemma valid_cases (ty : HandType.t) :
  HandType.valid ty ->
  (HandType.hand_type ty = "High Dice" /\ 221 <= HandType.hand_type_value ty <= 665)
  \/ (HandType.hand_type ty = "Straight" /\ 1 <= HandType.hand_type_value ty <= 4)
  \/ (HandType.hand_type ty = "General" /\ 2 <= HandType.hand_type_value ty <= 6)
  \/ (HandType.hand_type ty = "Schock" /\ 2 <= HandType.hand_type_value ty <= 6)
  \/ HandType.hand_type ty = "Schock-out".
Proof.
  destruct ty as [k v]. unfold HandType.valid, HandType.__post_init__, HandType.str_in.
  cbn [HandType.hand_type HandType.hand_type_value existsb].
  destruct (String.eqb_spec k "Schock-out") as [->|]; [cbn; intros _; tauto|].
  destruct (String.eqb_spec k "Schock") as [->|].
  { cbn -[Z.ltb Z.gtb Z.eqb]. destruct (v =? 0) eqn:E0; [discriminate|]. cbn -[Z.ltb Z.gtb Z.eqb].
    destruct (Z.ltb_spec v 2); [discriminate|].
    rewrite Z.gtb_ltb; destruct (Z.ltb_spec 6 v); [discriminate|]. intros _. right; right; right; left. split; [reflexivity|lia]. }
  destruct (String.eqb_spec k "General") as [->|].
  { cbn -[Z.ltb Z.gtb Z.eqb]. destruct (v =? 0) eqn:E0; [discriminate|]. cbn -[Z.ltb Z.gtb Z.eqb].
    destruct (Z.ltb_spec v 2); [discriminate|].
    rewrite Z.gtb_ltb; destruct (Z.ltb_spec 6 v); [discriminate|]. intros _. right; right; left. split; [reflexivity|lia]. }
  destruct (String.eqb_spec k "Straight") as [->|].
  { cbn -[Z.ltb Z.gtb Z.eqb]. destruct (v =? 0) eqn:E0; [discriminate|]. cbn -[Z.ltb Z.gtb Z.eqb].
    destruct (Z.ltb_spec v 1); [discriminate|].
    rewrite Z.gtb_ltb; destruct (Z.ltb_spec 4 v); [discriminate|]. intros _. right; left. split; [reflexivity|lia]. }
  destruct (String.eqb_spec k "High Dice") as [->|].
  { cbn -[Z.ltb Z.gtb Z.eqb]. destruct (v =? 0) eqn:E0; [discriminate|]. cbn -[Z.ltb Z.gtb Z.eqb].
    destruct (Z.ltb_spec v 221); [discriminate|].
    rewrite Z.gtb_ltb; destruct (Z.ltb_spec 665 v); [discriminate|]. intros _. left. split; [reflexivity|lia]. }
  destruct (String.eqb_spec k EmptyString); cbn; discriminate.
Qed.

(** The rank of a valid value, by category. *)
Lemma rank_valid (ty : HandType.t) :
  HandType.valid ty ->
  exists r, HandType.internal_rank ty = Ok r
    /\ 1000 * category_index ty <= r < 1000 * category_index ty + 1000
    /\ 1 <= category_index ty <= 5
    /\ (category_index ty < 5 ->
        r = 1000 * category_index ty + HandType.hand_type_value ty)
    /\ (category_index ty = 5 -> r = 5000).
Proof.
  intros V. destruct (valid_cases ty V) as [[E B]|[[E B]|[[E B]|[[E B]|E]]]];
    destruct ty as [k v]; cbn [HandType.hand_type HandType.hand_type_value] in *; subst k;
    unfold HandType.internal_rank, category_index;
    cbn -[Z.mul Z.add Z.lt Z.le];
    eexists; (split; [reflexivity|]); repeat split; intros; try lia.
Qed.

Lemma chips_valid (ty : HandType.t) :
  HandType.valid ty ->
  exists c, HandType.chips ty = Ok c /\ 1 <= c <= 13
    /\ (category_index ty = 5 -> c = 13)
    /\ (category_index ty = 4 -> c = HandType.hand_type_value ty)
    /\ (category_index ty = 3 -> c = 3)
    /\ (category_index ty = 2 -> c = 2)
    /\ (category_index ty = 1 -> c = 1)
    /\ (category_index ty < 5 -> c <= 6).
Proof.
  intros V. destruct (valid_cases ty V) as [[E B]|[[E B]|[[E B]|[[E B]|E]]]];
    destruct ty as [k v]; cbn [HandType.hand_type HandType.hand_type_value] in *; subst k;
    unfold HandType.chips, category_index;
    cbn -[Z.mul Z.add Z.lt Z.le];
    eexists; (split; [reflexivity|]); repeat split; intros; try lia.
Qed.

Lemma lt_of_ranks (a b : HandType.t) (ra rb : Z) :
  HandType.internal_rank a = Ok ra -> HandType.internal_rank b = Ok rb ->
  HandType.__lt__ a b = Ok (ra <? rb).
Proof. intros Ha Hb. unfold HandType.__lt__. rewrite Ha, Hb. reflexivity. Qed.

Lemma eq_of_ranks (a b : HandType.t) (ra rb : Z) :
  HandType.internal_rank a = Ok ra -> HandType.internal_rank b = Ok rb ->
  HandType.__eq__ a b = Ok (ra =? rb).
Proof. intros Ha Hb. unfold HandType.__eq__. rewrite Ha, Hb. reflexivity. Qed.

Lemma le_of_ranks (a b : HandType.t) (ra rb : Z) :
  HandType.internal_rank a = Ok ra -> HandType.internal_rank b = Ok rb ->
  HandType.__le__ a b = Ok (ra <=? rb).
Proof.
  intros Ha Hb. unfold HandType.__le__.
  rewrite (lt_of_ranks a b ra rb Ha Hb), (eq_of_ranks a b ra rb Ha Hb). cbn.
  destruct (Z.ltb_spec ra rb), (Z.eqb_spec ra rb), (Z.leb_spec ra rb);
    try reflexivity; lia.
Qed.

Ltac bool_to_Z :=
  repeat match goal with
    | H : Ok _ = Ok _ |- _ => injection H as H
    | H : (_ <? _) = true |- _ => apply Z.ltb_lt in H
    | H : (_ <? _) = false |- _ => apply Z.ltb_ge in H
    | H : (_ =? _) = true |- _ => apply Z.eqb_eq in H
    | H : (_ =? _) = false |- _ => apply Z.eqb_neq in H
    | H : (_ <=? _) = true |- _ => apply Z.leb_le in H
    | H : (_ <=? _) = false |- _ => apply Z.leb_gt in H
    | |- Ok _ = Ok _ => f_equal
    | |- (_ <? _) = true => apply Z.ltb_lt
    | |- (_ <? _) = false => apply Z.ltb_ge
    | |- (_ =? _) = true => apply Z.eqb_eq
    | |- (_ =? _) = false => apply Z.eqb_neq
    end.

(** C2: [HandType] values compare by [internal_rank]; on valid values this
    is the order High Dice < Straight < General < Schock < Schock-out, by
    the numeric parameter inside a category, and a strict total order: the
    ranks of two categories never overlap, [<] is irreflexive, asymmetric
    and transitive, any two values are comparable, and [<=] both ways means
    [==]. *)
Theorem C2_handtype_order (a b c : HandType.t) :
  HandType.valid a -> HandType.valid b -> HandType.valid c ->
  exists ra rb,
    HandType.internal_rank a = Ok ra /\ HandType.internal_rank b = Ok rb
    /\ HandType.__lt__ a b = Ok (ra <? rb)
    /\ HandType.__eq__ a b = Ok (ra =? rb)
    /\ (category_index a < category_index b ->
        ra < rb /\ HandType.__lt__ a b = Ok true)
    /\ (category_index a = 1 -> category_index b = 2 -> ra <= 1665 /\ 2001 <= rb)
    /\ (category_index a = category_index b -> category_index a < 5 ->
        HandType.__lt__ a b
          = Ok (HandType.hand_type_value a <? HandType.hand_type_value b)
        /\ HandType.__eq__ a b
          = Ok (HandType.hand_type_value a =? HandType.hand_type_value b))
    /\ (category_index a = 5 -> category_index b = 5 ->
        HandType.__eq__ a b = Ok true /\ HandType.__lt__ a b = Ok false)
    /\ HandType.__lt__ a a = Ok false
    /\ (HandType.__lt__ a b = Ok true -> HandType.__lt__ b a = Ok false)
    /\ (HandType.__lt__ a b = Ok true -> HandType.__lt__ b c = Ok true ->
        HandType.__lt__ a c = Ok true)
    /\ (HandType.__lt__ a b = Ok true \/ HandType.__eq__ a b = Ok true
        \/ HandType.__lt__ b a = Ok true)
    /\ (HandType.__le__ a b = Ok true -> HandType.__le__ b a = Ok true ->
        HandType.__eq__ a b = Ok true).
Proof.
  intros Va Vb Vc.
  destruct (rank_valid a Va) as (ra & Ha & Ba & Ca & Pa & Oa).
  destruct (rank_valid b Vb) as (rb & Hb & Bb & Cb & Pb & Ob).
  destruct (rank_valid c Vc) as (rc & Hc & Bc & Cc & Pc & Oc).
  exists ra, rb.
  rewrite (lt_of_ranks a b ra rb Ha Hb), (eq_of_ranks a b ra rb Ha Hb),
    (lt_of_ranks a a ra ra Ha Ha), (lt_of_ranks b a rb ra Hb Ha),
    (lt_of_ranks b c rb rc Hb Hc), (lt_of_ranks a c ra rc Ha Hc),
    (le_of_ranks a b ra rb Ha Hb), (le_of_ranks b a rb ra Hb Ha).
  split; [exact Ha|]. split; [exact Hb|].
  split; [reflexivity|]. split; [reflexivity|].
  split. { intros L. split; [nia|]. bool_to_Z. nia. }
  split. { intros E1 E2. pose proof E1 as K1. pose proof E2 as K2.
           destruct (valid_cases a Va) as [[E B]|[[E B]|[[E B]|[[E B]|E]]]];
           unfold category_index in E1; rewrite E in E1; cbn in E1; try discriminate.
           destruct (valid_cases b Vb) as [[E' B']|[[E' B']|[[E' B']|[[E' B']|E']]]];
           unfold category_index in E2; rewrite E' in E2; cbn in E2; try discriminate.
           rewrite Pa, Pb by lia. lia. }
  split. { intros E L. rewrite Pa, Pb by lia. rewrite E.
           split; f_equal.
           - destruct (Z.ltb_spec (1000 * category_index b + HandType.hand_type_value a)
                         (1000 * category_index b + HandType.hand_type_value b)),
               (Z.ltb_spec (HandType.hand_type_value a) (HandType.hand_type_value b));
               try reflexivity; lia.
           - destruct (Z.eqb_spec (1000 * category_index b + HandType.hand_type_value a)
                         (1000 * category_index b + HandType.hand_type_value b)),
               (Z.eqb_spec (HandType.hand_type_value a) (HandType.hand_type_value b));
               try reflexivity; lia. }
  split. { intros E1 E2. rewrite (Oa E1), (Ob E2). split; reflexivity. }
  split. { bool_to_Z. lia. }
  split. { intros L. bool_to_Z. lia. }
  split. { intros L1 L2. bool_to_Z. lia. }
  split. { destruct (Z.ltb_spec ra rb); [left; reflexivity|].
           destruct (Z.eqb_spec ra rb); [right; left; reflexivity|].
           right; right. bool_to_Z. lia. }
  intros L1 L2. bool_to_Z. lia.
Qed.

Lemma C2_handtype_order_witness :
  HandType.__lt__ (HandType.HighDice 665) (HandType.Straight 1) = Ok true
  /\ HandType.__lt__ (HandType.Straight 1) (HandType.SchockOut) = Ok true.
Proof.
  destruct (C2_handtype_order (HandType.HighDice 665) (HandType.Straight 1)
              HandType.SchockOut eq_refl eq_refl eq_refl)
    as (ra & rb & _ & _ & _ & _ & H & _).
  split; [apply H; reflexivity | reflexivity].
Defined.

Lemma face_cases (d : Die.t) :
  face d ->
  exists vis tk,
    d = Die.mk 1 vis tk \/ d = Die.mk 2 vis tk \/ d = Die.mk 3 vis tk
    \/ d = Die.mk 4 vis tk \/ d = Die.mk 5 vis tk \/ d = Die.mk 6 vis tk.
Proof.
  destruct d as [v vis tk]. unfold face. cbn. intros F. exists vis, tk.
  assert (v = 1 \/ v = 2 \/ v = 3 \/ v = 4 \/ v = 5 \/ v = 6) as C by lia.
  intuition (subst; auto).
Qed.

Ltac settle_category :=
  cbn [Die.value];
  do 2 eexists;
  split; [vm_compute; reflexivity|];
  split; [reflexivity|];
  split; [vm_compute; reflexivity|];
  split; [reflexivity|];
  repeat split; intros;
  repeat match goal with
    | H : context [ones] |- _ => vm_compute in H
    end;
  first
    [ discriminate
    | exfalso; lia
    | vm_compute; reflexivity
    | match goal with
      | H : In _ _ |- _ =>
          cbn [In] in H; intuition (subst; try reflexivity; congruence)
      end
    | match goal with
      | H : _ = HandType.HighDice _ |- _ => inversion H; lia
      end ].

(** C1: for three dice showing faces, [detemine_hand_type] always returns,
    caches a valid category and leaves the assembled flag alone.  The
    category follows the precedence: three ones are Schock-out; two ones
    are a Schock of the remaining die; three equal dice are a General;
    1-2-3 is Straight 1 unless the hand is assembled, when it is High Dice
    321; 2-3-4, 3-4-5 and 4-5-6 are Straights 2, 3 and 4; everything else is
    the High Dice of the values in descending order, between 221 and 665. *)
Theorem C1_category_determination (h : Hand.t) (d0 d1 d2 : Die.t) :
  Hand._dice h = [d0; d1; d2] -> face d0 -> face d1 -> face d2 ->
  let a := Die.value d0 in
  let b := Die.value d1 in
  let c := Die.value d2 in
  let hi := Z.max a (Z.max b c) in
  let lo := Z.min a (Z.min b c) in
  let mid := a + b + c - hi - lo in
  exists ty h',
    Hand.detemine_hand_type h = Ok h'
    /\ Hand._hand_type h' = Some ty
    /\ HandType.__post_init__ ty = Ok ty
    /\ Hand.put_together h' = Hand.put_together h
    /\ (ones [a; b; c] = 3%nat -> ty = HandType.SchockOut)
    /\ (ones [a; b; c] = 2%nat ->
        forall v, In v [a; b; c] -> v <> 1 -> ty = HandType.Schock v)
    /\ ((ones [a; b; c] < 2)%nat -> a = b -> b = c -> ty = HandType.General a)
    /\ (lo = 1 -> mid = 2 -> hi = 3 -> Hand.put_together h = false ->
        ty = HandType.Straight 1)
    /\ (lo = 1 -> mid = 2 -> hi = 3 -> Hand.put_together h = true ->
        ty = HandType.HighDice 321)
    /\ (2 <= lo -> mid = lo + 1 -> hi = lo + 2 -> ty = HandType.Straight lo)
    /\ ((ones [a; b; c] < 2)%nat -> ~ (a = b /\ b = c) ->
        ~ (mid = lo + 1 /\ hi = lo + 2) ->
        ty = HandType.HighDice (100 * hi + 10 * mid + lo))
    /\ (forall v, ty = HandType.HighDice v -> 221 <= v <= 665).
Proof.
  intros D F0 F1 F2.
  destruct h as [dice ty0 pt ind fin]. cbn [Hand._dice] in D. subst dice.
  destruct (face_cases d0 F0) as (v0 & t0 & C0).
  destruct (face_cases d1 F1) as (v1 & t1 & C1).
  destruct (face_cases d2 F2) as (v2 & t2 & C2).
  clear F0 F1 F2.
  destruct C0 as [->|[->|[->|[->|[->| ->]]]]];
  destruct C1 as [->|[->|[->|[->|[->| ->]]]]];
  destruct C2 as [->|[->|[->|[->|[->| ->]]]]];
  destruct pt; settle_category.
Qed.

Lemma C1_category_determination_witness :
  exists h',
    Hand.detemine_hand_type
      (Hand.mk [Die.mk 3 false false; Die.mk 1 false false; Die.mk 2 false false]
         None false 0 false) = Ok h'
    /\ Hand._hand_type h' = Some (HandType.Straight 1).
Proof.
  destruct (C1_category_determination
              (Hand.mk [Die.mk 3 false false; Die.mk 1 false false;
                        Die.mk 2 false false] None false 0 false)
              (Die.mk 3 false false) (Die.mk 1 false false) (Die.mk 2 false false)
              eq_refl)
    as (ty & h' & E & T & _ & _ & _ & _ & _ & S & _);
    [unfold face; cbn; lia ..|].
  exists h'. split; [exact E|]. rewrite T. f_equal. apply S; reflexivity.
Defined.

(** *** Hands that do not hold three dice *)

Lemma insert_desc_length (d : Die.t) (l : list Die.t) :
  List.length (Hand.insert_desc d l) = S (List.length l).
Proof.
  induction l as [|x l IH]; cbn; [reflexivity|].
  destruct (Die.value x >? Die.value d); cbn; congruence.
Qed.

Lemma sort_desc_length (l : list Die.t) :
  List.length (Hand.sort_desc l) = List.length l.
Proof.
  induction l as [|x l IH]; cbn; [reflexivity|].
  rewrite insert_desc_length. congruence.
Qed.

Lemma detemine_other_length (h : Hand.t) :
  List.length (Hand._dice h) <> 3%nat -> Hand.detemine_hand_type h = Ok h.
Proof.
  intros L. unfold Hand.detemine_hand_type.
  destruct (Nat.eqb_spec (List.length (Hand._dice h)) 3); [contradiction|reflexivity].
Qed.

Lemma hand_type_unset (h : Hand.t) :
  Hand._hand_type h = None ->
  Hand.hand_type h = Raise (ValueError "Hand type cannot be empty").
Proof. intros E. unfold Hand.hand_type. rewrite E. reflexivity. Qed.

Lemma hand_type_cases (h : Hand.t) :
  (exists ty, Hand._hand_type h = Some ty /\ Hand.hand_type h = Ok ty)
  \/ Hand.hand_type h = Raise (ValueError "Hand type cannot be empty").
Proof.
  destruct (Hand._hand_type h) as [ty|] eqn:E.
  - left. exists ty. unfold Hand.hand_type. rewrite E. auto.
  - right. apply hand_type_unset, E.
Qed.

(** C10 (as amended): on a hand that does not hold exactly three dice
    [detemine_hand_type] returns without touching the cached category.  A
    hand constructed with such a list of dice therefore has no category:
    reading [hand_type] raises the ValueError of the empty [HandType], and
    so do [to_name] and [<], [<=], [>] and [>=] against any hand, in both
    directions; [==] and [!=] raise it against a hand of the same turn
    index, and against a hand of another turn index [==] is [False] and
    [!=] is [True].  A hand that has a cached category keeps it when it is
    cleared and when the setter of [dice] gives it a list that does not hold
    three dice: [hand_type] still returns the old category. *)
Theorem C10_hand_without_three_dice (d : list Die.t) (pt fin : bool) (ind : Z) :
  List.length d <> 3%nat ->
  (forall h0, List.length (Hand._dice h0) <> 3%nat ->
              Hand.detemine_hand_type h0 = Ok h0)
  /\ (exists h,
      Hand.new d pt ind fin = Ok h
      /\ List.length (Hand._dice h) = List.length d
      /\ Hand._hand_type h = None
      /\ Hand.hand_type h = Raise (ValueError "Hand type cannot be empty")
      /\ Hand.to_name h = Raise (ValueError "Hand type cannot be empty")
      /\ (forall h2,
            Hand.__lt__ h h2 = Raise (ValueError "Hand type cannot be empty")
            /\ Hand.__lt__ h2 h = Raise (ValueError "Hand type cannot be empty"))
      /\ (forall h2, Hand.players_turn_ind h2 = ind ->
            Hand.__eq__ h h2 = Raise (ValueError "Hand type cannot be empty"))
      /\ (forall h2,
            Hand.__le__ h h2 = Raise (ValueError "Hand type cannot be empty")
            /\ Hand.__le__ h2 h = Raise (ValueError "Hand type cannot be empty")
            /\ Hand.__gt__ h h2 = Raise (ValueError "Hand type cannot be empty")
            /\ Hand.__gt__ h2 h = Raise (ValueError "Hand type cannot be empty")
            /\ Hand.__ge__ h h2 = Raise (ValueError "Hand type cannot be empty")
            /\ Hand.__ge__ h2 h = Raise (ValueError "Hand type cannot be empty"))
      /\ (forall h2, Hand.players_turn_ind h2 = ind ->
            Hand.__eq__ h2 h = Raise (ValueError "Hand type cannot be empty")
            /\ Hand.__ne__ h h2 = Raise (ValueError "Hand type cannot be empty")
            /\ Hand.__ne__ h2 h = Raise (ValueError "Hand type cannot be empty"))
      /\ (forall h2, Hand.players_turn_ind h2 <> ind ->
            Hand.__eq__ h h2 = Ok false
            /\ Hand.__eq__ h2 h = Ok false
            /\ Hand.__ne__ h h2 = Ok true
            /\ Hand.__ne__ h2 h = Ok true))
  /\ (forall h0 ty,
        Hand._hand_type h0 = Some ty ->
        List.length (Hand._dice (Hand.clear h0)) = 0%nat
        /\ Hand._hand_type (Hand.clear h0) = Some ty
        /\ Hand.hand_type (Hand.clear h0) = Ok ty
        /\ forall d', List.length d' <> 3%nat ->
             exists h',
               Hand.set_dice h0 d' = Ok h'
               /\ List.length (Hand._dice h') = List.length d'
               /\ Hand._hand_type h' = Some ty
               /\ Hand.hand_type h' = Ok ty).
Proof.
  intros L. split; [exact detemine_other_length|]. split.
  - unfold Hand.new, Hand.update.
    set (h1 := Hand.sort (Hand.mk d None pt ind fin)).
    set (h := if existsb Die.taken_out (Hand._dice h1)
              then Hand.set_put_together h1 true else h1).
    assert (Hand._dice h = Hand.sort_desc d) as Dh
        by (subst h h1; destruct (existsb _ _); reflexivity).
    assert (Hand._hand_type h = None) as Th
        by (subst h h1; destruct (existsb _ _); reflexivity).
    assert (Hand.players_turn_ind h = ind) as Ih
        by (subst h h1; destruct (existsb _ _); reflexivity).
    assert (List.length (Hand._dice h) = List.length d) as Lh
        by (rewrite Dh; apply sort_desc_length).
    exists h. split; [apply detemine_other_length; congruence|].
    split; [exact Lh|]. split; [exact Th|].
    pose proof (hand_type_unset h Th) as R.
    split; [exact R|].
    split; [unfold Hand.to_name; rewrite R; reflexivity|].
    assert (forall h2,
               Hand.__lt__ h h2 = Raise (ValueError "Hand type cannot be empty")
               /\ Hand.__lt__ h2 h = Raise (ValueError "Hand type cannot be empty"))
      as LT.
    { intros h2. split; unfold Hand.__lt__; rewrite R; [reflexivity|].
      destruct (hand_type_cases h2) as [(ty & _ & ->)| ->]; reflexivity. }
    assert (forall h2, Hand.players_turn_ind h2 = ind ->
               Hand.__eq__ h h2 = Raise (ValueError "Hand type cannot be empty")
               /\ Hand.__eq__ h2 h = Raise (ValueError "Hand type cannot be empty"))
      as EQ.
    { intros h2 E. unfold Hand.__eq__. rewrite Ih, E, Z.eqb_refl, R.
      split; [reflexivity|].
      destruct (hand_type_cases h2) as [(ty & _ & ->)| ->]; reflexivity. }
    split; [exact LT|].
    split; [intros h2 E; apply (EQ h2 E)|].
    split.
    { intros h2. destruct (LT h2) as (L1 & L2).
      unfold Hand.__le__, Hand.__gt__, Hand.__ge__. rewrite L1, L2.
      repeat split; reflexivity. }
    split.
    { intros h2 E. destruct (EQ h2 E) as (E1 & E2).
      unfold Hand.__ne__. rewrite E1, E2. repeat split; reflexivity. }
    intros h2 N. unfold Hand.__ne__, Hand.__eq__. rewrite Ih.
    destruct (Z.eqb_spec ind (Hand.players_turn_ind h2)) as [C|_];
      [symmetry in C; contradiction|].
    destruct (Z.eqb_spec (Hand.players_turn_ind h2) ind) as [C|_];
      [contradiction|].
    repeat split; reflexivity.
  - intros h0 ty T.
    split; [reflexivity|]. split; [exact T|].
    split; [unfold Hand.hand_type, Hand.clear; cbn; rewrite T; reflexivity|].
    intros d' L'. unfold Hand.set_dice, Hand.update.
    set (h1 := Hand.sort (Hand.set_dice_raw h0 d')).
    set (h := if existsb Die.taken_out (Hand._dice h1)
              then Hand.set_put_together h1 true else h1).
    assert (Hand._dice h = Hand.sort_desc d') as Dh
        by (subst h h1; destruct (existsb _ _); reflexivity).
    assert (Hand._hand_type h = Some ty) as Th
        by (subst h h1; destruct (existsb _ _); exact T).
    assert (List.length (Hand._dice h) = List.length d') as Lh
        by (rewrite Dh; apply sort_desc_length).
    exists h. split; [apply detemine_other_length; congruence|].
    split; [exact Lh|]. split; [exact Th|].
    unfold Hand.hand_type. rewrite Th. reflexivity.
Qed.

Lemma C10_hand_without_three_dice_witness :
  exists h,
    Hand.empty = Ok h
    /\ Hand.hand_type h = Raise (ValueError "Hand type cannot be empty").
Proof.
  destruct (C10_hand_without_three_dice [] false false 0)
    as (_ & (h & E & _ & _ & R & _) & _); [cbn; lia|].
  exists h. split; [exact E | exact R].
Defined.

(** The claim as first stated fails on a hand that held three dice and was
    cleared: the dice are gone, the cached category stays, and reading it
    raises nothing. *)
Lemma C10_counterexample :
  exists h0 h',
    Hand.of_values [1; 1; 2] = Ok h0
    /\ List.length (Hand._dice (Hand.clear h0)) = 0%nat
    /\ Hand.detemine_hand_type (Hand.clear h0) = Ok h'
    /\ Hand._hand_type h' = Some (HandType.Schock 2)
    /\ Hand.hand_type h' = Ok (HandType.Schock 2)
    /\ Hand.to_name h' = Ok "Schock-2"
    /\ Hand.update (Hand.clear h0) = Ok h'.
Proof. do 2 eexists. repeat split; vm_compute; reflexivity. Qed.

(** *** finalize *)

(** C7 (the code at the failing input): [finalize] sorts the dice, sets
    [put_together] and [finalized], and never touches the [visible] flag of
    a die.  The hand of the test [test_hand_finalize], and the final hand of
    a turn of the tests' player on the rolls 1, 1, 2, end finalized with
    three hidden dice. *)
Theorem C7_finalize_leaves_dice_hidden :
  (exists h h',
      Hand.of_values [1; 1; 2] = Ok h
      /\ Hand.finalize h = Ok h'
      /\ Hand.finalized h' = true
      /\ map Die.visible (Hand._dice h') = [false; false; false])
  /\ (exists p p' turn final rng',
         DummyPlayer "TestPlayer" = Ok p
         /\ BasePlayer.play_turn p 3 0 (tape_of [1; 1; 2] 1) = Ok (p', turn, rng')
         /\ Turn.final_hand turn = Some final
         /\ Hand.finalized final = true
         /\ map Die.visible (Hand._dice final) = [false; false; false]).
Proof.
  split.
  - do 2 eexists. repeat split; vm_compute; reflexivity.
  - do 5 eexists. repeat split; vm_compute; reflexivity.
Qed.

(** *** Names *)

(** C9: every hand of [get_all_possible_hands] is named by [to_name] and
    rebuilt by [from_name] with the same [hand_type].  The enumeration has
    57 hands and holds every category; "Motte" comes back as High Dice 221,
    "Schock-out" as Schock-out, and the assembled 1-2-3, named "32-1", as
    High Dice 321 and not as Straight 1. *)
Theorem C9_name_round_trip :
  exists hands,
    HandEnum.get_all_possible_hands = Ok hands
    /\ Forall round_trips hands
    /\ List.length hands = 57%nat
    /\ (forall ty,
          In ty ([HandType.SchockOut; HandType.HighDice 221; HandType.HighDice 321;
                  HandType.HighDice 665]
                 ++ map HandType.Schock [2; 3; 4; 5; 6]
                 ++ map HandType.General [2; 3; 4; 5; 6]
                 ++ map HandType.Straight [1; 2; 3; 4]) ->
          In (Some ty) (map Hand._hand_type hands))
    /\ (exists h, Hand.from_name "Motte" = Ok h
                  /\ Hand.hand_type h = Ok (HandType.HighDice 221))
    /\ (exists h, Hand.from_name "Schock-out" = Ok h
                  /\ Hand.hand_type h = Ok HandType.SchockOut)
    /\ (exists h h2,
          In h hands /\ Hand.put_together h = true
          /\ map Die.value (Hand._dice h) = [3; 2; 1]
          /\ Hand.to_name h = Ok "32-1"
          /\ Hand.from_name "32-1" = Ok h2
          /\ Hand.hand_type h = Ok (HandType.HighDice 321)
          /\ Hand.hand_type h2 = Ok (HandType.HighDice 321)).
Proof.
  eexists. split; [vm_compute; reflexivity|].
  split.
  { repeat (apply Forall_cons;
            [do 3 eexists; repeat split; vm_compute; reflexivity|]).
    apply Forall_nil. }
  split; [reflexivity|].
  split.
  { intros ty H. cbn [In app map] in H.
    repeat (destruct H as [<-|H]; [vm_compute; tauto|]). destruct H. }
  split; [eexists; split; vm_compute; reflexivity|].
  split; [eexists; split; vm_compute; reflexivity|].
  do 2 eexists.
  split; [cbn [In]; right; left; reflexivity|].
  repeat split; vm_compute; reflexivity.
Qed.

(** * Reasoning about the monads *)

Lemma rbind_ok {A B} (x : result A) (k : A -> result B) (b : B) :
  rbind x k = Ok b -> exists a, x = Ok a /\ k a = Ok b.
Proof. destruct x as [a|e]; cbn; [eauto | discriminate]. Qed.

Lemma bind_ok {A B} (x : M A) (k : A -> M B) (r : Rng) (v : B * Rng) :
  bind x k r = Ok v -> exists a r1, x r = Ok (a, r1) /\ k a r1 = Ok v.
Proof.
  unfold bind. destruct (x r) as [[a r1]|e]; [eauto | discriminate].
Qed.

Lemma lift_ok {A} (x : result A) (r : Rng) (v : A * Rng) :
  lift x r = Ok v -> x = Ok (fst v) /\ snd v = r.
Proof.
  unfold lift. destruct x; [|discriminate]. intros [= <-]. auto.
Qed.

Lemma ret_ok {A} (a : A) (r : Rng) (v : A * Rng) :
  ret a r = Ok v -> v = (a, r).
Proof. unfold ret. congruence. Qed.

Ltac monad_inv :=
  repeat match goal with
    | H : Ok _ = Ok _ |- _ => injection H as H; try subst
    | H : Raise _ = Ok _ |- _ => discriminate H
    | H : raise _ _ = Ok _ |- _ => discriminate H
    | H : (_, _) = (_, _) |- _ => injection H as H; try subst
    | H : rbind _ _ = Ok _ |- _ =>
        let a := fresh "a" in
        let E := fresh "E" in
        apply rbind_ok in H; destruct H as (a & E & H)
    | H : bind _ _ _ = Ok _ |- _ =>
        let a := fresh "a" in
        let r := fresh "r" in
        let E := fresh "E" in
        apply bind_ok in H; destruct H as (a & r & E & H)
    | H : lift _ _ = Ok _ |- _ =>
        let E := fresh "E" in
        apply lift_ok in H; cbn [fst snd] in H; destruct H as (H & E);
        try subst
    | H : ret _ _ = Ok _ |- _ => apply ret_ok in H; try subst
    | H : (let '(_, _) := ?p in _) = Ok _ |- _ => destruct p
    | H : (let '(_, _) := ?p in _) _ = Ok _ |- _ => destruct p
    end.

(** * Properties of the hand used by the game *)

Lemma post_init_ok (x ty : HandType.t) :
  HandType.__post_init__ x = Ok ty -> ty = x /\ HandType.valid ty.
Proof.
  intros H. assert (ty = x) as ->; [|split; [reflexivity|exact H]].
  unfold HandType.__post_init__ in H.
  repeat match type of H with
         | (if ?c then _ else _) = _ => destruct c
         end; congruence.
Qed.

Lemma new_valid (k : string) (v : Z) (ty : HandType.t) :
  HandType.new k v = Ok ty -> HandType.valid ty.
Proof. intros H. apply post_init_ok in H. tauto. Qed.

(** What [detemine_hand_type] does to a hand when it returns. *)
Record same_hand (h h' : Hand.t) : Prop := {
  same_put_together : Hand.put_together h' = Hand.put_together h;
  same_ind : Hand.players_turn_ind h' = Hand.players_turn_ind h;
  same_finalized : Hand.finalized h' = Hand.finalized h;
  same_dice : Hand._dice h' = Hand._dice h
              \/ Hand._dice h' = Hand.sort_desc (Hand._dice h)
}.

Lemma same_hand_length (h h' : Hand.t) :
  same_hand h h' -> List.length (Hand._dice h') = List.length (Hand._dice h).
Proof.
  intros [_ _ _ [E|E]]; rewrite E; [reflexivity | apply sort_desc_length].
Qed.

Lemma high_dice_ok (h h' : Hand.t) :
  Hand.high_dice h = Ok h' ->
  same_hand h h' /\ exists ty, Hand._hand_type h' = Some ty /\ HandType.valid ty.
Proof.
  unfold Hand.high_dice. intros H. monad_inv.
  apply new_valid in E2.
  split; [constructor; cbn; auto
         | eexists; split; [reflexivity | eassumption]].
Qed.

Lemma detemine_ok (h h' : Hand.t) :
  Hand.detemine_hand_type h = Ok h' ->
  same_hand h h'
  /\ (List.length (Hand._dice h) = 3%nat ->
      exists ty, Hand._hand_type h' = Some ty /\ HandType.valid ty)
  /\ (List.length (Hand._dice h) <> 3%nat -> h' = h).
Proof.
  unfold Hand.detemine_hand_type.
  destruct (Nat.eqb_spec (List.length (Hand._dice h)) 3) as [L|L]; cbn [negb].
  2:{ intros [= <-]. split; [constructor; auto|]. split; [contradiction|auto]. }
  intros H.
  assert (same_hand h h'
          /\ exists ty, Hand._hand_type h' = Some ty /\ HandType.valid ty) as [S T].
  { repeat match type of H with
           | (if ?c then _ else _) = _ => destruct c
           end;
      try (apply high_dice_ok; assumption);
      monad_inv;
      repeat match goal with
        | E : HandType.new _ _ = Ok _ |- _ => apply new_valid in E
        end;
      (split; [constructor; cbn; auto
              | eexists; split; [reflexivity | eassumption]]). }
  split; [exact S|]. split; [intros _; exact T | contradiction].
Qed.

Lemma update_ok (h h' : Hand.t) :
  Hand.update h = Ok h' ->
  Hand.players_turn_ind h' = Hand.players_turn_ind h
  /\ Hand.finalized h' = Hand.finalized h
  /\ List.length (Hand._dice h') = List.length (Hand._dice h)
  /\ (Hand.put_together h = true -> Hand.put_together h' = true)
  /\ (List.length (Hand._dice h) = 3%nat ->
      exists ty, Hand._hand_type h' = Some ty /\ HandType.valid ty).
Proof.
  unfold Hand.update. intros H.
  apply detemine_ok in H. destruct H as (S & T & _).
  pose proof (same_hand_length _ _ S) as L.
  destruct S as [Sp Si Sf _].
  destruct (existsb Die.taken_out (Hand._dice (Hand.sort h)));
    cbn in *; rewrite sort_desc_length in *.
  all: repeat split; auto; try congruence.
Qed.

Lemma rmapM_length {A B} (f : A -> result B) (l : list A) (l' : list B) :
  rmapM f l = Ok l' -> List.length l' = List.length l.
Proof.
  revert l'. induction l as [|a l IH]; cbn; intros l' H; monad_inv; cbn; auto.
Qed.

Lemma copy_ok (h h' : Hand.t) :
  Hand.copy h = Ok h' ->
  Hand.players_turn_ind h' = Hand.players_turn_ind h
  /\ Hand.finalized h' = Hand.finalized h
  /\ List.length (Hand._dice h') = List.length (Hand._dice h)
  /\ (List.length (Hand._dice h) = 3%nat ->
      exists ty, Hand._hand_type h' = Some ty /\ HandType.valid ty).
Proof.
  unfold Hand.copy, Hand.set_dice. intros H. monad_inv.
  apply rmapM_length in E0.
  apply update_ok in E1. apply update_ok in H. cbn in *.
  destruct E1 as (_ & _ & L1 & _). destruct H as (I & F & L & _ & T).
  repeat split; try congruence. intros L3. apply T. congruence.
Qed.

Lemma mark_put_together_dice (ds : list Die.t) (h : Hand.t) :
  Hand._dice
    (fold_left (fun h die => if Die.taken_out die
                             then Hand.set_put_together h true else h) ds h)
  = Hand._dice h
  /\ Hand._hand_type
       (fold_left (fun h die => if Die.taken_out die
                                then Hand.set_put_together h true else h) ds h)
     = Hand._hand_type h.
Proof.
  revert h. induction ds as [|d ds IH]; intros h; cbn; [auto|].
  destruct (Die.taken_out d); rewrite !(proj1 (IH _)), !(proj2 (IH _)); auto.
Qed.

Lemma finalize_ok (h h' : Hand.t) :
  Hand.finalize h = Ok h' ->
  List.length (Hand._dice h) = 3%nat
  /\ List.length (Hand._dice h') = 3%nat
  /\ Hand.finalized h' = true.
Proof.
  unfold Hand.finalize.
  destruct (Nat.eqb_spec (List.length (Hand._dice h)) 3) as [L|L]; cbn [negb];
    [|discriminate].
  intros H. monad_inv. apply update_ok in E. destruct E as (_ & _ & L' & _).
  split; [exact L|]. split; [|reflexivity].
  cbn. rewrite (proj1 (mark_put_together_dice _ _)). congruence.
Qed.

(** * The default throw step *)

(** C8 (the code at the failing input): [_throw_new_hand] decides whether a
    die was processed with [die not in dice_processed], which compares dice
    by value and flags.  On the hand 5-3-3 with the first roll a 3, the 5 is
    thrown and now equals the two other dice, which are then taken for
    processed: one roll is consumed, and the two 3s stay as they were
    although neither was set aside. *)
Theorem C8_unthrown_dice_kept :
  exists h new_hand rng',
    Hand.of_values [5; 3; 3] = Ok h
    /\ BasePlayer._throw_new_hand h true true false (tape_of [3] 6)
       = Ok (new_hand, rng')
    /\ pos rng' = 1%nat
    /\ map Die.value (Hand._dice new_hand) = [3; 3; 3]
    /\ map Die.taken_out (Hand._dice new_hand) = [false; false; false]
    /\ List.length (Hand._dice new_hand) = 3%nat.
Proof. do 3 eexists. repeat split; vm_compute; reflexivity. Qed.

(** * Sorting with a comparison that is a strict weak order *)

Section SortSpec.
Context {A : Type} (lt : A -> A -> result bool).
Context (P : A -> Prop) (R : A -> A -> bool).
Hypothesis lt_R : forall a b, P a -> P b -> lt a b = Ok (R a b).
Hypothesis R_asym : forall a b, R a b = true -> R b a = false.
Hypothesis le_trans :
  forall a b c, R b a = false -> R c b = false -> R c a = false.

Definition le_of (a b : A) : Prop := R b a = false.

Lemma insert_sorted_spec (x : A) (acc : list A) :
  P x -> Forall P acc ->
  exists r, insert_sorted lt x acc = Ok r
            /\ Permutation r (x :: acc)
            /\ (StronglySorted le_of acc -> StronglySorted le_of r).
Proof.
  intros Px. induction acc as [|y acc IH]; intros Pacc.
  - exists [x]. cbn. repeat split; auto. intros _. repeat constructor.
  - inversion_clear Pacc as [|? ? Py Pacc'].
    cbn. rewrite (lt_R x y Px Py). cbn.
    destruct (R x y) eqn:Rxy.
    + exists (x :: y :: acc). repeat split; auto.
      intros S. constructor; [exact S|].
      inversion_clear S as [|? ? S' F].
      constructor; [apply R_asym, Rxy|].
      rewrite Forall_forall in *. intros z Hz.
      apply (le_trans x y z); [apply R_asym, Rxy | apply F, Hz].
    + destruct (IH Pacc') as (r & E & Pr & Sr). rewrite E. cbn.
      exists (y :: r). split; [reflexivity|]. split.
      * rewrite Pr. apply perm_swap.
      * intros S. inversion_clear S as [|? ? S' F].
        constructor; [apply Sr, S'|].
        rewrite Forall_forall in *. intros z Hz.
        apply (Permutation_in _ Pr) in Hz. destruct Hz as [<-|Hz];
          [exact Rxy | apply F, Hz].
Qed.

Lemma sort_into_spec (l acc : list A) :
  Forall P acc -> Forall P l ->
  exists r, sort_into lt acc l = Ok r
            /\ Permutation r (acc ++ l)
            /\ (StronglySorted le_of acc -> StronglySorted le_of r).
Proof.
  revert acc. induction l as [|x l IH]; intros acc Pacc Pl.
  - exists acc. cbn. rewrite app_nil_r. auto.
  - inversion_clear Pl as [|? ? Px Pl'].
    destruct (insert_sorted_spec x acc Px Pacc) as (r1 & E1 & P1 & S1).
    assert (Forall P r1) as Pr1.
    { rewrite Forall_forall. intros z Hz.
      apply (Permutation_in _ P1) in Hz.
      destruct Hz as [<-|Hz]; [exact Px|].
      rewrite Forall_forall in Pacc. auto. }
    destruct (IH r1 Pr1 Pl') as (r & E & Pr & Sr).
    exists r. cbn. rewrite E1. cbn. split; [exact E|]. split.
    + rewrite Pr, P1. cbn. apply Permutation_middle.
    + auto.
Qed.

Lemma list_sort_spec (l : list A) :
  Forall P l ->
  exists r, list_sort lt l = Ok r
            /\ Permutation r l /\ StronglySorted le_of r.
Proof.
  intros Pl. destruct (sort_into_spec l [] (Forall_nil _) Pl) as (r & E & Pr & Sr).
  exists r. split; [exact E|]. split; [exact Pr|]. apply Sr. constructor.
Qed.

Lemma sorted_first (x : A) (l : list A) :
  StronglySorted le_of (x :: l) -> forall z, In z (x :: l) -> z = x \/ le_of x z.
Proof.
  intros S z [<-|Hz]; [auto|]. right.
  inversion_clear S as [|? ? _ F]. rewrite Forall_forall in F. auto.
Qed.

Lemma sorted_last (l : list A) (x : A) :
  StronglySorted le_of (l ++ [x]) -> forall z, In z (l ++ [x]) -> z = x \/ le_of z x.
Proof.
  induction l as [|y l IH]; cbn; intros S z Hz.
  - destruct Hz as [<-|[]]. auto.
  - inversion_clear S as [|? ? S' F]. destruct Hz as [<-|Hz]; [|auto].
    right. rewrite Forall_forall in F. apply F. apply in_or_app. cbn. auto.
Qed.
End SortSpec.

(** * The order of the turns of a mini-round *)

Lemma key_ltb_asym (a b : Z * Z) : key_ltb a b = true -> key_ltb b a = false.
Proof.
  unfold key_ltb. destruct a as [ra ia], b as [rb ib]. cbn.
  destruct (Z.ltb_spec ra rb), (Z.ltb_spec rb ra), (Z.eqb_spec ra rb),
    (Z.eqb_spec rb ra), (Z.ltb_spec ib ia), (Z.ltb_spec ia ib);
    cbn; intros; try reflexivity; try discriminate; lia.
Qed.

Lemma key_le_trans (a b c : Z * Z) :
  key_ltb b a = false -> key_ltb c b = false -> key_ltb c a = false.
Proof.
  unfold key_ltb. destruct a as [ra ia], b as [rb ib], c as [rc ic]. cbn.
  destruct (Z.ltb_spec rb ra), (Z.eqb_spec rb ra), (Z.ltb_spec ia ib),
    (Z.ltb_spec rc rb), (Z.eqb_spec rc rb), (Z.ltb_spec ib ic),
    (Z.ltb_spec rc ra), (Z.eqb_spec rc ra), (Z.ltb_spec ia ic);
    cbn; intros; try reflexivity; try discriminate; lia.
Qed.

Lemma key_total (a b : Z * Z) :
  key_ltb a b = false -> key_ltb b a = false -> a = b.
Proof.
  unfold key_ltb. destruct a as [ra ia], b as [rb ib]. cbn.
  destruct (Z.ltb_spec ra rb), (Z.ltb_spec rb ra), (Z.eqb_spec ra rb),
    (Z.eqb_spec rb ra), (Z.ltb_spec ib ia), (Z.ltb_spec ia ib);
    cbn; intros; try discriminate; f_equal; lia.
Qed.

Lemma played_key (i : Z) (t : Turn.t) :
  played i t ->
  exists h ty r,
    Turn.final_hand t = Some h /\ Hand.hand_type h = Ok ty
    /\ HandType.valid ty /\ HandType.internal_rank ty = Ok r
    /\ Hand.players_turn_ind h = i /\ turn_key t = (r, i).
Proof.
  intros (h & ty & Eh & Ei & _ & Et & V).
  destruct (rank_valid ty V) as (r & Er & _).
  exists h, ty, r. unfold turn_key, Hand.hand_type. rewrite Eh, Et, Er, Ei. auto 10.
Qed.

(** On recorded turns the generated [<] of [Turn] is the lexicographic
    order of the keys. *)
Lemma turn_lt_key (i j : Z) (a b : Turn.t) :
  played i a -> played j b -> Turn.__lt__ a b = Ok (turn_ltb a b).
Proof.
  intros Pa Pb.
  destruct (played_key i a Pa) as (ha & ta & ra & Ea & Ta & _ & Ra & Ia & Ka).
  destruct (played_key j b Pb) as (hb & tb & rb & Eb & Tb & _ & Rb & Ib & Kb).
  unfold Turn.__lt__, Turn.the_hand, Hand.__eq__, Hand.__lt__, turn_ltb, key_ltb.
  rewrite Ea, Eb, Ka, Kb. cbn [rbind fst snd].
  rewrite Ia, Ib, !Ta, !Tb. cbn [rbind].
  rewrite (eq_of_ranks ta tb ra rb Ra Rb), (lt_of_ranks ta tb ra rb Ra Rb).
  cbn [rbind]. rewrite Z.gtb_ltb.
  destruct (Z.eqb_spec i j), (Z.eqb_spec ra rb), (Z.ltb_spec ra rb),
    (Z.ltb_spec j i); cbn; try reflexivity; lia.
Qed.

(** * play_turn and play_mini_round *)

Lemma finish_turn_ok (p p' : BasePlayer.t) (i : Z) (t : Turn.t) (rng rng' : Rng) :
  BasePlayer.finish_turn p i rng = Ok (p', t, rng') ->
  BasePlayer._id p' = BasePlayer._id p
  /\ Turn.turn_index t = i
  /\ Turn.player_id t = BasePlayer._id p
  /\ Turn.num_throws t = BasePlayer.throw_count p
  /\ exists h ty,
      Turn.final_hand t = Some h
      /\ List.length (Hand._dice h) = 3%nat
      /\ Hand.finalized h = true
      /\ Hand._hand_type h = Some ty /\ HandType.valid ty.
Proof.
  unfold BasePlayer.finish_turn. intros H. monad_inv.
  match goal with
  | H : Hand.finalize _ = Ok _ |- _ =>
      apply finalize_ok in H; destruct H as (_ & L & F)
  end.
  match goal with
  | H : Hand.copy _ = Ok _ |- _ =>
      apply copy_ok in H; cbn in H; destruct H as (_ & F' & L' & T)
  end.
  destruct (T L) as (ty & Ety & V). cbn.
  repeat split; auto. eexists _, ty. repeat split; auto; congruence.
Qed.

Lemma throw_loop_ok (n : nat) (p p' : BasePlayer.t) (m i : Z) (t : Turn.t)
    (rng rng' : Rng) :
  BasePlayer.throw_loop n p m i rng = Ok (p', t, rng') ->
  BasePlayer._id p' = BasePlayer._id p
  /\ Turn.turn_index t = i
  /\ Turn.player_id t = BasePlayer._id p
  /\ BasePlayer.throw_count p <= Turn.num_throws t
     <= BasePlayer.throw_count p + Z.of_nat n
  /\ exists h ty,
      Turn.final_hand t = Some h
      /\ List.length (Hand._dice h) = 3%nat
      /\ Hand.finalized h = true
      /\ Hand._hand_type h = Some ty /\ HandType.valid ty.
Proof.
  revert p rng. induction n as [|n IH]; intros p rng H.
  - cbn in H. apply finish_turn_ok in H.
    destruct H as (? & ? & ? & ? & ?). repeat split; auto; lia.
  - cbn [BasePlayer.throw_loop] in H. monad_inv.
    destruct b.
    + apply finish_turn_ok in H.
      destruct H as (? & ? & ? & ? & ?). repeat split; auto; lia.
    + monad_inv. apply IH in H.
      cbn [BasePlayer.throw_count BasePlayer.set_hand
           BasePlayer.set_throw_count BasePlayer._id] in H.
      destruct H as (? & ? & ? & ? & ?). repeat split; auto; lia.
Qed.

Lemma play_turn_ok (p p' : BasePlayer.t) (m i : Z) (t : Turn.t) (rng rng' : Rng) :
  BasePlayer.play_turn p m i rng = Ok (p', t, rng') ->
  BasePlayer._id p' = BasePlayer._id p
  /\ Turn.turn_index t = i
  /\ Turn.player_id t = BasePlayer._id p
  /\ 1 <= Turn.num_throws t <= Z.max 1 m
  /\ exists h ty,
      Turn.final_hand t = Some h
      /\ List.length (Hand._dice h) = 3%nat
      /\ Hand.finalized h = true
      /\ Hand._hand_type h = Some ty /\ HandType.valid ty.
Proof.
  unfold BasePlayer.play_turn. intros H. monad_inv.
  apply throw_loop_ok in H.
  cbn [BasePlayer.throw_count BasePlayer.set_hand BasePlayer.set_throw_count
       BasePlayer._id] in H.
  destruct H as (? & ? & ? & ? & ?). repeat split; auto; lia.
Qed.

Lemma play_turns_ok (ps ps' : list BasePlayer.t) (i m : Z) (turns : list Turn.t)
    (rng rng' : Rng) :
  Game.play_turns ps i m rng = Ok (ps', turns, rng') ->
  map BasePlayer._id ps' = map BasePlayer._id ps
  /\ map Turn.player_id turns = map BasePlayer._id ps
  /\ forall k t, nth_error turns k = Some t -> played (i + Z.of_nat k) t.
Proof.
  revert ps' i m turns rng. induction ps as [|p ps IH]; intros ps' i m turns rng H.
  - cbn in H. monad_inv. repeat split; auto. intros [|k] t; discriminate.
  - cbn [Game.play_turns] in H. monad_inv.
    apply play_turn_ok in E. destruct E as (Ip & _ & Pp & _ & h & ty & Eh & L & _ & Et & V).
    apply IH in E0. destruct E0 as (I' & P' & K').
    cbn. rewrite Ip, Pp, I', P'. repeat split; auto.
    intros [|k] tk Hk; cbn in Hk.
    + injection Hk as <-. exists (Hand.set_players_turn_ind h i), ty.
      unfold Turn.set_players_turn_ind. rewrite Eh. cbn.
      repeat split; auto. lia.
    + apply K' in Hk. replace (i + Z.of_nat (S k)) with (i + 1 + Z.of_nat k) by lia.
      exact Hk.
Qed.

Lemma getitem_first {A} (l : list A) (a : A) :
  getitem l 0 = Ok a -> exists rest, l = a :: rest.
Proof. destruct l as [|x l]; cbn; [discriminate|]. intros [= <-]. eauto. Qed.

Lemma getitem_last {A} (l : list A) (b : A) :
  getitem l (List.length l - 1) = Ok b -> exists front, l = front ++ [b].
Proof.
  unfold getitem. intros H.
  destruct l as [|a l]; [discriminate|].
  destruct (@exists_last _ (a :: l)) as (front & x & E); [discriminate|].
  rewrite E in H |- *. rewrite length_app in H. cbn [List.length] in H.
  replace (List.length front + 1 - 1)%nat with (List.length front) in H by lia.
  rewrite nth_error_app2, Nat.sub_diag in H by lia. cbn in H.
  injection H as ->. eauto.
Qed.

Lemma turn_ltb_irrefl (t : Turn.t) : turn_ltb t t = false.
Proof.
  destruct (turn_ltb t t) eqn:E; [|reflexivity].
  pose proof (key_ltb_asym _ _ E) as E'. unfold turn_ltb in E. congruence.
Qed.

(** What a returned mini-round is made of: the turns in playing order, one
    per player, and their sorted list. *)
Lemma mini_round_parts (g : Game.t) (ps : list BasePlayer.t) (idx : Z)
    (rng rng' : Rng) (mr : MiniRound.t) :
  let players := match ps with [] => Game.players g | _ => ps end in
  Game.play_mini_round g ps idx rng = Ok (mr, rng') ->
  (2 <= List.length players <= 50)%nat
  /\ exists turns0 rest front worst best hand ty,
      (forall k t, nth_error turns0 k = Some t -> played (Z.of_nat k) t)
      /\ map Turn.player_id turns0 = map BasePlayer._id players
      /\ Permutation (MiniRound.turns mr) turns0
      /\ StronglySorted (le_of turn_ltb) (MiniRound.turns mr)
      /\ MiniRound.turns mr = worst :: rest
      /\ MiniRound.turns mr = front ++ [best]
      /\ MiniRound.worst_turn mr = Some worst
      /\ MiniRound.best_turn mr = Some best
      /\ Turn.final_hand best = Some hand
      /\ Hand.hand_type hand = Ok ty
      /\ HandType.valid ty
      /\ HandType.chips ty = Ok (MiniRound.given_chips mr)
      /\ MiniRound.lost_by mr = Turn.player_id worst.
Proof.
  intros players. unfold Game.play_mini_round. fold players.
  destruct (((List.length players <? 2)%nat || (50 <? List.length players)%nat))
    eqn:C; [discriminate|].
  apply orb_false_iff in C. destruct C as [C1 C2].
  apply Nat.ltb_ge in C1, C2.
  intros H. monad_inv.
  rename l into played_ps, l0 into turns0, a into turns, a0 into worst,
    a1 into best, a2 into final, a3 into chips.
  cbn [MiniRound.turns MiniRound.worst_turn MiniRound.best_turn
       MiniRound.given_chips MiniRound.lost_by].
  apply play_turns_ok in E. destruct E as (_ & Pids & K).
  set (P := fun t : Turn.t => exists i, played i t).
  assert (Forall P turns0) as PF.
  { rewrite Forall_forall. intros t Ht.
    apply In_nth_error in Ht. destruct Ht as (k & Hk). eexists. eauto. }
  destruct (list_sort_spec Turn.__lt__ P turn_ltb) with (l := turns0)
    as (srt & Er & Perm & Sorted); auto.
  { intros a b (i & Pa) (j & Pb). eapply turn_lt_key; eauto. }
  { intros a b. apply key_ltb_asym. }
  { intros a b c. apply key_le_trans. }
  rewrite E0 in Er. injection Er as <-.
  destruct (getitem_first _ _ E1) as (rest & Efirst).
  destruct (getitem_last _ _ E2) as (front & Elast).
  assert (In best turns0) as Ib.
  { apply (Permutation_in _ Perm). rewrite Elast. apply in_or_app. cbn. auto. }
  rewrite Forall_forall in PF. destruct (PF best Ib) as (ib & Pb).
  destruct (played_key _ _ Pb) as (hb & ty & rb & Ehb & Ety & V & _).
  assert (final = hb) as -> by (rewrite Ehb in E3; congruence).
  assert (HandType.chips ty = Ok chips) as CH.
  { unfold Hand.get_chip_count in E4.
    destruct (negb _) in E4; [discriminate|]. rewrite Ety in E4. exact E4. }
  split; [lia|].
  exists turns0, rest, front, worst, best, hb, ty.
  replace (fun k t => nth_error turns0 k = Some t -> played (Z.of_nat k) t)
    with (fun k t => nth_error turns0 k = Some t -> played (0 + Z.of_nat k) t)
    in * by reflexivity.
  repeat split; auto.
Qed.

Lemma mini_round_chips (g : Game.t) (ps : list BasePlayer.t) (idx : Z)
    (rng rng' : Rng) (mr : MiniRound.t) :
  Game.play_mini_round g ps idx rng = Ok (mr, rng') ->
  1 <= MiniRound.given_chips mr <= 13.
Proof.
  intros H. apply mini_round_parts in H.
  destruct H as (_ & ? & ? & ? & ? & ? & ? & ty & H).
  destruct H as (_ & _ & _ & _ & _ & _ & _ & _ & _ & _ & V & CH & _).
  destruct (chips_valid ty V) as (c & Ec & B & _).
  assert (c = MiniRound.given_chips mr) as <- by congruence. exact B.
Qed.

(** C4: a mini-round needs 2 to 50 players and raises the ValueError that
    names the number of players otherwise.  When it returns, there is one
    turn per player; [worst_turn] is the least and [best_turn] the greatest
    turn under the order of [Turn] (every other turn is strictly above the
    worst and strictly below the best; among equal categories the hand with
    the higher [players_turn_ind] is strictly worse); [given_chips] is the
    chip value of the category of the best hand, 13 for Schock-out, n for
    Schock n, 3 for a General, 2 for a Straight and 1 for High Dice;
    [lost_by] is the player of the worst turn.  The turns are those of the
    players in the order of the table, [order]: the turn in position [k] is
    the turn of the player in position [k], its hand is marked with [k],
    and of two turns of equal category the one in the earlier position is
    the greater. *)
Theorem C4_mini_round (g : Game.t) (ps : list BasePlayer.t) (idx : Z) (rng : Rng) :
  let players := match ps with [] => Game.players g | _ => ps end in
  ((List.length players < 2 \/ 50 < List.length players)%nat ->
   Game.play_mini_round g ps idx rng
   = Raise (ValueError ("Too little or too many players to play round ("
                        ++ str (Z.of_nat (List.length players)) ++ ").")%string))
  /\ (forall mr rng',
        Game.play_mini_round g ps idx rng = Ok (mr, rng') ->
        (2 <= List.length players <= 50)%nat
        /\ List.length (MiniRound.turns mr) = List.length players
        /\ Permutation (map Turn.player_id (MiniRound.turns mr))
             (map BasePlayer._id players)
        /\ exists worst best hand ty order,
            MiniRound.worst_turn mr = Some worst
            /\ MiniRound.best_turn mr = Some best
            /\ In worst (MiniRound.turns mr)
            /\ In best (MiniRound.turns mr)
            /\ (forall t, In t (MiniRound.turns mr) ->
                  (t = worst \/ Turn.__lt__ worst t = Ok true)
                  /\ (t = best \/ Turn.__lt__ t best = Ok true)
                  /\ Turn.__lt__ t worst = Ok false
                  /\ Turn.__lt__ best t = Ok false)
            /\ (forall t1 t2 h1 h2 ty1 ty2,
                  In t1 (MiniRound.turns mr) -> In t2 (MiniRound.turns mr) ->
                  Turn.final_hand t1 = Some h1 -> Turn.final_hand t2 = Some h2 ->
                  Hand.hand_type h1 = Ok ty1 -> Hand.hand_type h2 = Ok ty2 ->
                  HandType.__eq__ ty1 ty2 = Ok true ->
                  Hand.players_turn_ind h1 > Hand.players_turn_ind h2 ->
                  Turn.__lt__ t1 t2 = Ok true)
            /\ Turn.final_hand best = Some hand
            /\ Hand.hand_type hand = Ok ty
            /\ HandType.valid ty
            /\ HandType.chips ty = Ok (MiniRound.given_chips mr)
            /\ (category_index ty = 5 -> MiniRound.given_chips mr = 13)
            /\ (category_index ty = 4 ->
                MiniRound.given_chips mr = HandType.hand_type_value ty)
            /\ (category_index ty = 3 -> MiniRound.given_chips mr = 3)
            /\ (category_index ty = 2 -> MiniRound.given_chips mr = 2)
            /\ (category_index ty = 1 -> MiniRound.given_chips mr = 1)
            /\ MiniRound.lost_by mr = Turn.player_id worst
            /\ Permutation (MiniRound.turns mr) order
            /\ List.length order = List.length players
            /\ (forall k t, nth_error order k = Some t ->
                  exists p h,
                    nth_error players k = Some p
                    /\ Turn.player_id t = BasePlayer._id p
                    /\ Turn.final_hand t = Some h
                    /\ Hand.players_turn_ind h = Z.of_nat k)
            /\ (forall k1 k2 t1 t2 h1 h2 ty1 ty2,
                  nth_error order k1 = Some t1 -> nth_error order k2 = Some t2 ->
                  Turn.final_hand t1 = Some h1 -> Turn.final_hand t2 = Some h2 ->
                  Hand.hand_type h1 = Ok ty1 -> Hand.hand_type h2 = Ok ty2 ->
                  HandType.__eq__ ty1 ty2 = Ok true ->
                  (k1 < k2)%nat ->
                  Turn.__lt__ t2 t1 = Ok true /\ Turn.__lt__ t1 t2 = Ok false)).
Proof.
  intros players. split.
  { unfold Game.play_mini_round. fold players. intros C.
    destruct (((List.length players <? 2)%nat
               || (50 <? List.length players)%nat)) eqn:C'; [reflexivity|].
    apply orb_false_iff in C'. destruct C' as [C1 C2].
    apply Nat.ltb_ge in C1, C2. lia. }
  intros mr rng' H. apply mini_round_parts in H. fold players in H.
  destruct H as (Len & turns0 & rest & front & worst & best & hb & ty & H).
  destruct H as (K & Pids & Perm & Sorted & Efirst & Elast & Ew & Eb & Ehb
                 & Ety & V & CH & Lost).
  set (turns := MiniRound.turns mr) in *.
  set (P := fun t : Turn.t => exists i, played i t).
  assert (forall t, In t turns -> P t) as PT.
  { intros t Ht. apply (Permutation_in _ Perm) in Ht.
    apply In_nth_error in Ht. destruct Ht as (k & Hk). eexists. eauto. }
  assert (forall a b, In a turns -> In b turns ->
                      Turn.__lt__ a b = Ok (turn_ltb a b)) as LT.
  { intros a b Ha Hb. destruct (PT a Ha) as (i & Pa), (PT b Hb) as (j & Pb).
    eapply turn_lt_key; eauto. }
  assert (forall a b, In a turns -> In b turns ->
                      turn_key a = turn_key b -> a = b) as UNIQ.
  { intros a b Ha Hb Kab.
    apply (Permutation_in _ Perm) in Ha, Hb.
    apply In_nth_error in Ha, Hb. destruct Ha as (ka & Ha), Hb as (kb & Hb).
    destruct (played_key _ _ (K _ _ Ha)) as (? & ? & ra & _ & _ & _ & _ & _ & Ka).
    destruct (played_key _ _ (K _ _ Hb)) as (? & ? & rb & _ & _ & _ & _ & _ & Kb).
    rewrite Ka, Kb in Kab. injection Kab as _ Kab.
    assert (ka = kb) as -> by lia. congruence. }
  assert (forall a b, In a turns -> In b turns ->
                      le_of turn_ltb a b -> a = b \/ turn_ltb a b = true) as STRICT.
  { intros a b Ha Hb Lab. unfold le_of in Lab.
    destruct (turn_ltb a b) eqn:Eab; [auto|]. left.
    apply UNIQ; auto. apply key_total; assumption. }
  assert (In worst turns) as Iw by (rewrite Efirst; cbn; auto).
  assert (In best turns) as Ib by (rewrite Elast; apply in_or_app; cbn; auto).
  assert (List.length turns0 = List.length players) as Len0.
  { rewrite <- (length_map Turn.player_id), Pids. apply length_map. }
  split; [exact Len|].
  split.
  { subst turns. rewrite (Permutation_length Perm). exact Len0. }
  split.
  { rewrite <- Pids. apply Permutation_map, Perm. }
  exists worst, best, hb, ty, turns0.
  repeat (split; [first [reflexivity | assumption]|]).
  split.
  { intros t Ht.
    assert (t = worst \/ le_of turn_ltb worst t) as Hw.
    { rewrite Efirst in Sorted, Ht. apply (sorted_first turn_ltb worst rest Sorted t Ht). }
    assert (t = best \/ le_of turn_ltb t best) as Hb.
    { rewrite Elast in Sorted, Ht. apply (sorted_last turn_ltb front best Sorted t Ht). }
    rewrite !LT by assumption.
    split.
    { destruct Hw as [->|Hw]; [auto|].
      destruct (STRICT worst t Iw Ht Hw) as [->| ->]; auto. }
    split.
    { destruct Hb as [->|Hb]; [auto|].
      destruct (STRICT t best Ht Ib Hb) as [->| ->]; auto. }
    split.
    { destruct Hw as [->|Hw]; [rewrite turn_ltb_irrefl; reflexivity|].
      unfold le_of in Hw. rewrite Hw. reflexivity. }
    destruct Hb as [->|Hb]; [rewrite turn_ltb_irrefl; reflexivity|].
    unfold le_of in Hb. rewrite Hb. reflexivity. }
  split.
  { intros t1 t2 h1 h2 ty1 ty2 I1 I2 E1' E2' T1 T2 EQ GT.
    rewrite LT by assumption.
    destruct (PT t1 I1) as (i1 & P1). destruct (PT t2 I2) as (i2 & P2).
    destruct (played_key _ _ P1) as (h1' & ty1' & r1 & F1 & Y1 & _ & R1 & J1 & K1).
    destruct (played_key _ _ P2) as (h2' & ty2' & r2 & F2 & Y2 & _ & R2 & J2 & K2).
    assert (h1' = h1) as -> by congruence. assert (h2' = h2) as -> by congruence.
    assert (ty1' = ty1) as -> by congruence. assert (ty2' = ty2) as -> by congruence.
    rewrite (eq_of_ranks ty1 ty2 r1 r2 R1 R2) in EQ. injection EQ as EQ.
    apply Z.eqb_eq in EQ. f_equal. unfold turn_ltb, key_ltb. rewrite K1, K2.
    cbn [fst snd]. subst r2. rewrite Z.eqb_refl.
    replace (i2 <? i1) with true by (symmetry; apply Z.ltb_lt; lia).
    apply orb_true_r. }
  split; [exact Ehb|]. split; [exact Ety|]. split; [exact V|].
  destruct (chips_valid ty V) as (c & Ec & _ & M5 & M4 & M3 & M2 & M1 & _).
  assert (c = MiniRound.given_chips mr) as -> by congruence.
  do 7 (split; [assumption|]).
  split; [exact Perm|]. split; [exact Len0|].
  split.
  { intros k t Hk.
    destruct (played_key _ _ (K _ _ Hk)) as (h & _ & _ & Fh & _ & _ & _ & Jh & _).
    assert (nth_error (map Turn.player_id turns0) k = Some (Turn.player_id t)) as Hid
        by (rewrite nth_error_map, Hk; reflexivity).
    rewrite Pids, nth_error_map in Hid.
    destruct (nth_error players k) as [p|] eqn:Hp; [|discriminate].
    injection Hid as Hid. exists p, h. auto. }
  intros k1 k2 t1 t2 h1 h2 ty1 ty2 H1 H2 E1' E2' T1 T2 EQ LT12.
  assert (In t1 turns) as I1
      by (apply (Permutation_in _ (Permutation_sym Perm)); eapply nth_error_In; eauto).
  assert (In t2 turns) as I2
      by (apply (Permutation_in _ (Permutation_sym Perm)); eapply nth_error_In; eauto).
  rewrite !LT by assumption.
  destruct (played_key _ _ (K _ _ H1)) as (h1' & ty1' & r1 & F1 & Y1 & _ & R1 & J1 & K1).
  destruct (played_key _ _ (K _ _ H2)) as (h2' & ty2' & r2 & F2 & Y2 & _ & R2 & J2 & K2).
  assert (h1' = h1) as -> by congruence. assert (h2' = h2) as -> by congruence.
  assert (ty1' = ty1) as -> by congruence. assert (ty2' = ty2) as -> by congruence.
  rewrite (eq_of_ranks ty1 ty2 r1 r2 R1 R2) in EQ. injection EQ as EQ.
  apply Z.eqb_eq in EQ. unfold turn_ltb, key_ltb. rewrite K1, K2.
  cbn [fst snd]. subst r2. rewrite Z.eqb_refl, Z.ltb_irrefl. cbn [orb andb].
  split; f_equal; [apply Z.ltb_lt | apply Z.ltb_ge]; lia.
Qed.

Lemma C4_mini_round_witness :
  (exists mr rng',
      Game.play_mini_round (game_of DummyPlayer ["A"; "B"]) [] 0
        (tape_of [6; 6; 6; 1; 1; 1] 1) = Ok (mr, rng')
      /\ List.length (MiniRound.turns mr) = 2%nat
      /\ MiniRound.given_chips mr = 13
      /\ MiniRound.lost_by mr = Some 0)
  /\ Game.play_mini_round (game_of DummyPlayer ["A"]) [] 0 (tape_of [] 1)
     = Raise (ValueError "Too little or too many players to play round (1).").
Proof.
  split.
  - destruct (Game.play_mini_round (game_of DummyPlayer ["A"; "B"]) [] 0
                (tape_of [6; 6; 6; 1; 1; 1] 1)) as [[mr rng']|e] eqn:E;
      [|vm_compute in E; discriminate E].
    exists mr, rng'. split; [reflexivity|].
    destruct (proj2 (C4_mini_round _ _ _ _) mr rng' E) as (_ & L & _).
    split; [exact L|].
    vm_compute in E. injection E as <- <-. split; reflexivity.
  - apply (proj1 (C4_mini_round (game_of DummyPlayer ["A"]) [] 0 (tape_of [] 1))).
    vm_compute. lia.
Defined.

(** * The chip economy of a half *)

Lemma dict_set_sum (d : dict) (k : option PlayerID) (v v' : Z) :
  dict_get d k = Ok v -> dict_sum (dict_set d k v') = dict_sum d - v + v'.
Proof.
  induction d as [|[k0 v0] d IH]; cbn [dict_get dict_set]; [discriminate|].
  destruct (pid_eqb k0 k); unfold dict_sum in *; cbn [fold_right snd].
  - intros [= ->]. lia.
  - intros H. rewrite (IH H). lia.
Qed.

Lemma dict_set_nonneg (d : dict) (k : option PlayerID) (v' : Z) :
  Forall (fun kv => 0 <= snd kv) d -> 0 <= v' ->
  Forall (fun kv => 0 <= snd kv) (dict_set d k v').
Proof.
  intros F V. induction d as [|[k0 v0] d IH]; cbn.
  - repeat constructor. exact V.
  - inversion_clear F as [|? ? F0 F']. destruct (pid_eqb k0 k); constructor; auto.
Qed.

Lemma dict_get_nonneg (d : dict) (k : option PlayerID) (v : Z) :
  Forall (fun kv => 0 <= snd kv) d -> dict_get d k = Ok v -> 0 <= v.
Proof.
  intros F. induction d as [|[k0 v0] d IH]; cbn; [discriminate|].
  inversion_clear F as [|? ? F0 F']. destruct (pid_eqb k0 k); [|auto].
  intros [= <-]. exact F0.
Qed.

Lemma dict_nonneg_le_sum (d : dict) :
  Forall (fun kv => 0 <= snd kv) d ->
  0 <= dict_sum d /\ Forall (fun kv => 0 <= snd kv <= dict_sum d) d.
Proof.
  induction d as [|[k v] d IH]; intros F.
  - cbn. split; [lia|constructor].
  - inversion_clear F as [|? ? F0 F']. cbn [snd] in F0.
    destruct (IH F') as [S IH']. unfold dict_sum in *. cbn [fold_right snd].
    split; [lia|]. constructor; [cbn [snd]; lia|].
    eapply Forall_impl; [|exact IH']. intros a; cbn beta; lia.
Qed.

Lemma chip_inv_ext (h h' : Half.t) :
  Half.chip_manager h' = Half.chip_manager h ->
  Half.stock_chips_gone h' = Half.stock_chips_gone h ->
  chip_inv h -> chip_inv h'.
Proof.
  unfold chip_inv, Half.stock, Half.balances. intros -> ->. auto.
Qed.

Ltac simpl_half :=
  cbn [Half.chip_manager Half.stock_chips_gone Half.set_chip_balances
       Half.set_chips_in_stock Half.set_chip_manager Half.set_stock_chips_gone
       Half.set_active_players Half.set_mini_rounds Half.set_lost_by
       Half.active_players Half.mini_rounds Half.lost_by Half.halves_index
       Half.stock Half.balances
       ChipManager.chips_in_stock ChipManager.chip_balances
       MiniRound.given_chips MiniRound.set_given_chips MiniRound.lost_by
       MiniRound.set_mini_round_players MiniRound.turns MiniRound.best_turn
       MiniRound.worst_turn MiniRound.mini_round_players
       MiniRound.mini_round_index negb] in *.

(** The chip transfer of one mini-round, case by case. *)
Lemma distribute_chips_ok (half half2 : Half.t) (mr mr2 : MiniRound.t) (best : Turn.t) :
  Game.distribute_chips half mr best = Ok (half2, mr2) ->
  0 <= MiniRound.given_chips mr ->
  chip_inv half ->
  let chips := MiniRound.given_chips mr in
  let c := MiniRound.given_chips mr2 in
  let payer := Turn.player_id best in
  let loser := MiniRound.lost_by mr in
  chip_inv half2
  /\ mr2 = MiniRound.set_given_chips mr c
  /\ Half.active_players half2 = Half.active_players half
  /\ Half.mini_rounds half2 = Half.mini_rounds half
  /\ Half.lost_by half2 = Half.lost_by half
  /\ Half.halves_index half2 = Half.halves_index half
  /\ (Half.stock_chips_gone half = false ->
      Half.stock half2 = Z.max 0 (Half.stock half - chips)
      /\ c = Half.stock half - Half.stock half2
      /\ c = Z.min chips (Half.stock half)
      /\ exists bl,
          dict_get (Half.balances half) loser = Ok bl
          /\ Half.balances half2 = dict_set (Half.balances half) loser (bl + c))
  /\ (Half.stock_chips_gone half = true ->
      Half.stock half2 = 0
      /\ Half.stock_chips_gone half2 = true
      /\ dict_sum (Half.balances half2) = dict_sum (Half.balances half)
      /\ exists bp bl,
          dict_get (Half.balances half) payer = Ok bp
          /\ c = Z.min chips bp
          /\ 0 <= c <= bp
          /\ dict_get (dict_set (Half.balances half) payer (bp - c)) loser = Ok bl
          /\ Half.balances half2
             = dict_set (dict_set (Half.balances half) payer (bp - c)) loser (bl + c)).
Proof.
  intros H C (Isum & Ipos & Igone & Ifresh). unfold Game.distribute_chips in H.
  destruct half as [hi ap mrs lb gone [stock bal]].
  unfold chip_inv, Half.stock, Half.balances in *. simpl_half.
  destruct gone; simpl_half.
  - (* after exhaustion *)
    specialize (Igone eq_refl). subst stock. monad_inv. simpl_half.
    rename a0 into bp, a into bl.
    assert (a1 = bp) as -> by congruence. clear E1.
    pose proof (dict_get_nonneg _ _ _ Ipos E0) as Bp.
    set (c := Z.min (MiniRound.given_chips mr) bp) in *.
    assert (0 <= c <= bp) as Bc by (subst c; lia).
    pose proof (dict_set_nonneg bal (Turn.player_id best) (bp - c) Ipos
                  ltac:(lia)) as Ipos1.
    pose proof (dict_get_nonneg _ _ _ Ipos1 E) as Bl.
    split.
    { split; [|split; [|split]].
      - rewrite (dict_set_sum _ _ _ _ E), (dict_set_sum _ _ _ _ E0). lia.
      - apply dict_set_nonneg; [exact Ipos1 | lia].
      - reflexivity.
      - discriminate. }
    split; [reflexivity|]. repeat (split; [reflexivity|]).
    split; [discriminate|]. intros _.
    repeat (split; [reflexivity|]).
    split.
    { rewrite (dict_set_sum _ _ _ _ E), (dict_set_sum _ _ _ _ E0). lia. }
    exists bp, bl. auto 10.
  - (* the stock still holds chips *)
    specialize (Ifresh eq_refl).
    destruct (Z.leb_spec (stock - MiniRound.given_chips mr) 0) as [Le|Gt];
      monad_inv; simpl_half.
    + rename a into bl.
      set (c := MiniRound.given_chips mr - Z.abs (stock - MiniRound.given_chips mr)) in *.
      assert (c = stock) as Ec by (subst c; lia).
      split.
      { split; [|split; [|split]].
        - rewrite (dict_set_sum _ _ _ _ E). lia.
        - apply dict_set_nonneg; [exact Ipos|].
          pose proof (dict_get_nonneg _ _ _ Ipos E). lia.
        - reflexivity.
        - discriminate. }
      split; [reflexivity|]. repeat (split; [reflexivity|]).
      split; [|discriminate]. intros _.
      split; [lia|]. split; [lia|]. split; [lia|].
      exists bl. auto.
    + rename a into bl.
      split.
      { split; [|split; [|split]].
        - rewrite (dict_set_sum _ _ _ _ E). lia.
        - apply dict_set_nonneg; [exact Ipos|].
          pose proof (dict_get_nonneg _ _ _ Ipos E). lia.
        - discriminate.
        - intros _. lia. }
      split; [match goal with |- ?m = _ => destruct m end; reflexivity|].
      repeat (split; [reflexivity|]).
      split; [|discriminate]. intros _.
      split; [lia|]. split; [lia|]. split; [lia|].
      exists bl. auto.
Qed.

Lemma reorder_ok (reg : bool) (g : Game.t) (half half1 : Half.t) :
  Game.reorder_players reg g half = Ok half1 ->
  Half.chip_manager half1 = Half.chip_manager half
  /\ Half.stock_chips_gone half1 = Half.stock_chips_gone half
  /\ Half.lost_by half1 = Half.lost_by half
  /\ Half.mini_rounds half1 = Half.mini_rounds half
  /\ Half.halves_index half1 = Half.halves_index half
  /\ (reg = false -> half1 = half).
Proof.
  unfold Game.reorder_players.
  destruct (Game.last_mr g); [destruct reg|]; intros H; monad_inv;
    repeat split; auto; discriminate.
Qed.

(** One pass of the loop of [play_half], taken apart. *)
Lemma half_pass_inv (reg : bool) (g g' : Game.t) (half half' : Half.t)
    (i : Z) (rng rng' : Rng) (stop : bool) :
  Game.half_pass reg g half i rng = Ok (stop, g', half', rng') ->
  exists half1 mr0 best hand ty,
    Game.reorder_players reg g half = Ok half1
    /\ Game.play_mini_round g (Half.active_players half1) i rng = Ok (mr0, rng')
    /\ MiniRound.best_turn mr0 = Some best
    /\ Turn.final_hand best = Some hand
    /\ Hand.hand_type hand = Ok ty
    /\ HandType.__eq__ ty HandType.SchockOut = Ok stop
    /\ Half.halves_index half' = Half.halves_index half
    /\ (stop = true ->
        Half.chip_manager half' = Half.chip_manager half
        /\ Half.stock_chips_gone half' = Half.stock_chips_gone half
        /\ Half.lost_by half' = MiniRound.lost_by mr0
        /\ Half.mini_rounds half' = Half.mini_rounds half ++ [mr0]
        /\ Game.last_mr g' = Some mr0)
    /\ (stop = false ->
        exists halfx half2 mr2 mr3,
          Half.chip_manager halfx = Half.chip_manager half
          /\ Half.stock_chips_gone halfx = Half.stock_chips_gone half
          /\ Game.distribute_chips halfx mr0 best = Ok (half2, mr2)
          /\ Half.chip_manager half' = Half.chip_manager half2
          /\ Half.stock_chips_gone half' = Half.stock_chips_gone half2
          /\ Half.mini_rounds half' = Half.mini_rounds half ++ [mr3]
          /\ MiniRound.turns mr3 = MiniRound.turns mr0
          /\ MiniRound.given_chips mr3 = MiniRound.given_chips mr2
          /\ MiniRound.lost_by mr3 = MiniRound.lost_by mr0
          /\ Game.last_mr g' = Some mr3
          /\ Game.find_loser (Half.balances half') (Half.lost_by half)
             = Ok (Half.lost_by half')).
Proof.
  unfold Game.half_pass. intros H. monad_inv.
  rename a into half1, a0 into mr0, a1 into best, a2 into hand, a3 into ty,
    a4 into so, a5 into is_out.
  assert (so = HandType.SchockOut) as ->
      by (vm_compute in E4; injection E4 as <-; reflexivity).
  destruct (Turn.final_hand best) as [hand'|] eqn:Eh; [|discriminate].
  injection E2 as ->.
  destruct (MiniRound.best_turn mr0) as [best'|] eqn:Eb; [|discriminate].
  injection E1 as ->.
  destruct (reorder_ok _ _ _ _ E) as (Rc & Rg & Rl & Rm & Ri & _).
  exists half1, mr0, best, hand, ty.
  destruct is_out.
  - monad_inv.
    repeat (split; [first [reflexivity | assumption]|]).
    split; [destruct (Half.active_players half1); exact Ri|].
    split; [|discriminate]. intros _.
    destruct (Half.active_players half1); simpl_half; cbn;
      repeat split; auto; congruence.
  - monad_inv.
    rename t into half2, t0 into mr2, t1 into half3, t2 into mr3, a into lost.
    match goal with
    | H : Game.distribute_chips ?hx _ _ = _ |- _ =>
        set (halfx := hx) in *; rename H into ED
    end.
    match goal with
    | H : Game.find_loser _ _ = _ |- _ => rename H into EF
    end.
    assert (Half.chip_manager halfx = Half.chip_manager half
            /\ Half.stock_chips_gone halfx = Half.stock_chips_gone half
            /\ Half.halves_index halfx = Half.halves_index half
            /\ Half.mini_rounds halfx = Half.mini_rounds half
            /\ Half.lost_by halfx = Half.lost_by half) as (Xc & Xg & Xi & Xm & Xl).
    { subst halfx. destruct (Half.active_players half1); cbn; auto. }
    assert (Half.chip_manager half3 = Half.chip_manager half2
            /\ Half.stock_chips_gone half3 = Half.stock_chips_gone half2
            /\ Half.halves_index half3 = Half.halves_index half2
            /\ Half.mini_rounds half3 = Half.mini_rounds half2
            /\ Half.lost_by half3 = Half.lost_by half2
            /\ MiniRound.turns mr3 = MiniRound.turns mr2
            /\ MiniRound.given_chips mr3 = MiniRound.given_chips mr2
            /\ MiniRound.lost_by mr3 = MiniRound.lost_by mr2
            /\ r = r0) as Y.
    { destruct (Half.stock_chips_gone half2) eqn:G2;
        [destruct (Half.active_players half1)|]; monad_inv; cbn;
        repeat split; try reflexivity; assumption. }
    destruct Y as (Yc & Yg & Yi & Ym & Yl & Yt & Yv & Yb & ->).
    assert (mr2 = MiniRound.set_given_chips mr0 (MiniRound.given_chips mr2)
            /\ Half.mini_rounds half2 = Half.mini_rounds halfx
            /\ Half.lost_by half2 = Half.lost_by halfx
            /\ Half.halves_index half2 = Half.halves_index halfx) as (Z2 & Zm & Zl & Zi).
    { unfold Game.distribute_chips in ED. clear -ED.
      destruct (Half.stock_chips_gone halfx); cbn [negb] in ED;
        [|destruct (Half.stock _ <=? 0)]; monad_inv; simpl_half;
        repeat split; auto;
        match goal with |- ?m = _ => destruct m; reflexivity end. }
    repeat (split; [first [reflexivity | assumption]|]).
    split; [simpl_half; congruence|].
    split; [discriminate|]. intros _.
    exists halfx, half2, mr2, mr3. simpl_half.
    repeat (split; [first [assumption | reflexivity | congruence]|]).
    split; [rewrite Yt, Z2; reflexivity|].
    split; [exact Yv|].
    split; [rewrite Yb, Z2; reflexivity|].
    split; [reflexivity|].
    unfold Half.balances in *. simpl_half. rewrite <- Xl, <- Zl, <- Yl. exact EF.
Qed.

Lemma eq_schock_out (ty : HandType.t) :
  HandType.hand_type ty = "Schock-out" ->
  HandType.__eq__ ty HandType.SchockOut = Ok true
  /\ HandType.chips ty = Ok 13.
Proof.
  intros E. unfold HandType.__eq__, HandType.internal_rank, HandType.chips.
  rewrite E. split; reflexivity.
Qed.

(** C5: when the best hand of a mini-round is a Schock-out, the pass of the
    loop of [play_half] that played it is the last one: the loop returns
    with the generator as that mini-round left it, the loser of the
    mini-round is the loser of the half, the mini-round is the last entry of
    [mini_rounds], and neither the stock nor any balance has changed,
    whatever they were. *)
Theorem C5_schock_out_ends_half (remaining : nat) (reg : bool) (g : Game.t)
    (half half1 : Half.t) (i : Z) (rng rng' : Rng) (mr : MiniRound.t)
    (best : Turn.t) (hand : Hand.t) (ty : HandType.t) :
  Half.lost_by half = None ->
  Game.reorder_players reg g half = Ok half1 ->
  Game.play_mini_round g (Half.active_players half1) i rng = Ok (mr, rng') ->
  MiniRound.best_turn mr = Some best ->
  Turn.final_hand best = Some hand ->
  Hand.hand_type hand = Ok ty ->
  HandType.hand_type ty = "Schock-out" ->
  exists g' half',
    Game.half_loop (S remaining) reg g half i rng = Ok (g', half', rng')
    /\ Game.half_pass reg g half i rng = Ok (true, g', half', rng')
    /\ Half.lost_by half' = MiniRound.lost_by mr
    /\ Half.mini_rounds half' = Half.mini_rounds half ++ [mr]
    /\ Half.chip_manager half' = Half.chip_manager half
    /\ Half.stock_chips_gone half' = Half.stock_chips_gone half
    /\ Game.last_mr g' = Some mr.
Proof.
  intros Hnone Hre Hplay Hbest Hhand Hty Hout.
  destruct (eq_schock_out ty Hout) as (Heq & _).
  destruct (reorder_ok _ _ _ _ Hre) as (Rc & Rg & Rl & Rm & Ri & _).
  assert (exists g' half',
             Game.half_pass reg g half i rng = Ok (true, g', half', rng')
             /\ Half.lost_by half' = MiniRound.lost_by mr
             /\ Half.mini_rounds half' = Half.mini_rounds half ++ [mr]
             /\ Half.chip_manager half' = Half.chip_manager half
             /\ Half.stock_chips_gone half' = Half.stock_chips_gone half
             /\ Game.last_mr g' = Some mr) as (g' & half' & Hpass & Rest).
  { unfold Game.half_pass, bind, lift. rewrite Hre, Hplay, Hbest, Hhand, Hty.
    change (HandType.new "Schock-out" 0) with (Ok HandType.SchockOut).
    cbv beta iota. rewrite Heq. unfold ret.
    do 2 eexists. split; [reflexivity|].
    destruct (Half.active_players half1); cbn;
      repeat split; congruence. }
  exists g', half'. split; [|split; [exact Hpass | exact Rest]].
  cbn [Game.half_loop]. rewrite Hnone. unfold bind at 1. rewrite Hpass.
  reflexivity.
Qed.

(** Closed facts about concrete runs: each conjunct is evaluated. *)
Ltac by_evaluation :=
  repeat match goal with |- _ /\ _ => split end; vm_compute; reflexivity.

Lemma C5_schock_out_ends_half_witness :
  exists half g' half' rng',
    Game.start_half (game_of DummyPlayer ["A"; "B"]) 0 None = Ok half
    /\ Game.half_loop 1000 true (game_of DummyPlayer ["A"; "B"]) half 0
         (tape_of [6; 6; 6; 1; 1; 1] 1) = Ok (g', half', rng')
    /\ Half.lost_by half' = Some 0
    /\ Half.chip_manager half' = Half.chip_manager half
    /\ pos rng' = 6%nat.
Proof.
  pose (G := game_of DummyPlayer ["A"; "B"]).
  pose (T := tape_of [6; 6; 6; 1; 1; 1] 1).
  assert (exists half mr r' best hand ty,
             Game.start_half G 0 None = Ok half
             /\ Game.play_mini_round G (Half.active_players half) 0 T = Ok (mr, r')
             /\ MiniRound.best_turn mr = Some best
             /\ Turn.final_hand best = Some hand
             /\ Hand.hand_type hand = Ok ty
             /\ HandType.hand_type ty = "Schock-out"
             /\ Half.lost_by half = None
             /\ Game.reorder_players true G half = Ok half
             /\ MiniRound.lost_by mr = Some 0
             /\ pos r' = 6%nat)
    as (half & mr & r' & best & hand & ty & Hs & Hplay & Hb & Hh & Ht & Ho
        & Hn & Hr & Hl & Hp).
  { do 6 eexists. by_evaluation. }
  destruct (C5_schock_out_ends_half 999 true G half half 0 T r' mr best hand ty
              Hn Hr Hplay Hb Hh Ht Ho)
    as (g' & half' & Hloop & _ & Hlost & _ & Hchips & _).
  exists half, g', half', r'.
  split; [exact Hs|]. split; [exact Hloop|].
  split; [rewrite Hlost; exact Hl|]. split; [exact Hchips | exact Hp].
Defined.

(** * The invariant along the loop of [play_half] *)

Lemma dict_set_zero (d : dict) (k : option PlayerID) :
  Forall (fun kv => snd kv = 0) d -> Forall (fun kv => snd kv = 0) (dict_set d k 0).
Proof.
  intros F. induction d as [|[k0 v0] d IH]; cbn.
  - repeat constructor.
  - inversion_clear F as [|? ? F0 F']. destruct (pid_eqb k0 k); constructor; auto.
Qed.

Lemma start_half_inv (g : Game.t) (hi : Z) (arg : option (list BasePlayer.t))
    (half : Half.t) :
  Game.start_half g hi arg = Ok half ->
  chip_inv half
  /\ Half.lost_by half = None
  /\ Half.mini_rounds half = []
  /\ Half.halves_index half = hi
  /\ Half.active_players half
     = match arg with Some (p :: ps) => p :: ps | _ => Game.players g end.
Proof.
  unfold Game.start_half. intros H. monad_inv.
  assert (Half.stock a = 13 /\ Half.stock_chips_gone a = false
          /\ Half.lost_by a = None /\ Half.mini_rounds a = []
          /\ Half.halves_index a = hi
          /\ Half.active_players a
             = match arg with Some (p :: ps) => p :: ps | _ => Game.players g end)
    as (S & G & L & Mr & I & A).
  { destruct arg as [[|p ps]|]; destruct (negb (hi =? 2)); monad_inv;
      repeat split; reflexivity. }
  assert (forall ps d, Forall (fun kv => snd kv = 0) d ->
            Forall (fun kv => snd kv = 0)
              (fold_left (fun d p => dict_set d (BasePlayer._id p) 0) ps d)) as Z0.
  { induction ps as [|p ps IH]; intros d F; cbn; [exact F|].
    apply IH, dict_set_zero, F. }
  specialize (Z0 (Half.active_players a) [] (Forall_nil _)).
  set (bal := fold_left _ _ _) in *.
  assert (dict_sum bal = 0 /\ Forall (fun kv => 0 <= snd kv) bal) as (S0 & P0).
  { clear -Z0. induction bal as [|[k v] d IH]; [split; [reflexivity|constructor]|].
    inversion_clear Z0 as [|? ? V F]. cbn in V. subst v.
    destruct (IH F) as (S & P). unfold dict_sum in *. cbn [fold_right snd].
    split; [lia|]. constructor; [cbn; lia | exact P]. }
  unfold chip_inv, Half.stock, Half.balances in *. simpl_half.
  repeat split; auto; try lia; try congruence.
Qed.

Lemma half_pass_chip_inv (reg : bool) (g g' : Game.t) (half half' : Half.t)
    (i : Z) (rng rng' : Rng) (stop : bool) :
  Game.half_pass reg g half i rng = Ok (stop, g', half', rng') ->
  chip_inv half -> chip_inv half'.
Proof.
  intros H I. apply half_pass_inv in H.
  destruct H as (half1 & mr0 & best & hand & ty & Hre & Hplay & _ & _ & _ & _ & _
                 & Hstop & Hgo).
  destruct stop.
  - destruct (Hstop eq_refl) as (C & G & _). exact (chip_inv_ext _ _ C G I).
  - destruct (Hgo eq_refl) as (halfx & half2 & mr2 & mr3 & Xc & Xg & ED & C & G & _).
    pose proof (mini_round_chips _ _ _ _ _ _ Hplay) as B.
    destruct (distribute_chips_ok _ _ _ _ _ ED ltac:(lia)
                (chip_inv_ext _ _ Xc Xg I)) as (I2 & _).
    exact (chip_inv_ext _ _ C G I2).
Qed.

Lemma half_reach_chip_inv (reg : bool) (g0 g : Game.t) (half0 half : Half.t)
    (rng0 rng : Rng) (i : Z) :
  half_reach reg g0 half0 rng0 g half i rng -> chip_inv half0 -> chip_inv half.
Proof.
  induction 1 as [|g half i rng stop g' half' rng' _ IH _ _ Hpass]; intros I0;
    [exact I0|].
  eapply half_pass_chip_inv; eauto.
Qed.

Lemma half_loop_reach (reg : bool) (g0 : Game.t) (half0 : Half.t) (rng0 : Rng)
    (n : nat) (g g' : Game.t) (half half' : Half.t) (i : Z) (rng rng' : Rng) :
  half_reach reg g0 half0 rng0 g half i rng ->
  i + Z.of_nat n <= 1000 ->
  Game.half_loop n reg g half i rng = Ok (g', half', rng') ->
  exists j, half_reach reg g0 half0 rng0 g' half' j rng'.
Proof.
  revert g half i rng. induction n as [|n IH]; intros g half i rng R B H.
  - cbn in H. monad_inv. eauto.
  - cbn [Game.half_loop] in H.
    destruct (Half.lost_by half) eqn:L; [monad_inv; eauto|].
    monad_inv. rename b into stop.
    assert (half_reach reg g0 half0 rng0 t0 t (i + 1) r) as R'
        by (eapply reach_pass; eauto; lia).
    destruct stop; [monad_inv; eauto|].
    apply (IH _ _ _ _ R'); [lia | assumption].
Qed.

(** C3: in every state the loop of [play_half] reaches, the stock and the
    balances add up to 13, the stock and every balance lie between 0 and 13,
    and the stock is marked exhausted exactly when it is empty.  A pass that
    transfers chips while the stock holds some takes [min(chips, stock)]
    from the stock and credits the loser with exactly that; a pass after
    exhaustion leaves the stock at 0, debits the holder of the best hand
    with [min(chips, balance)], never more than the balance, and credits the
    loser with the same amount.  The half [play_half] returns is such a
    state. *)
Theorem C3_chip_conservation (g0 : Game.t) (halves_index : Z)
    (players_arg : option (list BasePlayer.t)) (half0 : Half.t) (rng0 : Rng) :
  Game.start_half g0 halves_index players_arg = Ok half0 ->
  let reg := negb (halves_index =? 2) in
  (forall g half i rng,
      half_reach reg g0 half0 rng0 g half i rng ->
      Half.stock half + dict_sum (Half.balances half) = 13
      /\ 0 <= Half.stock half <= 13
      /\ Forall (fun kv => 0 <= snd kv <= 13) (Half.balances half)
      /\ 0 <= dict_sum (Half.balances half) <= 13
      /\ (Half.stock_chips_gone half = true <-> Half.stock half = 0))
  /\ (forall g half i rng stop g' half' rng',
        half_reach reg g0 half0 rng0 g half i rng ->
        Game.half_pass reg g half i rng = Ok (stop, g', half', rng') ->
        exists half1 mr0 best,
          Game.reorder_players reg g half = Ok half1
          /\ Game.play_mini_round g (Half.active_players half1) i rng
             = Ok (mr0, rng')
          /\ MiniRound.best_turn mr0 = Some best
          /\ 1 <= MiniRound.given_chips mr0 <= 13
          /\ (stop = true -> Half.chip_manager half' = Half.chip_manager half)
          /\ (stop = false -> Half.stock_chips_gone half = false ->
              exists c bl,
                c = Z.min (MiniRound.given_chips mr0) (Half.stock half)
                /\ Half.stock half' = Half.stock half - c
                /\ dict_get (Half.balances half) (MiniRound.lost_by mr0) = Ok bl
                /\ Half.balances half'
                   = dict_set (Half.balances half) (MiniRound.lost_by mr0) (bl + c))
          /\ (stop = false -> Half.stock_chips_gone half = true ->
              exists c bp bl,
                Half.stock half = 0 /\ Half.stock half' = 0
                /\ dict_get (Half.balances half) (Turn.player_id best) = Ok bp
                /\ c = Z.min (MiniRound.given_chips mr0) bp
                /\ 0 <= c <= bp
                /\ dict_get (dict_set (Half.balances half) (Turn.player_id best)
                               (bp - c)) (MiniRound.lost_by mr0) = Ok bl
                /\ Half.balances half'
                   = dict_set (dict_set (Half.balances half) (Turn.player_id best)
                                 (bp - c)) (MiniRound.lost_by mr0) (bl + c)
                /\ dict_sum (Half.balances half') = dict_sum (Half.balances half)))
  /\ (forall g' half' rng',
        Game.play_half g0 halves_index players_arg rng0 = Ok (g', half', rng') ->
        exists i, half_reach reg g0 half0 rng0 g' half' i rng').
Proof.
  intros Hstart reg.
  destruct (start_half_inv _ _ _ _ Hstart) as (I0 & _).
  split; [|split].
  - intros g half i rng R.
    destruct (half_reach_chip_inv _ _ _ _ _ _ _ _ R I0) as (S & P & G & F).
    destruct (dict_nonneg_le_sum _ P) as (S0 & PS).
    assert (0 <= Half.stock half) as S1.
    { destruct (Half.stock_chips_gone half);
        [rewrite G by reflexivity | specialize (F eq_refl)]; lia. }
    split; [exact S|]. split; [lia|].
    split; [eapply Forall_impl; [|exact PS]; intros a; cbn beta; lia|].
    split; [lia|].
    split; [exact G|]. intros Z0.
    destruct (Half.stock_chips_gone half); [reflexivity|].
    specialize (F eq_refl). lia.
  - intros g half i rng stop g' half' rng' R Hpass.
    pose proof (half_reach_chip_inv _ _ _ _ _ _ _ _ R I0) as I.
    apply half_pass_inv in Hpass.
    destruct Hpass as (half1 & mr0 & best & hand & ty & Hre & Hplay & Hbest & _ & _
                       & _ & _ & Hstop & Hgo).
    pose proof (mini_round_chips _ _ _ _ _ _ Hplay) as B.
    exists half1, mr0, best.
    repeat (split; [assumption|]).
    split; [intros ->; apply (Hstop eq_refl)|].
    split.
    + intros -> G.
      destruct (Hgo eq_refl) as (halfx & half2 & mr2 & mr3 & Xc & Xg & ED & C & _).
      destruct (distribute_chips_ok _ _ _ _ _ ED ltac:(lia)
                  (chip_inv_ext _ _ Xc Xg I)) as (_ & _ & _ & _ & _ & _ & Fresh & _).
      rewrite Xg in Fresh.
      destruct (Fresh G) as (S2 & C1 & C2 & bl & Gl & B2).
      unfold Half.stock, Half.balances in *. rewrite C, <- Xc.
      exists (MiniRound.given_chips mr2), bl.
      repeat split; auto; lia.
    + intros -> G.
      destruct (Hgo eq_refl) as (halfx & half2 & mr2 & mr3 & Xc & Xg & ED & C & _).
      destruct (distribute_chips_ok _ _ _ _ _ ED ltac:(lia)
                  (chip_inv_ext _ _ Xc Xg I)) as (_ & _ & _ & _ & _ & _ & _ & Gone).
      rewrite Xg in Gone.
      destruct (Gone G) as (S2 & _ & Sum & bp & bl & Gp & C1 & C2 & Gl & B2).
      destruct I as (_ & _ & Ig & _). specialize (Ig G).
      unfold Half.stock, Half.balances in *. rewrite C. rewrite <- Xc in Ig |- *.
      exists (MiniRound.given_chips mr2), bp, bl.
      repeat (split; [first [assumption | lia]|]). assumption.
  - intros g' half' rng' H. unfold Game.play_half in H. monad_inv.
    assert (a = half0) as -> by congruence.
    eapply half_loop_reach; [apply reach_start | | exact H]. lia.
Qed.

Lemma C3_chip_conservation_witness :
  exists g' half' rng',
    Game.play_half (game_of DummyPlayer ["A"; "B"]) 0 None
      (tape_of [6; 6; 6; 2; 2; 1] 1) = Ok (g', half', rng')
    /\ Half.stock half' = 10
    /\ Half.stock half' + dict_sum (Half.balances half') = 13.
Proof.
  pose (G := game_of DummyPlayer ["A"; "B"]).
  pose (T := tape_of [6; 6; 6; 2; 2; 1] 1).
  assert (exists half0, Game.start_half G 0 None = Ok half0) as (half0 & Hs)
      by (eexists; by_evaluation).
  assert (exists g' half' rng',
             Game.play_half G 0 None T = Ok (g', half', rng')
             /\ Half.stock half' = 10) as (g' & half' & rng' & Hp & H10)
      by (do 3 eexists; by_evaluation).
  destruct (C3_chip_conservation G 0 None half0 T Hs) as (Inv & _ & Fin).
  destruct (Fin _ _ _ Hp) as (i & R).
  destruct (Inv _ _ _ _ R) as (S & _).
  exists g', half', rng'.
  split; [exact Hp|]. split; [exact H10 | exact S].
Defined.

(** * The round *)

Lemma sync_ids (g : Game.t) (ps : list BasePlayer.t) :
  map BasePlayer._id (Game.players (Game.sync g ps))
  = map BasePlayer._id (Game.players g)
  /\ Game.rounds (Game.sync g ps) = Game.rounds g.
Proof.
  split; [|reflexivity]. unfold Game.sync. cbn. rewrite map_map.
  apply map_ext. intros p.
  destruct (find (Game.same_player p) ps) as [p'|] eqn:F; [|reflexivity].
  apply find_some in F. destruct F as (_ & F).
  unfold Game.same_player, pid_eqb in F.
  destruct (BasePlayer._id p), (BasePlayer._id p'); try discriminate;
    [apply Z.eqb_eq in F; congruence | reflexivity].
Qed.

Lemma half_pass_game (reg : bool) (g g' : Game.t) (half half' : Half.t)
    (i : Z) (rng rng' : Rng) (stop : bool) :
  Game.half_pass reg g half i rng = Ok (stop, g', half', rng') ->
  map BasePlayer._id (Game.players g') = map BasePlayer._id (Game.players g)
  /\ Game.rounds g' = Game.rounds g.
Proof.
  unfold Game.half_pass. intros H. monad_inv.
  match goal with
  | H : (if ?b then _ else _) _ = Ok _ |- _ => destruct b
  end; monad_inv; cbn [Game.players Game.rounds Game.set_last_mr];
    apply sync_ids.
Qed.

Lemma half_loop_ok (n : nat) (reg : bool) (g g' : Game.t) (half half' : Half.t)
    (i : Z) (rng rng' : Rng) :
  Game.half_loop n reg g half i rng = Ok (g', half', rng') ->
  Half.halves_index half' = Half.halves_index half
  /\ map BasePlayer._id (Game.players g') = map BasePlayer._id (Game.players g)
  /\ Game.rounds g' = Game.rounds g
  /\ exists more, Half.mini_rounds half' = Half.mini_rounds half ++ more.
Proof.
  revert g half i rng. induction n as [|n IH]; intros g half i rng H.
  - cbn in H. monad_inv. repeat split; auto. exists []. symmetry. apply app_nil_r.
  - cbn [Game.half_loop] in H.
    destruct (Half.lost_by half) eqn:L.
    { monad_inv. repeat split; auto. exists []. symmetry. apply app_nil_r. }
    monad_inv. rename b into stop, t0 into g1, t into half1.
    pose proof (half_pass_game _ _ _ _ _ _ _ _ _ E) as (Gp & Gr).
    apply half_pass_inv in E.
    destruct E as (? & mr0 & ? & ? & ? & _ & _ & _ & _ & _ & _ & Hi & Hstop & Hgo).
    assert (exists mr, Half.mini_rounds half1 = Half.mini_rounds half ++ [mr])
      as (mr & Hm).
    { destruct stop.
      - destruct (Hstop eq_refl) as (_ & _ & _ & M & _). eauto.
      - destruct (Hgo eq_refl) as (? & ? & ? & mr3 & _ & _ & _ & _ & _ & M & _). eauto. }
    destruct stop.
    + monad_inv. repeat split; auto. eauto.
    + apply IH in H. destruct H as (Hi' & Gp' & Gr' & more & Hm').
      repeat split; try congruence.
      exists (mr :: more). rewrite Hm', Hm, <- app_assoc. reflexivity.
Qed.

Lemma play_half_ok (g g' : Game.t) (hi : Z) (arg : option (list BasePlayer.t))
    (half' : Half.t) (rng rng' : Rng) :
  Game.play_half g hi arg rng = Ok (g', half', rng') ->
  Half.halves_index half' = hi
  /\ map BasePlayer._id (Game.players g') = map BasePlayer._id (Game.players g)
  /\ Game.rounds g' = Game.rounds g
  /\ exists half0,
      Game.start_half g hi arg = Ok half0
      /\ Half.active_players half0
         = match arg with Some (p :: ps) => p :: ps | _ => Game.players g end
      /\ Game.half_loop 1000 (negb (hi =? 2)) g half0 0 rng = Ok (g', half', rng').
Proof.
  unfold Game.play_half. intros H. monad_inv. rename a into half0.
  destruct (start_half_inv _ _ _ _ E) as (_ & _ & _ & I & A).
  destruct (half_loop_ok _ _ _ _ _ _ _ _ _ H) as (Hi & Gp & Gr & _).
  repeat split; try congruence. eauto.
Qed.

(** The first pass of the loop of a tie-break half: the players play in the
    order of the list the half was given. *)
Lemma tie_break_first_turn (g g' : Game.t) (half0 half' : Half.t)
    (rng rng' : Rng) (n : nat) (p0 : BasePlayer.t) (ps : list BasePlayer.t) :
  Half.lost_by half0 = None ->
  Half.mini_rounds half0 = [] ->
  Half.active_players half0 = p0 :: ps ->
  Game.half_loop (S n) false g half0 0 rng = Ok (g', half', rng') ->
  exists mr t h,
    nth_error (Half.mini_rounds half') 0 = Some mr
    /\ In t (MiniRound.turns mr)
    /\ Turn.player_id t = BasePlayer._id p0
    /\ Turn.final_hand t = Some h
    /\ Hand.players_turn_ind h = 0.
Proof.
  intros L M A H. cbn [Game.half_loop] in H. rewrite L in H. monad_inv.
  rename b into stop, t0 into g1, t into half1.
  assert (exists more, Half.mini_rounds half' = Half.mini_rounds half1 ++ more)
    as (more & Hmore).
  { destruct stop; monad_inv; [exists []; symmetry; apply app_nil_r|].
    apply half_loop_ok in H. tauto. }
  apply half_pass_inv in E.
  destruct E as (halfr & mr0 & ? & ? & ? & Hre & Hplay & _ & _ & _ & _ & _
                 & Hstop & Hgo).
  apply reorder_ok in Hre. destruct Hre as (_ & _ & _ & _ & _ & Hsame).
  rewrite (Hsame eq_refl), A in Hplay.
  assert (exists mr, Half.mini_rounds half1 = [mr]
                     /\ MiniRound.turns mr = MiniRound.turns mr0) as (mr & Hm & Ht).
  { destruct stop.
    - destruct (Hstop eq_refl) as (_ & _ & _ & Hm & _). rewrite M in Hm. eauto.
    - destruct (Hgo eq_refl) as (? & ? & ? & mr3 & _ & _ & _ & _ & _ & Hm & Ht & _).
      rewrite M in Hm. eauto. }
  apply mini_round_parts in Hplay. cbn iota in Hplay.
  destruct Hplay as (_ & turns0 & ? & ? & ? & ? & ? & ? & K & Pids & Perm & _).
  destruct turns0 as [|t0 turns0]; [discriminate|].
  cbn in Pids. injection Pids as Pid0 _.
  destruct (K 0%nat t0 eq_refl) as (h & ty & Eh & Ei & _).
  exists mr, t0, h. rewrite Hmore, Hm, Ht. cbn.
  repeat split; auto.
  apply (Permutation_in _ (Permutation_sym Perm)). cbn. auto.
Qed.

Lemma pid_eqb_eq (a b : option PlayerID) : pid_eqb a b = true <-> a = b.
Proof.
  destruct a as [x|], b as [y|]; cbn; split; intros H;
    try discriminate; try reflexivity.
  - apply Z.eqb_eq in H. congruence.
  - injection H as ->. apply Z.eqb_refl.
Qed.

Lemma next_player_ok (g : Game.t) (pid : option PlayerID) (p : BasePlayer.t) :
  Game.next_player g pid = Ok p ->
  In p (Game.players g) /\ BasePlayer._id p = pid.
Proof.
  unfold Game.next_player.
  destruct (find _ (Game.players g)) as [q|] eqn:F; [|discriminate].
  intros [= ->]. apply find_some in F. destruct F as (I & E).
  apply pid_eqb_eq in E. auto.
Qed.

(** C6: a round plays half 0 and half 1, each started with all the players
    of the game.  When both have the same loser, the round has these two
    halves and that loser.  Otherwise one more half, of index 2, is played
    by the player who lost half 0 and the player who lost half 1, in this
    order: in its first mini-round the loser of half 0 plays in position 0.
    The loser of that half is the loser of the round. *)
Theorem C6_round (g g' : Game.t) (idx : Z) (rng rng' : Rng) (r : Round.t) :
  Game.play_round g idx rng = Ok (g', r, rng') ->
  exists g1 half0 rng1 g2 half1 rng2 start0 start1,
    Game.play_half g 0 None rng = Ok (g1, half0, rng1)
    /\ Game.play_half g1 1 None rng1 = Ok (g2, half1, rng2)
    /\ Half.halves_index half0 = 0
    /\ Half.halves_index half1 = 1
    /\ Game.start_half g 0 None = Ok start0
    /\ Half.active_players start0 = Game.players g
    /\ Game.start_half g1 1 None = Ok start1
    /\ Half.active_players start1 = Game.players g1
    /\ map BasePlayer._id (Game.players g1) = map BasePlayer._id (Game.players g)
    /\ Round.round_index r = idx
    /\ Game.rounds g' = Game.rounds g ++ [r]
    /\ ((Half.lost_by half0 = Half.lost_by half1
         /\ Round.halves r = [half0; half1]
         /\ Round.lost_by r = Half.lost_by half0
         /\ rng' = rng2)
        \/ (Half.lost_by half0 <> Half.lost_by half1
            /\ exists p0 p1 g3 half2,
                In p0 (Game.players g2)
                /\ BasePlayer._id p0 = Half.lost_by half0
                /\ In p1 (Game.players g2)
                /\ BasePlayer._id p1 = Half.lost_by half1
                /\ Game.play_half g2 2 (Some [p0; p1]) rng2 = Ok (g3, half2, rng')
                /\ Half.halves_index half2 = 2
                /\ Round.halves r = [half0; half1; half2]
                /\ Round.lost_by r = Half.lost_by half2
                /\ exists mr t h,
                    nth_error (Half.mini_rounds half2) 0 = Some mr
                    /\ In t (MiniRound.turns mr)
                    /\ Turn.player_id t = Half.lost_by half0
                    /\ Turn.final_hand t = Some h
                    /\ Hand.players_turn_ind h = 0)).
Proof.
  unfold Game.play_round. intros H. monad_inv.
  rename t into g1, t0 into half0, r0 into rng1, t1 into g2, t2 into half1,
    r1 into rng2.
  destruct (play_half_ok _ _ _ _ _ _ _ E) as (I0 & P0 & R0 & s0 & S0 & A0 & _).
  destruct (play_half_ok _ _ _ _ _ _ _ E0) as (I1 & P1 & R1 & s1 & S1 & A1 & _).
  exists g1, half0, rng1, g2, half1, rng2, s0, s1.
  repeat (split; [first [assumption | reflexivity]|]).
  cbn [Game.len_set_pid existsb] in H. rewrite orb_false_r in H.
  destruct (pid_eqb (Half.lost_by half0) (Half.lost_by half1)) eqn:EQ.
  - apply pid_eqb_eq in EQ. cbn in H. monad_inv.
    cbn [Round.round_index Round.halves Round.lost_by Game.rounds Game.add_round].
    rewrite R1, R0.
    split; [reflexivity|]. split; [reflexivity|].
    left. repeat split; auto.
  - assert (Half.lost_by half0 <> Half.lost_by half1) as NE.
    { intros C. apply pid_eqb_eq in C. congruence. }
    cbn in H. monad_inv.
    rename a1 into p0, a into p1, t into g3, t0 into half2.
    apply next_player_ok in E3, E1. destruct E3 as (In0 & Id0), E1 as (In1 & Id1).
    destruct (play_half_ok _ _ _ _ _ _ _ E2) as (I2 & P2 & R2 & s2 & S2 & A2 & L2).
    destruct (start_half_inv _ _ _ _ S2) as (_ & Ln & Mn & _ & _).
    cbn [negb Z.eqb] in L2.
    pose proof (tie_break_first_turn _ _ _ _ _ _ 999 p0 [p1] Ln Mn A2 L2) as First.
    rewrite Id0 in First.
    cbn [Round.round_index Round.halves Round.lost_by Game.rounds Game.add_round].
    rewrite R2, R1, R0.
    split; [reflexivity|]. split; [reflexivity|].
    right. split; [exact NE|].
    exists p0, p1, g3, half2. repeat (split; [first [assumption | reflexivity]|]).
    exact First.
Qed.

Lemma C6_round_witness :
  exists g' r rng',
    Game.play_round (game_of DummyPlayer ["A"; "B"]) 0 (tape_of [] 1)
      = Ok (g', r, rng')
    /\ List.length (Round.halves r) = 3%nat
    /\ Round.lost_by r = Some 0
    /\ Round.round_index r = 0
    /\ Game.rounds g' = Game.rounds (game_of DummyPlayer ["A"; "B"]) ++ [r].
Proof.
  pose (G := game_of DummyPlayer ["A"; "B"]).
  pose (T := tape_of [] 1).
  assert (exists g' r rng',
             Game.play_round G 0 T = Ok (g', r, rng')
             /\ List.length (Round.halves r) = 3%nat
             /\ Round.lost_by r = Some 0) as (g' & r & rng' & Hp & H3 & HL)
      by (do 3 eexists; by_evaluation).
  destruct (C6_round G g' 0 T rng' r Hp)
    as (g1 & h0 & r1 & g2 & h1 & r2 & s0 & s1 & _ & _ & _ & _ & _ & _ & _ & _
        & _ & Hi & Hr & _).
  exists g', r, rng'.
  split; [exact Hp|]. split; [exact H3|]. split; [exact HL|].
  split; [exact Hi | exact Hr].
Defined.

(** * Further properties of the dice and the hand *)

(** ** Die *)

(** The constructor of [Die] accepts a value exactly when it is a face or
    -1, keeps the three fields as given, and [copy] of a constructed die is
    that die again; any other value is a ValueError. *)
Theorem die_constructor (v : Z) (vis tk : bool) :
  (forall d, Die.new v vis tk = Ok d ->
             d = Die.mk v vis tk /\ (face d \/ Die.value d = -1)
             /\ Die.copy d = Ok d)
  /\ (1 <= v <= 6 \/ v = -1 -> Die.new v vis tk = Ok (Die.mk v vis tk))
  /\ (~ 1 <= v <= 6 -> v <> -1 ->
      Die.new v vis tk = Raise (ValueError "Die value must be between 1 and 6 or -1")).
Proof.
  unfold Die.new, Die.copy, Die.new, Die.__post_init__, face. cbn [Die.value Die.visible Die.taken_out].
  destruct (Z.leb_spec 1 v), (Z.leb_spec v 6), (Z.eqb_spec v (-1));
    cbn [andb negb orb]; repeat split; intros;
    try discriminate; try lia; try reflexivity;
    repeat match goal with
      | H : Ok _ = Ok _ |- _ => injection H as <-
      end; cbn [Die.value Die.visible Die.taken_out];
    try (left; lia); try (right; assumption);
    try reflexivity.
  all: try (destruct (Z.leb_spec 1 v), (Z.leb_spec v 6), (Z.eqb_spec v (-1));
            cbn; try reflexivity; lia).
Qed.

Lemma die_constructor_witness :
  Die.new 4 false false = Ok (Die.mk 4 false false)
  /\ Die.copy (Die.mk 4 false false) = Ok (Die.mk 4 false false)
  /\ Die.new 7 false false
     = Raise (ValueError "Die value must be between 1 and 6 or -1").
Proof.
  destruct (die_constructor 4 false false) as (A & B & _).
  destruct (die_constructor 7 false false) as (_ & _ & C).
  split; [apply B; left; lia|].
  split; [apply (A (Die.mk 4 false false)), B; left; lia|].
  apply C; lia.
Defined.

(** ** Hand.sort *)

Lemma insert_desc_perm (d : Die.t) (l : list Die.t) :
  Permutation (Hand.insert_desc d l) (d :: l).
Proof.
  induction l as [|x l IH]; cbn; [reflexivity|].
  destruct (Die.value x >? Die.value d); [|reflexivity].
  rewrite IH. apply perm_swap.
Qed.

Lemma sort_desc_perm (l : list Die.t) : Permutation (Hand.sort_desc l) l.
Proof.
  induction l as [|x l IH]; cbn; [reflexivity|].
  rewrite insert_desc_perm. constructor. exact IH.
Qed.

Lemma insert_desc_sorted (d : Die.t) (l : list Die.t) :
  StronglySorted desc l -> StronglySorted desc (Hand.insert_desc d l).
Proof.
  induction l as [|x l IH]; intros S; cbn.
  - constructor; constructor.
  - inversion S as [|? ? S' F]; subst.
    destruct (Z.gtb_spec (Die.value x) (Die.value d)) as [G|G].
    + constructor; [apply IH, S'|].
      eapply Permutation_Forall; [symmetry; apply insert_desc_perm|].
      constructor; [unfold desc; lia | exact F].
    + constructor; [exact S|].
      constructor; [unfold desc; lia|].
      eapply Forall_impl; [|exact F]. unfold desc. intros; lia.
Qed.

Lemma sort_desc_sorted (l : list Die.t) : StronglySorted desc (Hand.sort_desc l).
Proof.
  induction l as [|x l IH]; cbn; [constructor|]. apply insert_desc_sorted, IH.
Qed.

Lemma sorted_sort_desc (l : list Die.t) :
  StronglySorted desc l -> Hand.sort_desc l = l.
Proof.
  induction l as [|x l IH]; intros S; cbn; [reflexivity|].
  inversion S as [|? ? S' F]; subst. rewrite (IH S').
  destruct l as [|y l]; cbn; [reflexivity|].
  inversion F as [|? ? D _]; subst. unfold desc in D.
  destruct (Z.gtb_spec (Die.value y) (Die.value x)); [lia | reflexivity].
Qed.

Lemma sort_desc_idem (l : list Die.t) :
  Hand.sort_desc (Hand.sort_desc l) = Hand.sort_desc l.
Proof. apply sorted_sort_desc, sort_desc_sorted. Qed.

Lemma insert_desc_stable (v : Z) (d : Die.t) (l : list Die.t) :
  of_value_in v (Hand.insert_desc d l) = of_value_in v (d :: l).
Proof.
  unfold of_value_in. induction l as [|x l IH]; cbn; [reflexivity|].
  destruct (Z.gtb_spec (Die.value x) (Die.value d)) as [G|G]; [|reflexivity].
  cbn. rewrite IH. cbn.
  destruct (Z.eqb_spec (Die.value x) v), (Z.eqb_spec (Die.value d) v);
    try reflexivity; lia.
Qed.

Lemma sort_desc_stable (v : Z) (l : list Die.t) :
  of_value_in v (Hand.sort_desc l) = of_value_in v l.
Proof.
  induction l as [|x l IH]; cbn [Hand.sort_desc]; [reflexivity|].
  rewrite insert_desc_stable. unfold of_value_in in *. cbn. rewrite IH. reflexivity.
Qed.

(** [Hand.sort] rearranges the dice of the hand, and nothing else: the
    result holds the same dice, no die is followed by a greater one, dice of
    equal value keep the order they had (the sort is stable), and sorting
    again changes nothing. *)
Theorem sort_spec (h : Hand.t) :
  Permutation (Hand._dice (Hand.sort h)) (Hand._dice h)
  /\ StronglySorted desc (Hand._dice (Hand.sort h))
  /\ (forall v, of_value_in v (Hand._dice (Hand.sort h))
                = of_value_in v (Hand._dice h))
  /\ Hand.sort (Hand.sort h) = Hand.sort h
  /\ Hand._hand_type (Hand.sort h) = Hand._hand_type h
  /\ Hand.put_together (Hand.sort h) = Hand.put_together h
  /\ Hand.players_turn_ind (Hand.sort h) = Hand.players_turn_ind h
  /\ Hand.finalized (Hand.sort h) = Hand.finalized h.
Proof.
  destruct h as [d ty pt ind fin]. unfold Hand.sort, Hand.set_dice_raw. cbn.
  split; [apply sort_desc_perm|].
  split; [apply sort_desc_sorted|].
  split; [intros v; apply sort_desc_stable|].
  split; [rewrite sort_desc_idem; reflexivity|].
  repeat split.
Qed.

(** ** Hand.update *)

Lemma existsb_perm {A} (f : A -> bool) (l l' : list A) :
  Permutation l l' -> existsb f l = existsb f l'.
Proof.
  induction 1; cbn; try congruence.
  destruct (f x), (f y); reflexivity.
Qed.

Lemma sort_sorted (h : Hand.t) :
  StronglySorted desc (Hand._dice h) -> Hand.sort h = h.
Proof.
  intros S. destruct h as [d ty pt ind fin]. unfold Hand.sort, Hand.set_dice_raw.
  cbn in *. rewrite (sorted_sort_desc d S). reflexivity.
Qed.

(** The cached category is not read by [detemine_hand_type]. *)
Lemma detemine_cached (h : Hand.t) (x : option HandType.t) :
  List.length (Hand._dice h) = 3%nat ->
  Hand.detemine_hand_type (Hand.set_hand_type_raw h x) = Hand.detemine_hand_type h.
Proof.
  intros L. destruct h as [d ty pt ind fin].
  unfold Hand.detemine_hand_type, Hand.high_dice, Hand.sort, Hand.set_dice_raw,
    Hand.set_hand_type_raw.
  cbn [Hand._dice Hand._hand_type Hand.put_together Hand.players_turn_ind
       Hand.finalized] in *.
  rewrite L. reflexivity.
Qed.

Lemma detemine_shape (h h' : Hand.t) :
  Hand.detemine_hand_type h = Ok h' ->
  List.length (Hand._dice h) = 3%nat ->
  exists ty, h' = Hand.set_hand_type_raw h (Some ty)
             \/ h' = Hand.set_hand_type_raw (Hand.sort h) (Some ty).
Proof.
  intros H L. unfold Hand.detemine_hand_type, Hand.high_dice in H. rewrite L in H.
  cbn [Nat.eqb negb] in H.
  repeat match type of H with
    | (if ?c then _ else _) = _ => destruct c
    end; monad_inv; eexists; (left; reflexivity) || (right; reflexivity).
Qed.

Lemma detemine_sorted_fix (h h' : Hand.t) :
  Hand.detemine_hand_type h = Ok h' ->
  StronglySorted desc (Hand._dice h) ->
  Hand.detemine_hand_type h' = Ok h'
  /\ Hand._dice h' = Hand._dice h
  /\ Hand.put_together h' = Hand.put_together h
  /\ Hand.players_turn_ind h' = Hand.players_turn_ind h
  /\ Hand.finalized h' = Hand.finalized h.
Proof.
  intros H S.
  destruct (Nat.eq_dec (List.length (Hand._dice h)) 3) as [L|L].
  - destruct (detemine_shape h h' H L) as (ty & E).
    rewrite (sort_sorted h S) in E.
    assert (h' = Hand.set_hand_type_raw h (Some ty)) as -> by tauto.
    rewrite (detemine_cached h (Some ty) L).
    split; [exact H|]. destruct h; repeat split.
  - rewrite (detemine_other_length h L) in H. injection H as <-.
    split; [apply detemine_other_length, L|]. repeat split.
Qed.

(** What [update] does to the fields other than the category. *)
Lemma update_fields (h h' : Hand.t) :
  Hand.update h = Ok h' ->
  Hand._dice h' = Hand.sort_desc (Hand._dice h)
  /\ Hand.put_together h'
     = Hand.put_together h || existsb Die.taken_out (Hand._dice h)
  /\ Hand.players_turn_ind h' = Hand.players_turn_ind h
  /\ Hand.finalized h' = Hand.finalized h
  /\ Hand.detemine_hand_type h' = Ok h'.
Proof.
  unfold Hand.update. intros H.
  match type of H with Hand.detemine_hand_type ?x = _ => set (h1 := x) in * end.
  assert (Hand._dice h1 = Hand.sort_desc (Hand._dice h)) as D1.
  { subst h1. destruct (existsb _ _); destruct h; reflexivity. }
  assert (Hand.put_together h1
          = Hand.put_together h || existsb Die.taken_out (Hand._dice h)) as P1.
  { subst h1. destruct h as [d ty pt ind fin].
    cbn [Hand.sort Hand.set_dice_raw Hand._dice Hand.put_together].
    rewrite (existsb_perm Die.taken_out _ _ (sort_desc_perm d)).
    destruct (existsb Die.taken_out d); cbn; [rewrite orb_true_r|rewrite orb_false_r];
      reflexivity. }
  assert (Hand.players_turn_ind h1 = Hand.players_turn_ind h
          /\ Hand.finalized h1 = Hand.finalized h) as (I1 & F1).
  { subst h1. destruct (existsb _ _); destruct h; split; reflexivity. }
  assert (StronglySorted desc (Hand._dice h1)) as S1
      by (rewrite D1; apply sort_desc_sorted).
  destruct (detemine_sorted_fix h1 h' H S1) as (Fix & D & P & I & F).
  repeat split; congruence.
Qed.

Lemma update_again (h h' : Hand.t) :
  Hand.update h = Ok h' -> Hand.update h' = Ok h'.
Proof.
  intros H. destruct (update_fields h h' H) as (D & P & _ & _ & Fix).
  unfold Hand.update.
  assert (StronglySorted desc (Hand._dice h')) as S
      by (rewrite D; apply sort_desc_sorted).
  rewrite (sort_sorted h' S).
  destruct (existsb Die.taken_out (Hand._dice h')) eqn:T; [|exact Fix].
  assert (Hand.put_together h' = true) as PT.
  { rewrite P. rewrite D in T.
    rewrite (existsb_perm _ _ _ (sort_desc_perm (Hand._dice h))) in T.
    rewrite T. apply orb_true_r. }
  replace (Hand.set_put_together h' true) with h'; [exact Fix|].
  clear - PT. destruct h'; cbn in *. rewrite PT. reflexivity.
Qed.

(** [update] is idempotent: a hand it returned is up to date, a second
    [update] returns the very same hand. *)
Theorem update_idempotent (h h' : Hand.t) :
  Hand.update h = Ok h' -> Hand.update h' = Ok h'.
Proof. exact (update_again h h'). Qed.

Lemma update_idempotent_witness :
  exists h',
    Hand.of_values [2; 6; 4] = Ok h'
    /\ map Die.value (Hand._dice h') = [6; 4; 2]
    /\ Hand.update h' = Ok h'.
Proof.
  assert (exists h', Hand.of_values [2; 6; 4] = Ok h'
                     /\ map Die.value (Hand._dice h') = [6; 4; 2]
                     /\ Hand.update (Hand.mk [Die.mk 2 false false; Die.mk 6 false false;
                                              Die.mk 4 false false] None false 0 false)
                        = Ok h')
    as (h' & A & B & C) by (eexists; by_evaluation).
  exists h'. split; [exact A|]. split; [exact B|].
  exact (update_idempotent _ h' C).
Defined.

(** ** Hands of three faces *)

Lemma detemine_total (h : Hand.t) :
  List.length (Hand._dice h) = 3%nat -> Forall face (Hand._dice h) ->
  exists h', Hand.detemine_hand_type h = Ok h'.
Proof.
  destruct h as [[|d0 [|d1 [|d2 [|? ?]]]] ty0 pt ind fin]; cbn [Hand._dice];
    try discriminate.
  intros _ F. inversion F as [|? ? F0 F']; subst.
  inversion F' as [|? ? F1 F'']; subst. inversion F'' as [|? ? F2 _]; subst.
  destruct (face_cases d0 F0) as (v0 & t0 & C0).
  destruct (face_cases d1 F1) as (v1 & t1 & C1).
  destruct (face_cases d2 F2) as (v2 & t2 & C2).
  destruct C0 as [->|[->|[->|[->|[->| ->]]]]];
  destruct C1 as [->|[->|[->|[->|[->| ->]]]]];
  destruct C2 as [->|[->|[->|[->|[->| ->]]]]];
  destruct pt; eexists; vm_compute; reflexivity.
Qed.

(** On dice that show faces [update] always returns. *)
Lemma update_total (h : Hand.t) :
  Forall face (Hand._dice h) ->
  exists h', Hand.update h = Ok h'.
Proof.
  intros F. unfold Hand.update.
  match goal with |- exists _, Hand.detemine_hand_type ?x = _ => set (h1 := x) end.
  assert (Hand._dice h1 = Hand.sort_desc (Hand._dice h)) as D1.
  { subst h1. destruct (existsb _ _); destruct h; reflexivity. }
  destruct (Nat.eq_dec (List.length (Hand._dice h1)) 3) as [L|L].
  - apply detemine_total; [exact L|]. rewrite D1.
    eapply Permutation_Forall; [symmetry; apply sort_desc_perm | exact F].
  - exists h1. apply detemine_other_length, L.
Qed.

Lemma die_copy_face (d : Die.t) : face d -> Die.copy d = Ok d.
Proof.
  destruct d as [v vis tk]. unfold face, Die.copy, Die.new, Die.__post_init__.
  cbn. intros F.
  destruct (Z.leb_spec 1 v), (Z.leb_spec v 6); try lia. reflexivity.
Qed.

Lemma copy_dice_faces (l : list Die.t) :
  Forall face l -> rmapM Die.copy l = Ok l.
Proof.
  induction 1 as [|d l F _ IH]; cbn; [reflexivity|].
  rewrite (die_copy_face d F). cbn. rewrite IH. reflexivity.
Qed.

Lemma faces_sorted (l : list Die.t) :
  Forall face l -> Forall face (Hand.sort_desc l).
Proof.
  intros F. eapply Permutation_Forall; [symmetry; apply sort_desc_perm | exact F].
Qed.

Lemma copy_faces (h : Hand.t) :
  Forall face (Hand._dice h) ->
  exists h',
    Hand.copy h = Ok h'
    /\ Hand.update h = Ok h'
    /\ Hand._dice h' = Hand.sort_desc (Hand._dice h)
    /\ Hand.players_turn_ind h' = Hand.players_turn_ind h
    /\ Hand.finalized h' = Hand.finalized h
    /\ Hand.copy h' = Ok h'.
Proof.
  intros F.
  assert (forall x, Forall face (Hand._dice x) -> Hand.copy x = Hand.update x) as Same.
  { intros x Fx. unfold Hand.copy.
    change Hand.empty with (Ok (Hand.mk [] None false 0 false)).
    cbn [rbind]. rewrite (copy_dice_faces _ Fx). cbn [rbind].
    unfold Hand.set_dice.
    destruct (update_total (Hand.set_dice_raw (Hand.mk [] None false 0 false)
                              (Hand._dice x))) as (h1 & U1); [exact Fx|].
    rewrite U1. cbn [rbind].
    destruct (update_fields _ _ U1) as (D1 & _).
    cbn [Hand.set_dice_raw Hand._dice] in D1.
    destruct h1 as [d1 ty1 pt1 i1 f1]. cbn in D1. subst d1.
    destruct x as [d ty pt ind fin].
    unfold Hand.update, Hand.sort, Hand.set_dice_raw, Hand.set_put_together,
      Hand.set_players_turn_ind, Hand.set_finalized, Hand.set_hand_type_raw.
    cbn -[Hand.sort_desc Hand.detemine_hand_type existsb].
    rewrite sort_desc_idem. reflexivity. }
  destruct (update_total h F) as (h' & U).
  destruct (update_fields h h' U) as (D & _ & I & Fi & _).
  exists h'. rewrite (Same h F).
  repeat (split; [assumption|]).
  rewrite Same; [apply (update_again h h' U)|].
  rewrite D. apply faces_sorted, F.
Qed.

(** On a hand whose dice show faces, [copy] returns what [update] returns:
    an up-to-date hand with the same dice, flags and turn index.  The copy
    of an up-to-date hand is equal to it in every field. *)
Theorem copy_is_update (h : Hand.t) :
  Forall face (Hand._dice h) ->
  exists h',
    Hand.copy h = Ok h'
    /\ Hand.update h = Ok h'
    /\ Hand._dice h' = Hand.sort_desc (Hand._dice h)
    /\ Hand.players_turn_ind h' = Hand.players_turn_ind h
    /\ Hand.finalized h' = Hand.finalized h
    /\ Hand.copy h' = Ok h'.
Proof. exact (copy_faces h). Qed.

Lemma copy_is_update_witness :
  exists h',
    Hand.copy (Hand.mk [Die.mk 1 true true; Die.mk 5 false false;
                        Die.mk 1 false false] None false 2 false) = Ok h'
    /\ map Die.value (Hand._dice h') = [5; 1; 1]
    /\ Hand.put_together h' = true
    /\ Hand.copy h' = Ok h'.
Proof.
  pose (h := Hand.mk [Die.mk 1 true true; Die.mk 5 false false;
                      Die.mk 1 false false] None false 2 false).
  assert (Forall face (Hand._dice h)) as F
      by (repeat constructor; unfold face; cbn; lia).
  destruct (copy_is_update h F) as (h' & C & U & D & _ & _ & CC).
  exists h'. split; [exact C|].
  assert (Hand.update h = Ok h' -> map Die.value (Hand._dice h') = [5; 1; 1]
                                   /\ Hand.put_together h' = true) as E.
  { vm_compute. intros X. injection X as <-. split; reflexivity. }
  destruct (E U) as (V & P).
  split; [exact V|]. split; [exact P | exact CC].
Defined.

Lemma initialize_faces (h : Hand.t) (rng : Rng) :
  rng_ok rng ->
  exists h' ty,
    Hand.initialize h rng = Ok (h', mkRng (tape rng) (3 + pos rng))
    /\ Hand._dice h'
       = Hand.sort_desc [Die.mk (tape rng (pos rng)) false false;
                         Die.mk (tape rng (1 + pos rng)) false false;
                         Die.mk (tape rng (2 + pos rng)) false false]
    /\ Forall face (Hand._dice h')
    /\ Hand.put_together h' = false
    /\ Hand.finalized h' = false
    /\ Hand.players_turn_ind h' = Hand.players_turn_ind h
    /\ Hand._hand_type h' = Some ty /\ HandType.valid ty.
Proof.
  intros R. unfold Hand.initialize.
  assert (forall r, Die.random (mkRng (tape rng) r)
                    = Ok (Die.mk (tape rng r) false false, mkRng (tape rng) (S r)))
    as Roll.
  { intros r. unfold Die.random, bind, randint_1_6, lift, Die.of_value, Die.new,
      Die.__post_init__. cbn [tape pos Die.value].
    pose proof (R r) as B.
    destruct (Z.leb_spec 1 (tape rng r)), (Z.leb_spec (tape rng r) 6); try lia.
    reflexivity. }
  destruct rng as [tp p]. cbn [tape pos Nat.add] in *.
  set (d0 := Die.mk (tp p) false false).
  set (d1 := Die.mk (tp (S p)) false false).
  set (d2 := Die.mk (tp (S (S p))) false false).
  assert (Forall face [d0; d1; d2]) as F
      by (repeat constructor; unfold face; cbn; apply R).
  unfold bind at 1. rewrite Roll. unfold bind at 1. rewrite Roll.
  unfold bind at 1. rewrite Roll. fold d0 d1 d2.
  remember [d0; d1; d2] as l3 eqn:El3.
  assert (List.length l3 = 3%nat) as L3 by (subst l3; reflexivity).
  assert (existsb Die.taken_out l3 = false) as T3 by (subst l3; reflexivity).
  clear El3.
  unfold Hand.set_dice.
  destruct (update_total (Hand.set_dice_raw h l3) F) as (h1 & U1).
  unfold bind at 1, lift at 1. rewrite U1.
  destruct (update_fields _ _ U1) as (D1 & _ & I1 & _ & _).
  destruct h as [hd hty hpt hind hfin].
  destruct h1 as [d1' ty1 pt1 i1 f1].
  cbn [Hand.set_dice_raw Hand._dice Hand.players_turn_ind] in D1, I1. subst d1' i1.
  unfold Hand.set_finalized, Hand.set_put_together.
  cbn [Hand._dice Hand._hand_type Hand.put_together Hand.players_turn_ind
       Hand.finalized].
  match goal with |- context [Hand.update ?x] => set (h2 := x) end.
  assert (Forall face (Hand._dice h2)) as F2 by (apply faces_sorted, F).
  destruct (update_total h2 F2) as (h3 & U3).
  unfold lift. rewrite U3.
  destruct (update_fields _ _ U3) as (D3 & P3 & I3 & Fi3 & _).
  destruct (update_ok _ _ U3) as (_ & _ & _ & _ & Ty).
  destruct Ty as (ty & T & V).
  { subst h2. cbn [Hand._dice]. rewrite sort_desc_length. exact L3. }
  subst h2. cbn [Hand._dice Hand.put_together Hand.players_turn_ind Hand.finalized]
    in D3, P3, I3, Fi3.
  exists h3, ty.
  split; [reflexivity|].
  split; [rewrite D3, sort_desc_idem; reflexivity|].
  split; [rewrite D3; apply faces_sorted, F2|].
  split.
  { rewrite P3. rewrite (existsb_perm _ _ _ (sort_desc_perm l3)), T3. reflexivity. }
  repeat (split; [assumption|]). assumption.
Qed.

(** [initialize] on a generator that rolls faces: it always returns, with
    three dice that are neither visible nor set aside, showing the next
    three rolls in descending order; the hand is neither finalized nor
    marked as put together, carries a valid category, and exactly three
    rolls were consumed. *)
Theorem initialize_ok (h : Hand.t) (rng : Rng) :
  rng_ok rng ->
  exists h' ty,
    Hand.initialize h rng = Ok (h', mkRng (tape rng) (3 + pos rng))
    /\ Hand._dice h'
       = Hand.sort_desc [Die.mk (tape rng (pos rng)) false false;
                         Die.mk (tape rng (1 + pos rng)) false false;
                         Die.mk (tape rng (2 + pos rng)) false false]
    /\ Forall face (Hand._dice h')
    /\ Hand.put_together h' = false
    /\ Hand.finalized h' = false
    /\ Hand.players_turn_ind h' = Hand.players_turn_ind h
    /\ Hand._hand_type h' = Some ty /\ HandType.valid ty.
Proof. exact (initialize_faces h rng). Qed.

Lemma tape_of_ok (l : list Z) (d : Z) :
  Forall (fun v => 1 <= v <= 6) l -> 1 <= d <= 6 -> rng_ok (tape_of l d).
Proof.
  intros F D i. unfold tape_of. cbn [tape]. revert i.
  induction F as [|v l V _ IH]; intros [|i]; cbn; auto.
Qed.

Lemma initialize_ok_witness :
  exists h' rng',
    Hand.initialize (Hand.mk [] None true 0 true) (tape_of [2; 6; 4] 1)
      = Ok (h', rng')
    /\ map Die.value (Hand._dice h') = [6; 4; 2]
    /\ Hand.finalized h' = false
    /\ pos rng' = 3%nat.
Proof.
  assert (rng_ok (tape_of [2; 6; 4] 1)) as R
      by (apply tape_of_ok; [repeat constructor; lia | lia]).
  destruct (initialize_ok (Hand.mk [] None true 0 true) _ R)
    as (h' & ty & I & D & _ & _ & F & _).
  exists h', (mkRng (tape (tape_of [2; 6; 4] 1)) (3 + pos (tape_of [2; 6; 4] 1))).
  split; [exact I|]. split; [rewrite D; reflexivity|].
  split; [exact F | reflexivity].
Defined.

(** ** Chips of a hand *)

Lemma schock_out_name (ty : HandType.t) :
  HandType.valid ty ->
  (category_index ty = 5 <-> HandType.hand_type ty = "Schock-out")
  /\ category_index ty <= 5.
Proof.
  intros V.
  destruct (valid_cases ty V) as [[E B]|[[E B]|[[E B]|[[E B]|E]]]];
    unfold category_index; rewrite E; cbn; (split; [split|]);
    intros; try discriminate; try lia; try reflexivity.
Qed.

Lemma detemine_kind (h h' : Hand.t) :
  Hand.detemine_hand_type h = Ok h' ->
  List.length (Hand._dice h) = 3%nat ->
  exists ty,
    Hand._hand_type h' = Some ty /\ HandType.valid ty
    /\ (HandType.hand_type ty = "Schock-out"
        <-> map Die.value (Hand._dice h) = [1; 1; 1]).
Proof.
  destruct h as [[|[a va ta] [|[b vb tb] [|[c vc tc] [|? ?]]]] ty0 pt ind fin];
    cbn [Hand._dice]; try discriminate.
  intros H _. unfold Hand.detemine_hand_type, Hand.high_dice in H.
  cbn [Hand._dice List.length Nat.eqb negb map Die.value filter] in H.
  destruct (Z.eqb_spec a 1) as [Ea|Ea], (Z.eqb_spec b 1) as [Eb|Eb],
           (Z.eqb_spec c 1) as [Ec|Ec];
    cbn [List.length Nat.eqb negb filter Die.value] in H;
    repeat match type of H with
      | (if ?c then _ else _) = _ => destruct c
      end; monad_inv;
    repeat match goal with
      | E : HandType.new _ _ = Ok _ |- _ =>
          apply post_init_ok in E; destruct E as (-> & E)
      end;
    (eexists; split; [reflexivity|]; split; [assumption|]);
    cbn [HandType.hand_type map Die.value];
    split; intros X; try discriminate; try congruence;
    try (injection X; intros; subst; congruence).
Qed.

(** [get_chip_count] refuses a hand that does not hold three dice.  On an
    up-to-date hand of three dice it returns the chips of the category:
    13 exactly when all three dice show a one, and between 1 and 6
    otherwise. *)
Theorem chip_count_spec (h0 h : Hand.t) :
  (List.length (Hand._dice h) <> 3%nat ->
   Hand.get_chip_count h
   = Raise (ValueError "Hand must contain exactly 3 dice to count chips"))
  /\ (Hand.update h0 = Ok h -> List.length (Hand._dice h) = 3%nat ->
      exists ty c,
        Hand.hand_type h = Ok ty /\ HandType.chips ty = Ok c
        /\ Hand.get_chip_count h = Ok c
        /\ (map Die.value (Hand._dice h) = [1; 1; 1] -> c = 13)
        /\ (map Die.value (Hand._dice h) <> [1; 1; 1] -> 1 <= c <= 6)).
Proof.
  split.
  - intros L. unfold Hand.get_chip_count.
    destruct (Nat.eqb_spec (List.length (Hand._dice h)) 3); [contradiction|reflexivity].
  - intros U L. destruct (update_fields h0 h U) as (_ & _ & _ & _ & Fix).
    destruct (detemine_kind h h Fix L) as (ty & T & V & K).
    destruct (chips_valid ty V) as (c & C & B & C5 & _ & _ & _ & _ & C6).
    destruct (schock_out_name ty V) as (N & N5).
    exists ty, c. unfold Hand.get_chip_count, Hand.hand_type. rewrite L, T.
    cbn [Nat.eqb negb rbind]. repeat (split; [first [reflexivity | assumption]|]).
    split.
    + intros X. apply C5, N, K, X.
    + intros X. split; [lia|]. apply C6.
      assert (category_index ty <> 5) by (intros Y; apply X, K, N, Y). lia.
Qed.

Lemma chip_count_spec_witness :
  exists h,
    Hand.of_values [2; 1; 1] = Ok h
    /\ Hand.get_chip_count h = Ok 2
    /\ Hand.get_chip_count (Hand.clear h)
       = Raise (ValueError "Hand must contain exactly 3 dice to count chips").
Proof.
  pose (h0 := Hand.mk [Die.mk 2 false false; Die.mk 1 false false;
                       Die.mk 1 false false] None false 0 false).
  assert (exists h, Hand.of_values [2; 1; 1] = Ok h /\ Hand.update h0 = Ok h
                    /\ List.length (Hand._dice h) = 3%nat
                    /\ HandType.chips (HandType.Schock 2) = Ok 2
                    /\ Hand.hand_type h = Ok (HandType.Schock 2))
    as (h & A & U & L & C2 & T) by (eexists; by_evaluation).
  exists h. split; [exact A|].
  destruct (chip_count_spec h0 h) as (_ & Three).
  destruct (chip_count_spec h0 (Hand.clear h)) as (Other & _).
  destruct (Three U L) as (ty & c & T' & C & G & _).
  split; [|apply Other; cbn; discriminate].
  rewrite G. congruence.
Defined.

(** ** The order of hands *)

Lemma ranked_key (h : Hand.t) :
  ranked h ->
  exists ty r,
    Hand.hand_type h = Ok ty /\ HandType.valid ty
    /\ HandType.internal_rank ty = Ok r
    /\ hand_key h = (r, Hand.players_turn_ind h).
Proof.
  intros (ty & T & V). destruct (rank_valid ty V) as (r & R & _).
  exists ty, r. unfold Hand.hand_type, hand_key, turn_key. cbn [Turn.final_hand].
  rewrite T, R. repeat split; assumption.
Qed.

(** Hands that carry a category are compared by the rank of the category
    and, for equal ranks, by the turn index, the later turn being the
    smaller hand.  [<] is a strict order: irreflexive, asymmetric and
    transitive, and any two hands are comparable unless rank and turn index
    agree.  [==] holds exactly when rank and turn index agree, so hands of
    different turn indices are never equal. *)
Theorem hand_order (a b c : Hand.t) :
  ranked a -> ranked b -> ranked c ->
  Hand.__lt__ a b = Ok (key_ltb (hand_key a) (hand_key b))
  /\ Hand.__eq__ a b
     = Ok ((snd (hand_key a) =? snd (hand_key b))
           && (fst (hand_key a) =? fst (hand_key b)))
  /\ snd (hand_key a) = Hand.players_turn_ind a
  /\ Hand.__lt__ a a = Ok false
  /\ (hand_lt a b -> Hand.__lt__ b a = Ok false)
  /\ (hand_lt a b -> hand_lt b c -> hand_lt a c)
  /\ (hand_lt a b \/ hand_lt b a \/ hand_key a = hand_key b)
  /\ (fst (hand_key a) = fst (hand_key b) ->
      Hand.__lt__ a b = Ok (Hand.players_turn_ind a >? Hand.players_turn_ind b))
  /\ (Hand.players_turn_ind a <> Hand.players_turn_ind b ->
      Hand.__eq__ a b = Ok false).
Proof.
  intros Ra Rb Rc.
  destruct (ranked_key a Ra) as (ta & ra & Ta & Va & Ka & Ha).
  destruct (ranked_key b Rb) as (tb & rb & Tb & Vb & Kb & Hb).
  destruct (ranked_key c Rc) as (tc & rc & Tc & Vc & Kc & Hc).
  assert (forall x y tx ty rx ry,
             Hand.hand_type x = Ok tx -> Hand.hand_type y = Ok ty ->
             HandType.internal_rank tx = Ok rx -> HandType.internal_rank ty = Ok ry ->
             Hand.__lt__ x y
             = Ok (key_ltb (rx, Hand.players_turn_ind x) (ry, Hand.players_turn_ind y)))
    as LT.
  { intros x y tx ty rx ry Tx Ty Rx Ry. unfold Hand.__lt__, key_ltb.
    rewrite Tx, Ty. cbn [rbind fst snd].
    rewrite (eq_of_ranks tx ty rx ry Rx Ry), (lt_of_ranks tx ty rx ry Rx Ry).
    cbn [rbind]. rewrite Z.gtb_ltb.
    destruct (Z.eqb_spec rx ry), (Z.ltb_spec rx ry); try lia; cbn; reflexivity. }
  unfold hand_lt.
  rewrite !(LT a b ta tb ra rb), !(LT b a tb ta rb ra), !(LT a a ta ta ra ra),
    !(LT b c tb tc rb rc), !(LT a c ta tc ra rc) by assumption.
  rewrite Ha, Hb. cbn [fst snd].
  split; [reflexivity|].
  split.
  { unfold Hand.__eq__. rewrite Ta, Tb. cbn [rbind].
    rewrite (eq_of_ranks ta tb ra rb Ka Kb).
    destruct (Hand.players_turn_ind a =? Hand.players_turn_ind b); reflexivity. }
  split; [reflexivity|].
  unfold key_ltb. cbn [fst snd].
  repeat split; intros;
    repeat match goal with
      | H : Ok _ = Ok _ |- _ => injection H as H
      | |- Ok _ = Ok _ => f_equal
      end.
  - destruct (Z.ltb_spec ra ra), (Z.eqb_spec ra ra),
      (Z.ltb_spec (Hand.players_turn_ind a) (Hand.players_turn_ind a));
      try reflexivity; lia.
  - destruct (Z.ltb_spec ra rb), (Z.eqb_spec ra rb), (Z.ltb_spec rb ra),
      (Z.eqb_spec rb ra),
      (Z.ltb_spec (Hand.players_turn_ind b) (Hand.players_turn_ind a)),
      (Z.ltb_spec (Hand.players_turn_ind a) (Hand.players_turn_ind b));
      cbn in *; try reflexivity; try discriminate; lia.
  - destruct (Z.ltb_spec ra rb), (Z.eqb_spec ra rb), (Z.ltb_spec rb rc),
      (Z.eqb_spec rb rc), (Z.ltb_spec ra rc), (Z.eqb_spec ra rc),
      (Z.ltb_spec (Hand.players_turn_ind b) (Hand.players_turn_ind a)),
      (Z.ltb_spec (Hand.players_turn_ind c) (Hand.players_turn_ind b)),
      (Z.ltb_spec (Hand.players_turn_ind c) (Hand.players_turn_ind a));
      cbn in *; try reflexivity; try discriminate; lia.
  - destruct (Z.ltb_spec ra rb), (Z.eqb_spec ra rb), (Z.ltb_spec rb ra),
      (Z.eqb_spec rb ra),
      (Z.ltb_spec (Hand.players_turn_ind b) (Hand.players_turn_ind a)),
      (Z.ltb_spec (Hand.players_turn_ind a) (Hand.players_turn_ind b));
      cbn; try (left; reflexivity); try (right; left; reflexivity);
      right; right; f_equal; lia.
  - subst rb. rewrite Z.ltb_irrefl, Z.eqb_refl, Z.gtb_ltb. reflexivity.
  - unfold Hand.__eq__.
    destruct (Z.eqb_spec (Hand.players_turn_ind a) (Hand.players_turn_ind b));
      [contradiction | reflexivity].
Qed.

Lemma hand_order_witness :
  exists a b,
    Hand.new [Die.mk 6 false false; Die.mk 5 false false; Die.mk 3 false false]
      false 0 true = Ok a
    /\ Hand.new [Die.mk 6 false false; Die.mk 5 false false; Die.mk 3 false false]
         false 1 true = Ok b
    /\ Hand.__lt__ b a = Ok true
    /\ Hand.__lt__ a b = Ok false
    /\ Hand.__eq__ a b = Ok false.
Proof.
  assert (exists a b,
             Hand.new [Die.mk 6 false false; Die.mk 5 false false;
                       Die.mk 3 false false] false 0 true = Ok a
             /\ Hand.new [Die.mk 6 false false; Die.mk 5 false false;
                          Die.mk 3 false false] false 1 true = Ok b
             /\ Hand._hand_type a = Some (HandType.HighDice 653)
             /\ Hand._hand_type b = Some (HandType.HighDice 653)
             /\ Hand.players_turn_ind a = 0 /\ Hand.players_turn_ind b = 1
             /\ Hand.__lt__ b a = Ok true)
    as (a & b & A & B & Ta & Tb & Ia & Ib & L) by (do 2 eexists; by_evaluation).
  assert (ranked a) as Ra by (exists (HandType.HighDice 653); split; [exact Ta | reflexivity]).
  assert (ranked b) as Rb by (exists (HandType.HighDice 653); split; [exact Tb | reflexivity]).
  destruct (hand_order b a a Rb Ra Ra) as (_ & _ & _ & _ & Asym & _).
  destruct (hand_order a b b Ra Rb Rb) as (_ & _ & _ & _ & _ & _ & _ & _ & Neq).
  exists a, b. split; [exact A|]. split; [exact B|]. split; [exact L|].
  split; [apply Asym, L|]. apply Neq. rewrite Ia, Ib. discriminate.
Defined.

(** ** The enumeration of the hands *)

Lemma ascending_sorted (l : list Hand.t) :
  ascending l = true -> StronglySorted hand_lt l.
Proof.
  induction l as [|x l IH]; cbn; intros H; [constructor|].
  apply andb_true_iff in H. destruct H as (H1 & H2).
  constructor; [apply IH, H2|].
  rewrite forallb_forall in H1. apply Forall_forall. intros y Y.
  specialize (H1 y Y). unfold hand_ltb, hand_lt in *.
  destruct (Hand.__lt__ x y) as [[|]|]; congruence.
Qed.

Lemma has_category_ok (ty : HandType.t) (h : Hand.t) :
  has_category ty h = true -> Hand._hand_type h = Some ty.
Proof.
  unfold has_category, category_eqb. destruct (Hand._hand_type h) as [[k v]|];
    [|discriminate].
  destruct ty as [k' v']. cbn. intros H. apply andb_true_iff in H.
  destruct H as (H1 & H2). apply String.eqb_eq in H1. apply Z.eqb_eq in H2.
  congruence.
Qed.

Lemma category_listed (ty : HandType.t) (l : list Hand.t) :
  existsb (has_category ty) l = true ->
  exists e, In e l /\ Hand._hand_type e = Some ty.
Proof.
  intros H. apply existsb_exists in H. destruct H as (e & I & C).
  exists e. split; [exact I | apply has_category_ok, C].
Qed.

(** [get_all_possible_hands] returns the hands worst to best without
    repetition: every hand of the list is smaller than all the hands after
    it.  The list is complete: whatever faces three dice show and whether
    or not the hand is put together, the category [detemine_hand_type]
    finds is the category of a hand of the list. *)
Theorem all_possible_hands_complete :
  exists hands,
    HandEnum.get_all_possible_hands = Ok hands
    /\ StronglySorted hand_lt hands
    /\ forall h h',
        List.length (Hand._dice h) = 3%nat -> Forall face (Hand._dice h) ->
        Hand.detemine_hand_type h = Ok h' ->
        exists e, In e hands /\ Hand._hand_type e = Hand._hand_type h'.
Proof.
  eexists. split; [vm_compute; reflexivity|].
  match goal with |- StronglySorted _ ?l /\ _ => set (L := l) end.
  split; [apply ascending_sorted; vm_compute; reflexivity|].
  intros h h' Len F H.
  destruct h as [[|d0 [|d1 [|d2 [|? ?]]]] ty0 pt ind fin]; cbn [Hand._dice] in *;
    try discriminate.
  inversion F as [|? ? F0 F']; subst.
  inversion F' as [|? ? F1 F'']; subst. inversion F'' as [|? ? F2 _]; subst.
  destruct (face_cases d0 F0) as (v0 & t0 & C0).
  destruct (face_cases d1 F1) as (v1 & t1 & C1).
  destruct (face_cases d2 F2) as (v2 & t2 & C2).
  clear F F' F'' F0 F1 F2 Len.
  destruct C0 as [->|[->|[->|[->|[->| ->]]]]];
  destruct C1 as [->|[->|[->|[->|[->| ->]]]]];
  destruct C2 as [->|[->|[->|[->|[->| ->]]]]];
  destruct pt; vm_compute in H; injection H as <-;
    cbn [Hand._hand_type]; apply category_listed; vm_compute; reflexivity.
Qed.

(** * Further properties of the players *)

(** ** The references to dice *)

Lemma die_eq_refl (d : Die.t) : Die.__eq__ d d = true.
Proof.
  unfold Die.__eq__. rewrite Z.eqb_refl, !Bool.eqb_reflx. reflexivity.
Qed.

Lemma die_in_self (dice : list Die.t) (refs : list nat) (i : nat) (die : Die.t) :
  nth_error dice i = Some die -> In i refs ->
  BasePlayer.die_in dice refs die = true.
Proof.
  intros N I. unfold BasePlayer.die_in. apply existsb_exists.
  exists i. split; [exact I|]. rewrite N. apply die_eq_refl.
Qed.

Lemma filter_all {A} (f : A -> bool) (l : list A) :
  (forall x, In x l -> f x = true) -> filter f l = l.
Proof.
  induction l as [|x l IH]; intros H; cbn; [reflexivity|].
  rewrite (H x (or_introl eq_refl)). f_equal. apply IH. intros y Y.
  apply H. right. exact Y.
Qed.

Lemma dice_to_process_nil (dice : list Die.t) :
  BasePlayer.dice_to_process dice [] = seq 0 (List.length dice).
Proof.
  unfold BasePlayer.dice_to_process. apply filter_all. intros i I.
  apply in_seq in I. destruct (nth_error dice i) eqn:N; [reflexivity|].
  apply nth_error_None in N. lia.
Qed.

Lemma set_nth_app {A} (pre suf : list A) (x a : A) :
  BasePlayer.set_nth (List.length pre) a (pre ++ x :: suf) = pre ++ a :: suf.
Proof. induction pre as [|y pre IH]; cbn; [reflexivity|]. rewrite IH. reflexivity. Qed.

Lemma set_nth_length {A} (i : nat) (a : A) (l : list A) :
  List.length (BasePlayer.set_nth i a l) = List.length l.
Proof.
  revert i. induction l as [|x l IH]; intros [|i]; cbn; try reflexivity.
  rewrite IH. reflexivity.
Qed.

Lemma set_nth_forall {A} (P : A -> Prop) (i : nat) (a : A) (l : list A) :
  P a -> Forall P l -> Forall P (BasePlayer.set_nth i a l).
Proof.
  intros Pa. revert i. induction l as [|x l IH]; intros [|i] F; cbn;
    inversion F; subst; constructor; auto.
Qed.

Lemma nth_error_mid {A} (pre suf : list A) (x : A) :
  nth_error (pre ++ x :: suf) (List.length pre) = Some x.
Proof. induction pre; cbn; auto. Qed.

(** ** take_out_ones *)

Lemma filter_seq_ext (f g : nat -> bool) (k n : nat) :
  (forall i, (k <= i < k + n)%nat -> f i = g i) ->
  filter f (seq k n) = filter g (seq k n).
Proof.
  intros H. apply filter_ext_in. intros i I. apply in_seq in I. apply H. lia.
Qed.

Lemma take_out_fold (to_process : list nat) (orig : list Die.t) :
  (forall i, (i < List.length orig)%nat -> In i to_process) ->
  forall suf pre0 pre p,
    orig = pre0 ++ suf -> List.length pre = List.length pre0 ->
    fold_left
      (fun '(dice, processed) i =>
         match nth_error dice i with
         | Some die =>
             if BasePlayer.die_in dice to_process die && (Die.value die =? 1)
             then (BasePlayer.set_nth i (Die.make_a_one die) dice, processed ++ [i])
             else (dice, processed)
         | None => (dice, processed)
         end)
      (seq (List.length pre) (List.length suf)) (pre ++ suf, p)
    = (pre ++ map set_aside_one suf,
       p ++ filter (fun i => match nth_error orig i with
                             | Some d => Die.value d =? 1
                             | None => false
                             end) (seq (List.length pre) (List.length suf))).
Proof.
  intros All. induction suf as [|d suf IH]; intros pre0 pre p E L.
  - cbn. rewrite !app_nil_r. reflexivity.
  - cbn [List.length seq fold_left filter map].
    rewrite nth_error_mid.
    assert (nth_error orig (List.length pre) = Some d) as N
        by (rewrite E, L; apply nth_error_mid).
    rewrite N.
    assert (BasePlayer.die_in (pre ++ d :: suf) to_process d = true) as In1.
    { apply (die_in_self _ _ (List.length pre)); [apply nth_error_mid|].
      apply All. rewrite E, L, length_app. cbn. lia. }
    rewrite In1. cbn [andb]. unfold set_aside_one at 1.
    assert (forall x : Die.t, pre ++ x :: suf = (pre ++ [x]) ++ suf) as Re
        by (intros; rewrite <- app_assoc; reflexivity).
    assert (S (List.length pre) = List.length (pre ++ [d])) as SL
        by (rewrite length_app; cbn; lia).
    destruct (Die.value d =? 1) eqn:V.
    + rewrite set_nth_app, (Re (Die.make_a_one d)).
      replace (S (List.length pre))
        with (List.length (pre ++ [Die.make_a_one d]))
        by (rewrite length_app; cbn; lia).
      rewrite (IH (pre0 ++ [d]) (pre ++ [Die.make_a_one d]) (p ++ [List.length pre])).
      * rewrite <- !app_assoc. reflexivity.
      * rewrite E, <- app_assoc. reflexivity.
      * rewrite !length_app. cbn. lia.
    + rewrite (Re d), SL.
      rewrite (IH (pre0 ++ [d]) (pre ++ [d]) p).
      * rewrite <- !app_assoc. reflexivity.
      * rewrite E, <- app_assoc. reflexivity.
      * rewrite !length_app. cbn. lia.
Qed.

(** [take_out_ones], called with no die processed yet: a finalized hand is
    refused; otherwise every die that shows a one is set aside (it becomes
    visible and taken out), the other dice and the rest of the hand are
    left as they are, and the dice set aside are reported as processed, in
    the order of the hand. *)
Theorem take_out_ones_spec (h : Hand.t) :
  (Hand.finalized h = true ->
   BasePlayer.take_out_ones h []
   = Raise (ValueError "Cannot take out ones in a finalized hand"))
  /\ (Hand.finalized h = false ->
      BasePlayer.take_out_ones h []
      = Ok (Hand.set_dice_raw h (map set_aside_one (Hand._dice h)),
            positions_of 1 (Hand._dice h)))
  /\ map Die.value (map set_aside_one (Hand._dice h)) = map Die.value (Hand._dice h)
  /\ Forall (fun d => Die.value d = 1 -> Die.taken_out d = true /\ Die.visible d = true)
       (map set_aside_one (Hand._dice h)).
Proof.
  unfold BasePlayer.take_out_ones.
  split; [intros ->; reflexivity|].
  split.
  - intros ->. rewrite dice_to_process_nil.
    pose proof (take_out_fold (seq 0 (List.length (Hand._dice h))) (Hand._dice h))
      as Fold.
    specialize (Fold (fun i Hi => proj2 (in_seq _ _ _) (conj (Nat.le_0_l i) Hi))).
    specialize (Fold (Hand._dice h) [] [] [] eq_refl eq_refl).
    cbn [List.length app] in Fold. rewrite Fold. reflexivity.
  - split.
    + rewrite map_map. apply map_ext. intros d. unfold set_aside_one.
      destruct (Z.eqb_spec (Die.value d) 1) as [E|E]; [rewrite E|]; reflexivity.
    + apply Forall_forall. intros d' I. apply in_map_iff in I.
      destruct I as (d & <- & _). unfold set_aside_one.
      destruct (Z.eqb_spec (Die.value d) 1); cbn; auto; intros; contradiction.
Qed.

Lemma take_out_ones_spec_witness :
  exists h h',
    Hand.of_values [1; 4; 1] = Ok h
    /\ BasePlayer.take_out_ones h [] = Ok (h', [1%nat; 2%nat])
    /\ map Die.taken_out (Hand._dice h') = [false; true; true].
Proof.
  assert (exists h, Hand.of_values [1; 4; 1] = Ok h
                    /\ Hand.finalized h = false
                    /\ positions_of 1 (Hand._dice h) = [1%nat; 2%nat]
                    /\ map Die.taken_out (map set_aside_one (Hand._dice h))
                       = [false; true; true])
    as (h & A & F & P & T) by (eexists; by_evaluation).
  destruct (take_out_ones_spec h) as (_ & Run & _).
  exists h, (Hand.set_dice_raw h (map set_aside_one (Hand._dice h))).
  split; [exact A|]. split; [rewrite (Run F), P; reflexivity | exact T].
Defined.

(** ** convert_sixes *)

Lemma sixes_cons (v : Z) (l : list Z) :
  sixes (v :: l) = ((if (v =? 6)%Z then 1 else 0) + sixes l)%nat.
Proof.
  unfold sixes. cbn. destruct (Z.eq_dec v 6), (Z.eqb_spec v 6); try lia; reflexivity.
Qed.

(** [convert_sixes], called with no die processed yet.  A finalized hand
    and a hand that does not hold three dice are refused.  Of three sixes
    the first two dice become ones; of exactly two sixes the first six
    becomes a one; in every other case the hand is returned as it is.  A
    die that becomes a one is visible and taken out, and is reported as
    processed.  The hand returned never shows more than one six. *)
Theorem convert_sixes_spec (h : Hand.t) :
  (Hand.finalized h = true ->
   BasePlayer.convert_sixes h []
   = Raise (ValueError "Cannot convert sixes in a finalized hand"))
  /\ (Hand.finalized h = false -> List.length (Hand._dice h) <> 3%nat ->
      BasePlayer.convert_sixes h []
      = Raise (ValueError "Hand must contain exactly 3 dice to convert sixes"))
  /\ (forall d0 d1 d2,
        Hand.finalized h = false -> Hand._dice h = [d0; d1; d2] ->
        let one := Die.mk 1 true true in
        exists dice' p,
          BasePlayer.convert_sixes h [] = Ok (Hand.set_dice_raw h dice', p)
          /\ (sixes (map Die.value [d0; d1; d2]) = 3%nat ->
              dice' = [one; one; d2] /\ p = [0%nat; 1%nat])
          /\ (sixes (map Die.value [d0; d1; d2]) = 2%nat ->
              exists pre d post,
                [d0; d1; d2] = pre ++ d :: post
                /\ Forall (fun x => Die.value x <> 6) pre /\ Die.value d = 6
                /\ dice' = pre ++ one :: post /\ p = [List.length pre])
          /\ ((sixes (map Die.value [d0; d1; d2]) < 2)%nat ->
              dice' = [d0; d1; d2] /\ p = [])
          /\ (sixes (map Die.value dice') <= 1)%nat).
Proof.
  unfold BasePlayer.convert_sixes.
  split; [intros ->; reflexivity|].
  split.
  { intros -> L. destruct (Nat.eqb_spec (List.length (Hand._dice h)) 3);
      [contradiction | reflexivity]. }
  intros d0 d1 d2 F D. rewrite F, D, dice_to_process_nil.
  assert (BasePlayer.die_in [d0; d1; d2] [0; 1; 2]%nat d0 = true) as I0
      by (apply (die_in_self _ _ 0%nat); cbn; auto).
  assert (BasePlayer.die_in [d0; d1; d2] [0; 1; 2]%nat d1 = true) as I1
      by (apply (die_in_self _ _ 1%nat); cbn; auto).
  assert (BasePlayer.die_in [d0; d1; d2] [0; 1; 2]%nat d2 = true) as I2
      by (apply (die_in_self _ _ 2%nat); cbn; auto).
  assert (Hand.set_dice_raw h [d0; d1; d2] = h) as Same
      by (destruct h; cbn in *; subst; reflexivity).
  cbn [List.length Nat.eqb negb seq filter nth_error map Nat.sub].
  rewrite !sixes_cons.
  destruct d0 as [v0 s0 t0], d1 as [v1 s1 t1], d2 as [v2 s2 t2].
  cbn [Die.value] in *.
  destruct (Z.eqb_spec v0 6) as [E0|E0], (Z.eqb_spec v1 6) as [E1|E1],
           (Z.eqb_spec v2 6) as [E2|E2];
    cbn [List.length Nat.eqb filter fold_left nth_error BasePlayer.set_nth app
         BasePlayer.convert_first_six Die.value];
    rewrite ?I0, ?I1, ?I2;
    repeat match goal with
      | E : ?v = 6 |- context [?v =? 6] => rewrite (proj2 (Z.eqb_eq v 6) E)
      | E : ?v <> 6 |- context [?v =? 6] => rewrite (proj2 (Z.eqb_neq v 6) E)
      end;
    cbn [andb BasePlayer.set_nth app nth_error Die.make_a_one];
    rewrite ?I0, ?I1, ?I2;
    repeat match goal with
      | E : ?v = 6 |- context [?v =? 6] => rewrite (proj2 (Z.eqb_eq v 6) E)
      | E : ?v <> 6 |- context [?v =? 6] => rewrite (proj2 (Z.eqb_neq v 6) E)
      end;
    cbn [andb BasePlayer.set_nth app nth_error Die.make_a_one];
    rewrite ?I0, ?I1, ?I2;
    repeat match goal with
      | E : ?v = 6 |- context [?v =? 6] => rewrite (proj2 (Z.eqb_eq v 6) E)
      | E : ?v <> 6 |- context [?v =? 6] => rewrite (proj2 (Z.eqb_neq v 6) E)
      end;
    cbn [andb BasePlayer.set_nth app nth_error Die.make_a_one].
  all: try (exists [Die.mk v0 s0 t0; Die.mk v1 s1 t1; Die.mk v2 s2 t2], (@nil nat);
            rewrite Same; split; [reflexivity|];
            cbn [map Die.value]; rewrite !sixes_cons;
            repeat match goal with
              | E : ?v <> 6 |- context [?v =? 6] => rewrite (proj2 (Z.eqb_neq v 6) E)
              | E : ?v = 6 |- context [?v =? 6] => rewrite (proj2 (Z.eqb_eq v 6) E)
              end;
            cbn; repeat split; intros; try lia; try discriminate; fail).
  all: eexists; eexists; (split; [reflexivity|]);
    cbn [map Die.value]; rewrite !sixes_cons;
    repeat match goal with
      | E : ?v <> 6 |- context [?v =? 6] => rewrite (proj2 (Z.eqb_neq v 6) E)
      | E : ?v = 6 |- context [?v =? 6] => rewrite (proj2 (Z.eqb_eq v 6) E)
      end;
    cbn [Z.eqb Pos.eqb Nat.add sixes count_occ];
    (split; [intros X; try discriminate X; try (split; reflexivity)|]);
    (split; [intros X; try discriminate X|]);
    [..|split; [intros X; try (exfalso; lia)| unfold sixes; cbn; lia]].
  all: subst.
  - exists [], (Die.mk 6 s0 t0), [Die.mk 6 s1 t1; Die.mk v2 s2 t2].
    repeat split; auto.
  - exists [], (Die.mk 6 s0 t0), [Die.mk v1 s1 t1; Die.mk 6 s2 t2].
    repeat split; auto.
  - exists [Die.mk v0 s0 t0], (Die.mk 6 s1 t1), [Die.mk 6 s2 t2].
    repeat split; auto.
Qed.

Lemma convert_sixes_spec_witness :
  exists h h',
    Hand.of_values [6; 2; 6] = Ok h
    /\ BasePlayer.convert_sixes h [] = Ok (h', [0%nat])
    /\ map Die.value (Hand._dice h') = [1; 6; 2].
Proof.
  assert (exists h, Hand.of_values [6; 2; 6] = Ok h
                    /\ Hand.finalized h = false
                    /\ Hand._dice h = [Die.mk 6 false false; Die.mk 6 false false;
                                       Die.mk 2 false false])
    as (h & A & F & D) by (eexists; by_evaluation).
  destruct (convert_sixes_spec h) as (_ & _ & Run).
  destruct (Run _ _ _ F D) as (dice' & p & R & _ & Two & _).
  destruct Two as (pre & d & post & E & NS & V & -> & ->); [reflexivity|].
  assert (pre = []) as ->.
  { destruct pre as [|x pre]; [reflexivity|]. exfalso.
    injection E as <- _. inversion NS as [|? ? X _]. apply X. reflexivity. }
  injection E as <- <-.
  exists h, (Hand.set_dice_raw h [Die.mk 1 true true; Die.mk 6 false false;
                                  Die.mk 2 false false]).
  split; [exact A|]. split; [exact R | reflexivity].
Defined.

(** ** _throw_new_hand never fails on a hand in play *)

(** Three dice that show faces. *)
Lemma fold_left_inv {A S : Type} (P : S -> Prop) (f : S -> A -> S) (l : list A) :
  (forall s a, P s -> P (f s a)) -> forall s, P s -> P (fold_left f l s).
Proof. intros Step. induction l; cbn; auto. Qed.

Lemma one_is_face (d : Die.t) : face (Die.make_a_one d).
Proof. unfold face. cbn. lia. Qed.

Lemma take_out_ones_total (h : Hand.t) (refs : list nat) :
  Hand.finalized h = false ->
  exists h' refs',
    BasePlayer.take_out_ones h refs = Ok (h', refs')
    /\ List.length (Hand._dice h') = List.length (Hand._dice h)
    /\ (Forall face (Hand._dice h) -> Forall face (Hand._dice h'))
    /\ Hand.finalized h' = false
    /\ Hand.players_turn_ind h' = Hand.players_turn_ind h.
Proof.
  intros F. unfold BasePlayer.take_out_ones. rewrite F.
  match goal with
  | |- context [fold_left ?ff ?ll ?ss] =>
      pose proof (fold_left_inv
                    (fun s : list Die.t * list nat =>
                       List.length (fst s) = List.length (Hand._dice h)
                       /\ (Forall face (Hand._dice h) -> Forall face (fst s)))
                    ff ll) as Inv;
      destruct (fold_left ff ll ss) as [dice processed] eqn:E
  end.
  exists (Hand.set_dice_raw h dice), processed. split; [reflexivity|].
  assert (List.length dice = List.length (Hand._dice h)
          /\ (Forall face (Hand._dice h) -> Forall face dice)) as (L & Fc).
  { change dice with (fst (dice, processed)). rewrite <- E. apply Inv.
    - intros [d p] i (L & Fc). destruct (nth_error d i) as [die|]; [|split; assumption].
      destruct (_ && _); cbn [fst]; [|split; assumption].
      split; [rewrite set_nth_length; exact L|].
      intros X. apply set_nth_forall; [apply one_is_face | apply Fc, X].
    - cbn. split; auto. }
  destruct h; cbn in *. repeat split; assumption.
Qed.

Lemma convert_first_six_inv (to_process idx : list nat) (dice : list Die.t)
    (processed : list nat) (dice' : list Die.t) (processed' : list nat) :
  BasePlayer.convert_first_six to_process idx dice processed = (dice', processed') ->
  List.length dice' = List.length dice
  /\ (Forall face dice -> Forall face dice').
Proof.
  revert dice processed. induction idx as [|i idx IH]; intros dice processed H;
    cbn in H.
  - injection H as <- <-. split; auto.
  - destruct (nth_error dice i) as [die|]; [|apply (IH _ _ H)].
    destruct (_ && _); [|apply (IH _ _ H)].
    injection H as <- <-. split; [apply set_nth_length|].
    intros X. apply set_nth_forall; [apply one_is_face | exact X].
Qed.

Lemma convert_sixes_total (h : Hand.t) (refs : list nat) :
  Hand.finalized h = false -> List.length (Hand._dice h) = 3%nat ->
  exists h' refs',
    BasePlayer.convert_sixes h refs = Ok (h', refs')
    /\ List.length (Hand._dice h') = 3%nat
    /\ (Forall face (Hand._dice h) -> Forall face (Hand._dice h'))
    /\ Hand.finalized h' = false
    /\ Hand.players_turn_ind h' = Hand.players_turn_ind h.
Proof.
  intros F L. unfold BasePlayer.convert_sixes. rewrite F, L.
  cbn [Nat.eqb negb].
  destruct (_ =? 3)%nat.
  - match goal with
    | |- context [fold_left ?ff ?ll ?ss] =>
        pose proof (fold_left_inv
                      (fun s : list Die.t * list nat =>
                         List.length (fst s) = List.length (Hand._dice h)
                         /\ (Forall face (Hand._dice h) -> Forall face (fst s)))
                      ff ll) as Inv;
        destruct (fold_left ff ll ss) as [dice processed] eqn:E
    end.
    exists (Hand.set_dice_raw h dice), processed. split; [reflexivity|].
    assert (List.length dice = List.length (Hand._dice h)
            /\ (Forall face (Hand._dice h) -> Forall face dice)) as (L' & Fc).
    { change dice with (fst (dice, processed)). rewrite <- E. apply Inv.
      - intros [d p] i (L' & Fc). destruct (nth_error d i) as [die|];
          [|split; assumption].
        cbn [fst]. split; [rewrite set_nth_length; exact L'|].
        intros X. apply set_nth_forall; [apply one_is_face | apply Fc, X].
      - cbn. split; auto. }
    destruct h; cbn in *. repeat split; try assumption. congruence.
  - destruct (_ =? 2)%nat.
    + destruct (BasePlayer.convert_first_six _ _ _ _) as [dice processed] eqn:E.
      apply convert_first_six_inv in E. destruct E as (L' & Fc).
      exists (Hand.set_dice_raw h dice), processed. split; [reflexivity|].
      destruct h; cbn in *. repeat split; try assumption. congruence.
    + exists h, refs. repeat split; auto.
Qed.

Lemma throw_rest_total (tp : nat -> Z) (idx : list nat) :
  (forall i, 1 <= tp i <= 6) ->
  forall dice processed p,
  exists dice' processed' n,
    BasePlayer.throw_rest idx dice processed (mkRng tp p)
    = Ok (dice', processed', mkRng tp (n + p))
    /\ (n <= List.length idx)%nat
    /\ List.length dice' = List.length dice
    /\ (Forall face dice -> Forall face dice').
Proof.
  intros R. induction idx as [|i idx IH]; intros dice processed p;
    cbn [BasePlayer.throw_rest].
  - exists dice, processed, 0%nat. repeat split; auto.
  - destruct (nth_error dice i) as [die|] eqn:N.
    + destruct (negb (BasePlayer.die_in dice processed die)).
      * unfold bind at 1. unfold Die.throw, bind, randint_1_6, ret. cbn [tape pos].
        destruct (IH (BasePlayer.set_nth i (Die.mk (tp p) false false) dice)
                    (processed ++ [i]) (S p))
          as (dice' & processed' & n & E & Ln & L & Fc).
        exists dice', processed', (S n). rewrite E.
        replace (n + S p)%nat with (S n + p)%nat by lia.
        split; [reflexivity|]. split; [cbn; lia|].
        split; [rewrite L; apply set_nth_length|].
        intros X. apply Fc, set_nth_forall; [unfold face; cbn; apply R | exact X].
      * destruct (IH dice processed p) as (dice' & processed' & n & E & Ln & L & Fc).
        exists dice', processed', n. repeat split; auto. cbn; lia.
    + destruct (IH dice processed p) as (dice' & processed' & n & E & Ln & L & Fc).
      exists dice', processed', n. repeat split; auto. cbn; lia.
Qed.

Lemma throw_total (h : Hand.t) (ones6 sixes6 all : bool) (rng : Rng) :
  rng_ok rng -> Forall face (Hand._dice h) -> List.length (Hand._dice h) = 3%nat ->
  (Hand.finalized h = false ->
   exists h' n,
     BasePlayer._throw_new_hand h ones6 sixes6 all rng
     = Ok (h', mkRng (tape rng) (n + pos rng))
     /\ (n <= 3)%nat
     /\ List.length (Hand._dice h') = 3%nat
     /\ Forall face (Hand._dice h')
     /\ StronglySorted desc (Hand._dice h')
     /\ Hand.finalized h' = false
     /\ Hand.players_turn_ind h' = Hand.players_turn_ind h)
  /\ (Hand.finalized h = true -> all = false -> ones6 = true ->
      BasePlayer._throw_new_hand h ones6 sixes6 all rng
      = Raise (ValueError "Cannot take out ones in a finalized hand"))
  /\ (Hand.finalized h = true -> all = false -> ones6 = false -> sixes6 = true ->
      BasePlayer._throw_new_hand h ones6 sixes6 all rng
      = Raise (ValueError "Cannot convert sixes in a finalized hand")).
Proof.
  intros R F L.
  destruct (copy_faces h F) as (h1 & C & _ & D1 & I1 & F1 & _).
  assert (List.length (Hand._dice h1) = 3%nat) as L1
      by (rewrite D1, sort_desc_length; exact L).
  assert (Forall face (Hand._dice h1)) as Fc1 by (rewrite D1; apply faces_sorted, F).
  unfold BasePlayer._throw_new_hand.
  unfold bind at 1, lift at 1. rewrite C.
  split; [|split].
  - intros Fin. rewrite Fin in F1.
    (* the hand and the processed dice after the options *)
    assert (exists h2 refs2,
               (if negb all
                then bind (if ones6 then lift (BasePlayer.take_out_ones h1 [])
                           else ret (h1, []))
                       (fun '(new_hand, dice_processed) =>
                          if sixes6
                          then lift (BasePlayer.convert_sixes new_hand dice_processed)
                          else ret (new_hand, dice_processed))
                else ret (h1, [])) rng = Ok (h2, refs2, rng)
               /\ List.length (Hand._dice h2) = 3%nat
               /\ Forall face (Hand._dice h2)
               /\ Hand.finalized h2 = false
               /\ Hand.players_turn_ind h2 = Hand.players_turn_ind h1)
      as (h2 & refs2 & E2 & L2 & Fc2 & F2 & I2).
    { destruct all; cbn [negb]; [exists h1, []; repeat split; auto|].
      assert (exists ha refsa,
                 (if ones6 then lift (BasePlayer.take_out_ones h1 [])
                  else ret (h1, [])) rng = Ok (ha, refsa, rng)
                 /\ List.length (Hand._dice ha) = 3%nat
                 /\ Forall face (Hand._dice ha)
                 /\ Hand.finalized ha = false
                 /\ Hand.players_turn_ind ha = Hand.players_turn_ind h1)
        as (ha & refsa & Ea & La & Fca & Fa & Ia).
      { destruct ones6; [|exists h1, []; repeat split; auto].
        destruct (take_out_ones_total h1 [] F1) as (ha & refsa & E & La & Fca & Fa & Ia).
        exists ha, refsa. unfold lift. rewrite E.
        repeat split; auto. congruence. }
      unfold bind. rewrite Ea.
      destruct sixes6; [|exists ha, refsa; repeat split; auto].
      destruct (convert_sixes_total ha refsa Fa La)
        as (hb & refsb & E & Lb & Fcb & Fb & Ib).
      exists hb, refsb. unfold lift. rewrite E. repeat split; auto. congruence. }
    unfold bind at 1. rewrite E2.
    destruct rng as [tp p]. cbn [tape pos].
    destruct (throw_rest_total tp (seq 0 (List.length (Hand._dice h2))) R
                (Hand._dice h2) refs2 p)
      as (dice' & processed' & n & E3 & Ln & L3 & Fc3).
    unfold bind at 1. rewrite E3.
    rewrite length_seq, L2 in Ln.
    cbn [Hand.set_dice_raw Hand._dice]. rewrite L3, L2. cbn [Nat.eqb negb].
    eexists. exists n. split; [reflexivity|].
    split; [exact Ln|].
    unfold Hand.sort, Hand.set_dice_raw. cbn [Hand._dice Hand.finalized
      Hand.players_turn_ind].
    split; [rewrite sort_desc_length; congruence|].
    split; [apply faces_sorted, Fc3, Fc2|].
    split; [apply sort_desc_sorted|].
    split; [exact F2 | congruence].
  - intros Fin -> ->. rewrite Fin in F1. cbn [negb].
    unfold bind, lift, BasePlayer.take_out_ones. rewrite F1. reflexivity.
  - intros Fin -> -> ->. rewrite Fin in F1. cbn [negb].
    unfold bind, lift, ret, BasePlayer.convert_sixes. rewrite F1. reflexivity.
Qed.

(** [_throw_new_hand] on a hand in play, with rolls that are faces: for a
    hand of three dice that is not finalized the call always returns; at
    most three rolls are consumed; the hand returned holds three dice
    showing faces, in descending order, and is still not finalized.  A
    finalized hand is refused with a ValueError as soon as ones are to be
    taken out or sixes to be converted. *)
Theorem throw_new_hand_total (h : Hand.t) (ones6 sixes6 all : bool) (rng : Rng) :
  rng_ok rng -> Forall face (Hand._dice h) -> List.length (Hand._dice h) = 3%nat ->
  (Hand.finalized h = false ->
   exists h' n,
     BasePlayer._throw_new_hand h ones6 sixes6 all rng
     = Ok (h', mkRng (tape rng) (n + pos rng))
     /\ (n <= 3)%nat
     /\ List.length (Hand._dice h') = 3%nat
     /\ Forall face (Hand._dice h')
     /\ StronglySorted desc (Hand._dice h')
     /\ Hand.finalized h' = false
     /\ Hand.players_turn_ind h' = Hand.players_turn_ind h)
  /\ (Hand.finalized h = true -> all = false -> ones6 = true ->
      BasePlayer._throw_new_hand h ones6 sixes6 all rng
      = Raise (ValueError "Cannot take out ones in a finalized hand"))
  /\ (Hand.finalized h = true -> all = false -> ones6 = false -> sixes6 = true ->
      BasePlayer._throw_new_hand h ones6 sixes6 all rng
      = Raise (ValueError "Cannot convert sixes in a finalized hand")).
Proof. exact (throw_total h ones6 sixes6 all rng). Qed.

Lemma throw_new_hand_total_witness :
  exists h h' rng',
    Hand.of_values [6; 6; 1] = Ok h
    /\ BasePlayer._throw_new_hand h true true false (tape_of [4] 1) = Ok (h', rng')
    /\ map Die.value (Hand._dice h') = [4; 1; 1]
    /\ pos rng' = 1%nat
    /\ StronglySorted desc (Hand._dice h').
Proof.
  assert (exists h x r,
             Hand.of_values [6; 6; 1] = Ok h
             /\ Hand._dice h = [Die.mk 6 false false; Die.mk 6 false false;
                                Die.mk 1 false false]
             /\ Hand.finalized h = false
             /\ BasePlayer._throw_new_hand h true true false (tape_of [4] 1)
                = Ok (x, r)
             /\ map Die.value (Hand._dice x) = [4; 1; 1] /\ pos r = 1%nat)
    as (h & x & r & A & D & Fin & E' & V & P) by (do 3 eexists; by_evaluation).
  assert (rng_ok (tape_of [4] 1)) as R
      by (apply tape_of_ok; [repeat constructor; lia | lia]).
  assert (Forall face (Hand._dice h)) as F
      by (rewrite D; repeat constructor; unfold face; cbn; lia).
  assert (List.length (Hand._dice h) = 3%nat) as L by (rewrite D; reflexivity).
  destruct (throw_new_hand_total h true true false _ R F L) as (Run & _).
  destruct (Run Fin) as (h' & n & E & _ & _ & _ & S & _).
  rewrite E in E'. injection E' as <- <-.
  exists h, h', (mkRng (tape (tape_of [4] 1)) (n + pos (tape_of [4] 1))).
  repeat (split; [assumption|]). exact S.
Defined.

(** ** play_turn *)

Lemma die_copy_same (d d' : Die.t) : Die.copy d = Ok d' -> d' = d.
Proof.
  unfold Die.copy, Die.new, Die.__post_init__. destruct (_ && _); [discriminate|].
  intros H. injection H as <-. destruct d; reflexivity.
Qed.

Lemma copy_dice_same (l l' : list Die.t) : rmapM Die.copy l = Ok l' -> l' = l.
Proof.
  revert l'. induction l as [|d l IH]; intros l' H; cbn in H; monad_inv;
    [reflexivity|].
  apply die_copy_same in E. apply IH in E0. congruence.
Qed.

Lemma copy_fields (h h' : Hand.t) :
  Hand.copy h = Ok h' ->
  Hand._dice h' = Hand.sort_desc (Hand._dice h)
  /\ Hand.players_turn_ind h' = Hand.players_turn_ind h
  /\ Hand.finalized h' = Hand.finalized h.
Proof.
  unfold Hand.copy. intros H. monad_inv.
  apply copy_dice_same in E0. subst.
  unfold Hand.set_dice in E1. apply update_fields in E1.
  destruct E1 as (D1 & _). apply update_fields in H.
  destruct H as (D & _ & I & F & _).
  destruct a1. cbn in *. subst. rewrite sort_desc_idem in D. auto.
Qed.

Lemma finalize_fields (h h' : Hand.t) :
  Hand.finalize h = Ok h' ->
  Hand._dice h' = Hand.sort_desc (Hand._dice h)
  /\ Hand.players_turn_ind h' = Hand.players_turn_ind h
  /\ Hand.finalized h' = true
  /\ List.length (Hand._dice h) = 3%nat.
Proof.
  unfold Hand.finalize. intros H.
  destruct (Nat.eqb_spec (List.length (Hand._dice h)) 3) as [L|L];
    cbn [negb] in H; [|discriminate].
  monad_inv. apply update_fields in E. destruct E as (D & _ & I & _).
  match goal with
  | |- context [fold_left ?ff ?ll ?ss] =>
      pose proof (fold_left_inv
                    (fun x : Hand.t =>
                       Hand._dice x = Hand._dice a
                       /\ Hand.players_turn_ind x = Hand.players_turn_ind a)
                    ff ll) as Inv;
      destruct (Inv (fun x die (P : _ /\ _) =>
                       match Die.taken_out die as b
                         return (Hand._dice (if b then Hand.set_put_together x true else x)
                                 = Hand._dice a
                                 /\ Hand.players_turn_ind
                                      (if b then Hand.set_put_together x true else x)
                                    = Hand.players_turn_ind a) with
                       | true => P
                       | false => P
                       end) ss (conj eq_refl eq_refl)) as (D' & I')
  end.
  cbn [Hand.set_finalized Hand._dice Hand.players_turn_ind Hand.finalized].
  repeat split; congruence.
Qed.

Lemma finish_turn_player (p p' : BasePlayer.t) (i : Z) (t : Turn.t) (rng rng' : Rng) :
  BasePlayer.finish_turn p i rng = Ok (p', t, rng') ->
  rng' = rng
  /\ BasePlayer.name p' = BasePlayer.name p
  /\ BasePlayer.eval_hand_and_throw p' = BasePlayer.eval_hand_and_throw p
  /\ BasePlayer.throw_count p' = BasePlayer.throw_count p
  /\ Hand.finalized (BasePlayer.hand p') = true
  /\ Hand._dice (BasePlayer.hand p') = Hand.sort_desc (Hand._dice (BasePlayer.hand p))
  /\ exists h, Turn.final_hand t = Some h
               /\ Hand._dice h = Hand._dice (BasePlayer.hand p').
Proof.
  unfold BasePlayer.finish_turn. intros H. monad_inv.
  apply finalize_fields in E. destruct E as (D & _ & F & _).
  cbn [BasePlayer.hand BasePlayer.set_hand] in *.
  apply copy_fields in E0. destruct E0 as (D0 & _).
  cbn. repeat split; auto. eexists. split; [reflexivity|].
  rewrite D0, D, sort_desc_idem. reflexivity.
Qed.

Lemma throw_loop_player (n : nat) (p p' : BasePlayer.t) (m i : Z) (t : Turn.t)
    (rng rng' : Rng) :
  BasePlayer.throw_loop n p m i rng = Ok (p', t, rng') ->
  BasePlayer.name p' = BasePlayer.name p
  /\ BasePlayer.eval_hand_and_throw p' = BasePlayer.eval_hand_and_throw p
  /\ BasePlayer.throw_count p' = Turn.num_throws t
  /\ Hand.finalized (BasePlayer.hand p') = true
  /\ exists h, Turn.final_hand t = Some h
               /\ Hand._dice h = Hand._dice (BasePlayer.hand p').
Proof.
  revert p rng. induction n as [|n IH]; intros p rng H.
  - cbn in H. pose proof (finish_turn_ok _ _ _ _ _ _ H) as (_ & _ & _ & N & _).
    apply finish_turn_player in H. destruct H as (_ & ? & ? & ? & ? & _ & ?).
    repeat split; auto; congruence.
  - cbn [BasePlayer.throw_loop] in H. monad_inv. destruct b.
    + pose proof (finish_turn_ok _ _ _ _ _ _ H) as (_ & _ & _ & N & _).
      apply finish_turn_player in H. destruct H as (_ & ? & ? & ? & ? & _ & ?).
      repeat split; auto; congruence.
    + monad_inv. apply IH in H. exact H.
Qed.

(** [play_turn] with a decision method that works on the snapshot of the
    hand it is given: it may roll dice, return any hand, end the turn or
    raise, and it leaves the player object and the game alone (a method
    that assigns [throw_count], [hand] or [_id] of its player is outside
    this statement).  Whenever such a turn returns, the turn names the
    player and the turn index, the number of throws recorded lies between
    1 and [max_throws] (it is 1 when [max_throws] is below 1) and is the
    player's [throw_count]; the player's hand is finalized, and the turn
    holds a hand of the same three dice, finalized and carrying a valid
    category. *)
Theorem play_turn_any_strategy (p p' : BasePlayer.t) (m i : Z) (t : Turn.t)
    (rng rng' : Rng) :
  BasePlayer.play_turn p m i rng = Ok (p', t, rng') ->
  Turn.player_id t = BasePlayer._id p
  /\ Turn.turn_index t = i
  /\ 1 <= Turn.num_throws t <= Z.max 1 m
  /\ BasePlayer.throw_count p' = Turn.num_throws t
  /\ Hand.finalized (BasePlayer.hand p') = true
  /\ exists h ty,
      Turn.final_hand t = Some h
      /\ Hand._dice h = Hand._dice (BasePlayer.hand p')
      /\ List.length (Hand._dice h) = 3%nat
      /\ Hand.finalized h = true
      /\ Hand._hand_type h = Some ty /\ HandType.valid ty.
Proof.
  intros H.
  destruct (play_turn_ok _ _ _ _ _ _ _ H) as (Id & Ti & Pi & B & h & ty & Fh & L & Fi & T & V).
  unfold BasePlayer.play_turn in H. monad_inv.
  apply throw_loop_player in H. destruct H as (N & _ & C & F & h' & Fh' & D).
  cbn [BasePlayer.name BasePlayer.set_hand BasePlayer.set_throw_count] in N.
  repeat (split; [assumption|]).
  exists h, ty. rewrite Fh in Fh'. injection Fh' as <-.
  repeat (split; [assumption|]). assumption.
Qed.

Lemma play_turn_any_strategy_witness :
  exists p p' t rng',
    DummyPlayer "A" = Ok p
    /\ BasePlayer.play_turn p 3 0 (tape_of [3; 5; 1] 1) = Ok (p', t, rng')
    /\ Turn.num_throws t = 1
    /\ BasePlayer.throw_count p' = Turn.num_throws t
    /\ Hand.finalized (BasePlayer.hand p') = true.
Proof.
  assert (exists p p' t rng',
             DummyPlayer "A" = Ok p
             /\ BasePlayer.play_turn p 3 0 (tape_of [3; 5; 1] 1) = Ok (p', t, rng')
             /\ Turn.num_throws t = 1)
    as (p & p' & t & rng' & A & E & N) by (do 4 eexists; by_evaluation).
  destruct (play_turn_any_strategy _ _ _ _ _ _ _ E) as (_ & _ & _ & C & F & _).
  exists p, p', t, rng'. repeat (split; [assumption|]). exact F.
Defined.

(** *** The player of custom_player.py *)

Lemma finish_turn_total (p : BasePlayer.t) (i : Z) (rng : Rng) :
  Forall face (Hand._dice (BasePlayer.hand p)) ->
  List.length (Hand._dice (BasePlayer.hand p)) = 3%nat ->
  exists p' t, BasePlayer.finish_turn p i rng = Ok (p', t, rng).
Proof.
  intros F L. unfold BasePlayer.finish_turn, Hand.finalize. rewrite L.
  cbn [Nat.eqb negb].
  destruct (update_total _ F) as (hu & U).
  unfold bind at 1, lift at 1. rewrite U. cbn [rbind].
  match goal with
  | |- context [Hand.copy ?x] =>
      destruct (copy_faces x) as (hc & C & _)
  end.
  { cbn [BasePlayer.hand BasePlayer.set_hand Hand.set_finalized Hand._dice].
    destruct (update_fields _ _ U) as (D & _).
    match goal with
    | |- context [fold_left ?ff ?ll ?ss] =>
        pose proof (fold_left_inv (fun x : Hand.t => Hand._dice x = Hand._dice hu)
                      ff ll) as Inv;
        rewrite (Inv (fun x die (P : Hand._dice x = Hand._dice hu) =>
                        match Die.taken_out die as b
                          return (Hand._dice (if b then Hand.set_put_together x true
                                              else x) = Hand._dice hu) with
                        | true => P
                        | false => P
                        end) ss eq_refl)
    end.
    rewrite D. apply faces_sorted, F. }
  unfold bind, lift. rewrite C. eexists _, _. reflexivity.
Qed.

Lemma default_loop_total (m i : Z) (tp : nat -> Z) (n : nat) :
  (forall k, 1 <= tp k <= 6) ->
  forall p pos0,
    BasePlayer.eval_hand_and_throw p = BasePlayer.default_strategy ->
    Forall face (Hand._dice (BasePlayer.hand p)) ->
    List.length (Hand._dice (BasePlayer.hand p)) = 3%nat ->
    Hand.finalized (BasePlayer.hand p) = false ->
    exists p' t k,
      BasePlayer.throw_loop n p m i (mkRng tp pos0) = Ok (p', t, mkRng tp (k + pos0))
      /\ (k <= 3 * n)%nat
      /\ Turn.num_throws t = BasePlayer.throw_count p + Z.of_nat n.
Proof.
  intros R. induction n as [|n IH]; intros p pos0 Ev F L Fin.
  - destruct (finish_turn_total p i (mkRng tp pos0) F L) as (p' & t & E).
    exists p', t, 0%nat. cbn [BasePlayer.throw_loop Nat.add]. rewrite E.
    apply finish_turn_ok in E. destruct E as (_ & _ & _ & N & _).
    repeat split; [lia | rewrite N; lia].
  - cbn [BasePlayer.throw_loop].
    destruct (copy_faces _ F) as (h1 & C & _ & D1 & _ & F1 & _).
    unfold bind at 1, lift at 1. rewrite C.
    assert (Forall face (Hand._dice h1)) as Fc1 by (rewrite D1; apply faces_sorted, F).
    assert (List.length (Hand._dice h1) = 3%nat) as L1
        by (rewrite D1, sort_desc_length; exact L).
    rewrite Ev. unfold BasePlayer.default_strategy.
    destruct (throw_total h1 true true false (mkRng tp pos0) R Fc1 L1)
      as (Run & _).
    destruct Run as (h2 & k2 & E2 & K2 & L2 & Fc2 & _ & F2 & _); [congruence|].
    cbn [tape pos] in E2.
    unfold bind at 1. unfold bind at 1. rewrite E2. unfold ret at 1.
    destruct (update_total h2 Fc2) as (h3 & U3).
    unfold bind at 1, lift at 1. rewrite U3.
    destruct (update_fields _ _ U3) as (D3 & _ & _ & F3 & _).
    match goal with
    | |- context [BasePlayer.throw_loop n ?q] =>
        destruct (IH q (k2 + pos0)%nat) as (p' & t & k & E & K & N)
    end.
    + exact Ev.
    + cbn. rewrite D3. apply faces_sorted, Fc2.
    + cbn. rewrite D3, sort_desc_length. exact L2.
    + cbn. congruence.
    + exists p', t, (k + k2)%nat. rewrite E.
      replace (k + (k2 + pos0))%nat with (k + k2 + pos0)%nat by lia.
      split; [reflexivity|]. split; [lia|].
      rewrite N. cbn. lia.
Qed.

Lemma player_turn_total (p : BasePlayer.t) (m i : Z) (rng : Rng) :
  BasePlayer.eval_hand_and_throw p = BasePlayer.default_strategy ->
  rng_ok rng ->
  exists p' t k,
    BasePlayer.play_turn p m i rng = Ok (p', t, mkRng (tape rng) (k + pos rng))
    /\ Turn.num_throws t = Z.max 1 m
    /\ (3 <= k <= 3 * Z.to_nat (Z.max 1 m))%nat.
Proof.
  intros Ev R. unfold BasePlayer.play_turn.
  cbn [BasePlayer.hand BasePlayer.set_throw_count].
  destruct (initialize_faces (BasePlayer.hand p) rng R)
    as (h1 & ty & I & D & F & _ & Fin & _).
  unfold bind at 1. rewrite I.
  cbn [BasePlayer.throw_count BasePlayer.set_hand BasePlayer.set_throw_count].
  destruct rng as [tp pos0]. cbn [tape pos] in *.
  match goal with
  | |- context [BasePlayer.throw_loop ?n ?q] =>
      destruct (default_loop_total m i tp n R q (3 + pos0)%nat)
        as (p' & t & k & E & K & N)
  end.
  - exact Ev.
  - exact F.
  - cbn. rewrite D, sort_desc_length. reflexivity.
  - exact Fin.
  - exists p', t, (k + 3)%nat. rewrite E.
    replace (k + (3 + pos0))%nat with (k + 3 + pos0)%nat by lia.
    split; [reflexivity|].
    unfold BasePlayer.set_hand, BasePlayer.set_throw_count in N, K.
    cbn [BasePlayer.throw_count] in N, K.
    split; lia.
Qed.

(** The player of custom_player.py never ends a turn early and never
    fails: on rolls that are faces [play_turn] returns, the number of throws
    is [max_throws] (1 when [max_throws] is below 1), and between 3 and
    three times that many rolls are consumed. *)
Theorem player_throws_to_the_limit (p : BasePlayer.t) (m i : Z) (rng : Rng) :
  BasePlayer.eval_hand_and_throw p = BasePlayer.default_strategy ->
  rng_ok rng ->
  exists p' t k,
    BasePlayer.play_turn p m i rng = Ok (p', t, mkRng (tape rng) (k + pos rng))
    /\ Turn.num_throws t = Z.max 1 m
    /\ (3 <= k <= 3 * Z.to_nat (Z.max 1 m))%nat.
Proof. intros Ev R. exact (player_turn_total p m i rng Ev R). Qed.

Lemma player_throws_to_the_limit_witness :
  exists p p' t rng',
    BasePlayer.Player "A" = Ok p
    /\ BasePlayer.play_turn p 3 0 (tape_of [2; 3; 5] 4) = Ok (p', t, rng')
    /\ Turn.num_throws t = 3
    /\ pos rng' = 7%nat.
Proof.
  assert (exists p p' t rng',
             BasePlayer.Player "A" = Ok p
             /\ BasePlayer.eval_hand_and_throw p = BasePlayer.default_strategy
             /\ BasePlayer.play_turn p 3 0 (tape_of [2; 3; 5] 4) = Ok (p', t, rng')
             /\ pos rng' = 7%nat)
    as (p & p' & t & rng' & A & Ev & E & P) by (do 4 eexists; by_evaluation).
  assert (rng_ok (tape_of [2; 3; 5] 4)) as R
      by (apply tape_of_ok; [repeat constructor; lia | lia]).
  destruct (player_throws_to_the_limit p 3 0 _ Ev R) as (p2 & t2 & k & E2 & N & _).
  rewrite E in E2. injection E2 as <- <- _.
  exists p, p', t, rng'. repeat (split; [assumption|]). exact P.
Defined.

(** * Further properties of the game *)

(** ** Players and their ids *)

Lemma existsb_pid (x : option PlayerID) (l : list (option PlayerID)) :
  existsb (pid_eqb x) l = true <-> In x l.
Proof.
  rewrite existsb_exists. split.
  - intros (y & I & E). apply pid_eqb_eq in E. congruence.
  - intros I. exists x. split; [exact I | apply pid_eqb_eq; reflexivity].
Qed.

Lemma len_set_nodup (l : list (option PlayerID)) :
  NoDup l -> Game.len_set_pid l = List.length l.
Proof.
  induction 1 as [|x l N _ IH]; cbn; [reflexivity|].
  destruct (existsb (pid_eqb x) l) eqn:E; [|congruence].
  apply existsb_pid in E. contradiction.
Qed.

Lemma max_from_spec (l : list (option PlayerID)) :
  Forall (fun i => i <> None) l ->
  forall m, exists mx,
    Game.max_from (Some m) l = Ok (Some mx)
    /\ m <= mx
    /\ (forall k, In (Some k) l -> k <= mx)
    /\ (mx = m \/ In (Some mx) l).
Proof.
  induction 1 as [|x l Hx _ IH]; intros m; cbn [Game.max_from].
  - exists m. repeat split; [lia | intros k [] | auto].
  - destruct x as [i|]; [|contradiction].
    destruct (Z.gtb_spec i m) as [G|G].
    + destruct (IH i) as (mx & E & B & A & W). exists mx.
      split; [exact E|]. split; [lia|]. split.
      * intros k [K|K]; [injection K as <-; lia | apply A, K].
      * right. destruct W as [->|W]; [left; reflexivity | right; exact W].
    + destruct (IH m) as (mx & E & B & A & W). exists mx.
      split; [exact E|]. split; [lia|]. split.
      * intros k [K|K]; [injection K as <-; lia | apply A, K].
      * destruct W as [->|W]; [left; reflexivity | right; right; exact W].
Qed.

Lemma max_pid_spec (g : Game.t) :
  Game.players g <> [] ->
  Forall (fun i => i <> None) (Game.pids g) ->
  exists mx,
    Game.max_pid g = Ok mx
    /\ In (Some mx) (Game.pids g)
    /\ forall k, In (Some k) (Game.pids g) -> k <= mx.
Proof.
  intros NE S. unfold Game.max_pid.
  destruct (Game.pids g) as [|x l] eqn:E.
  { unfold Game.pids in E. destruct (Game.players g); [contradiction | discriminate]. }
  inversion S as [|? ? Hx Hl]; subst.
  destruct x as [i|]; [|contradiction].
  destruct (max_from_spec l Hl i) as (mx & Em & B & A & W).
  exists mx. rewrite Em. cbn [rbind]. split; [reflexivity|]. split.
  - destruct W as [->|W]; [left; reflexivity | right; exact W].
  - intros k [K|K]; [injection K as <-; lia | apply A, K].
Qed.

(** [add_player] lets the player in when its id is new, the greatest id
    is [n - 1] and the ids stay distinct. *)
Lemma add_player_ok (g : Game.t) (player : BasePlayer.t) (n : Z) :
  ~ In (BasePlayer._id player) (Game.pids g) ->
  match Game.players g with [] => Ok (-1) | _ => Game.max_pid g end = Ok (n - 1) ->
  NoDup (Game.pids g ++ [Some n]) ->
  Game.add_player g player
  = Ok (Game.set_players g
          (Game.players g ++ [BasePlayer.set_id player (Some n)])).
Proof.
  intros NI Mx N. unfold Game.add_player.
  destruct (existsb _ _) eqn:E; [apply existsb_pid in E; contradiction|].
  rewrite Mx. cbn [rbind]. replace (n - 1 + 1) with n by lia.
  replace (Game.pids (Game.set_players g
                        (Game.players g ++ [BasePlayer.set_id player (Some n)])))
    with (Game.pids g ++ [Some n])
    by (unfold Game.pids; cbn [Game.set_players Game.players];
        rewrite map_app; reflexivity).
  rewrite (len_set_nodup _ N).
  cbn [Game.set_players Game.players]. unfold Game.pids.
  rewrite !length_app, length_map, Nat.eqb_refl. reflexivity.
Qed.

(** [add_player] on a game whose players carry distinct ids.  A player
    whose id is already in the game is refused with the ValueError that
    names the id.  Any other player joins at the end of the list with a new
    id, one more than the greatest id of the game (0 in an empty game) and
    so greater than every id in use; the other players and the rounds are
    untouched, and the ids stay distinct, which is what the assertion at
    the end of the method checks. *)
Theorem add_player_spec (g : Game.t) (player : BasePlayer.t) :
  NoDup (Game.pids g) -> Forall (fun i => i <> None) (Game.pids g) ->
  (In (BasePlayer._id player) (Game.pids g) ->
   Game.add_player g player
   = Raise (ValueError ("Player with id=" ++ Game.repr_pid (BasePlayer._id player)
                        ++ " already exists.")%string))
  /\ (~ In (BasePlayer._id player) (Game.pids g) ->
      exists n,
        Game.add_player g player
        = Ok (Game.set_players g
                (Game.players g ++ [BasePlayer.set_id player (Some n)]))
        /\ (Game.players g = [] -> n = 0)
        /\ (Game.players g <> [] ->
            Game.max_pid g = Ok (n - 1) /\ In (Some (n - 1)) (Game.pids g))
        /\ (forall k, In (Some k) (Game.pids g) -> k < n)
        /\ NoDup (Game.pids g ++ [Some n])
        /\ Forall (fun i => i <> None) (Game.pids g ++ [Some n])
        /\ Game.len_set_pid (Game.pids g ++ [Some n])
           = List.length (Game.players g ++ [BasePlayer.set_id player (Some n)])).
Proof.
  intros N S. split.
  - intros I. unfold Game.add_player. apply existsb_pid in I. rewrite I. reflexivity.
  - intros NI.
    assert (exists n,
               match Game.players g with [] => Ok (-1) | _ => Game.max_pid g end
               = Ok (n - 1)
               /\ (Game.players g = [] -> n = 0)
               /\ (Game.players g <> [] ->
                   Game.max_pid g = Ok (n - 1) /\ In (Some (n - 1)) (Game.pids g))
               /\ (forall k, In (Some k) (Game.pids g) -> k < n))
      as (n & Mx & N0 & N1 & Lt).
    { destruct (Game.players g) as [|q l] eqn:Eg.
      - exists 0. split; [reflexivity|]. split; [reflexivity|].
        split; [intros C; contradiction|].
        unfold Game.pids. rewrite Eg. intros k [].
      - destruct (max_pid_spec g) as (mx & Em & Im & A);
          [rewrite Eg; discriminate | exact S|].
        exists (mx + 1). replace (mx + 1 - 1) with mx by lia.
        split; [exact Em|]. split; [discriminate|].
        split; [intros _; split; assumption|].
        intros k K. specialize (A k K). lia. }
    assert (NoDup (Game.pids g ++ [Some n])) as N'.
    { apply NoDup_app; [exact N | repeat constructor; cbn; tauto|].
      intros x X [<-|[]]. specialize (Lt n X). lia. }
    exists n. split; [apply add_player_ok; assumption|].
    split; [exact N0|]. split; [exact N1|]. split; [exact Lt|].
    split; [exact N'|].
    split; [apply Forall_app; split; [exact S | repeat constructor; discriminate]|].
    etransitivity; [exact (len_set_nodup _ N')|].
    unfold Game.pids. rewrite !length_app, length_map. reflexivity.
Qed.

Lemma add_player_spec_witness :
  exists a b g1 g2,
    DummyPlayer "A" = Ok a /\ DummyPlayer "B" = Ok b
    /\ Game.add_player Game.new a = Ok g1
    /\ Game.add_player g1 b = Ok g2
    /\ Game.pids g2 = [Some 0; Some 1]
    /\ (forall p, In p (Game.players g2) ->
                  exists msg, Game.add_player g2 p = Raise (ValueError msg)).
Proof.
  assert (exists a b g1 g2,
             DummyPlayer "A" = Ok a /\ DummyPlayer "B" = Ok b
             /\ Game.add_player Game.new a = Ok g1
             /\ Game.add_player g1 b = Ok g2
             /\ Game.pids g2 = [Some 0; Some 1])
    as (a & b & g1 & g2 & A & B & G1 & G2 & P) by (do 4 eexists; by_evaluation).
  exists a, b, g1, g2. repeat (split; [assumption|]).
  intros p I.
  assert (NoDup (Game.pids g2)) as N.
  { rewrite P. repeat constructor; cbn; intuition discriminate. }
  assert (Forall (fun i => i <> None) (Game.pids g2)) as S
      by (rewrite P; repeat constructor; discriminate).
  eexists. apply (add_player_spec g2 p N S). unfold Game.pids. apply in_map, I.
Defined.

(** *** A list of players *)

Lemma numbered_S (n : nat) : numbered (S n) = numbered n ++ [Some (Z.of_nat n)].
Proof. unfold numbered. rewrite seq_S, map_app. reflexivity. Qed.

Lemma numbered_in (n : nat) (x : option PlayerID) :
  In x (numbered n) <-> exists k, (k < n)%nat /\ x = Some (Z.of_nat k).
Proof.
  unfold numbered. rewrite in_map_iff. split.
  - intros (k & <- & I). apply in_seq in I. exists k. split; [lia | reflexivity].
  - intros (k & L & ->). exists k. split; [reflexivity | apply in_seq; lia].
Qed.

Lemma numbered_NoDup (n : nat) : NoDup (numbered n).
Proof.
  unfold numbered. apply Finite.Injective_map_NoDup; [|apply seq_NoDup].
  intros x y X. injection X as X. lia.
Qed.

Lemma numbered_length (n : nat) : List.length (numbered n) = n.
Proof. unfold numbered. rewrite length_map, length_seq. reflexivity. Qed.

Lemma numbered_nth (n k : nat) :
  (k < n)%nat -> nth_error (numbered n) k = Some (Some (Z.of_nat k)).
Proof.
  intros L. unfold numbered. rewrite nth_error_map, nth_error_seq.
  apply Nat.ltb_lt in L. rewrite L. reflexivity.
Qed.

Lemma max_from_numbered (len a : nat) :
  Game.max_from (Some (Z.of_nat a))
    (map (fun k => Some (Z.of_nat k)) (seq (S a) len))
  = Ok (Some (Z.of_nat (a + len))).
Proof.
  revert a. induction len as [|len IH]; intros a; cbn [seq map Game.max_from].
  - rewrite Nat.add_0_r. reflexivity.
  - destruct (Z.gtb_spec (Z.of_nat (S a)) (Z.of_nat a)) as [_|C]; [|lia].
    rewrite IH. do 3 f_equal. lia.
Qed.

Lemma max_pid_numbered (g : Game.t) (n : nat) :
  Game.pids g = numbered n ->
  match Game.players g with [] => Ok (-1) | _ => Game.max_pid g end
  = Ok (Z.of_nat n - 1).
Proof.
  intros E. pose proof (numbered_length n) as Ln. rewrite <- E in Ln.
  unfold Game.pids in Ln. rewrite length_map in Ln.
  destruct (Game.players g) as [|q l] eqn:Eg.
  - cbn in Ln. subst n. reflexivity.
  - unfold Game.max_pid. rewrite E. destruct n as [|n]; [discriminate|].
    unfold numbered. cbn [seq map]. rewrite (max_from_numbered n 0).
    cbn [rbind]. f_equal. lia.
Qed.

Lemma set_nth_same {A} (r : nat) (a : A) (l : list A) :
  (r < List.length l)%nat -> nth_error (BasePlayer.set_nth r a l) r = Some a.
Proof.
  revert r. induction l as [|x l IH]; intros [|r] L; cbn in *; try lia; auto.
  apply IH. lia.
Qed.

Lemma set_nth_other {A} (r r' : nat) (a : A) (l : list A) :
  r <> r' -> nth_error (BasePlayer.set_nth r a l) r' = nth_error l r'.
Proof.
  revert r r'. induction l as [|x l IH]; intros [|r] [|r'] N; cbn; auto; try congruence.
Qed.

Lemma set_nth_names (r : nat) (p q : BasePlayer.t) (l : list BasePlayer.t) :
  nth_error l r = Some p -> BasePlayer.name q = BasePlayer.name p ->
  map BasePlayer.name (BasePlayer.set_nth r q l) = map BasePlayer.name l.
Proof.
  revert r. induction l as [|x l IH]; intros [|r] H E; cbn in *; try discriminate.
  - injection H as ->. rewrite E. reflexivity.
  - f_equal. apply IH; assumption.
Qed.

(** The loop of [add_player] over a list of references, from a state in
    which the objects at the positions [done] joined in that order and
    carry the ids 0, 1, ..., and no other object has an id.  When the
    positions still to come are new and differ from each other, the loop
    returns and leaves a state of the same kind; otherwise it stops at the
    first object met a second time. *)
Lemma add_player_refs_run (refs : list nat) :
  forall g objs done,
    joined g objs done ->
    Forall (fun r => (r < List.length objs)%nat) refs ->
    (NoDup (done ++ refs) ->
     exists g' objs',
       Game.add_player_refs g objs refs = Ok (g', objs')
       /\ joined g' objs' (done ++ refs)
       /\ List.length objs' = List.length objs
       /\ map BasePlayer.name objs' = map BasePlayer.name objs
       /\ Game.rounds g' = Game.rounds g)
    /\ (~ NoDup (done ++ refs) ->
        exists k j r,
          (k < j)%nat
          /\ nth_error (done ++ refs) k = Some r
          /\ nth_error (done ++ refs) j = Some r
          /\ Game.add_player_refs g objs refs
             = Raise (ValueError ("Player with id=" ++ Game.repr_pid (Some (Z.of_nat k))
                                  ++ " already exists.")%string)).
Proof.
  induction refs as [|r refs IH]; intros g objs done J F.
  { rewrite app_nil_r. split.
    - intros _. exists g, objs. cbn. auto.
    - intros C. destruct J as (_ & N & _). contradiction. }
  inversion F as [|? ? Hr F']; subst.
  destruct J as (P & N & Obj & Fresh & Nm).
  destruct (nth_error objs r) as [p|] eqn:Ep;
    [|apply nth_error_None in Ep; lia].
  cbn [Game.add_player_refs]. unfold getitem. rewrite Ep. cbn [rbind].
  destruct (in_dec Nat.eq_dec r done) as [I|NI].
  - (* the object joined before *)
    split.
    { intros C. apply NoDup_remove_2 in C. exfalso. apply C.
      apply in_or_app. left. exact I. }
    intros _. apply In_nth_error in I. destruct I as (k & Hk).
    destruct (Obj k r Hk) as (q & Eq & Gk).
    assert (q = p) as -> by congruence.
    assert (k < List.length done)%nat as Lk
        by (apply nth_error_Some; rewrite Hk; discriminate).
    assert (BasePlayer._id p = Some (Z.of_nat k)) as Ip.
    { assert (nth_error (Game.pids g) k = Some (BasePlayer._id p)) as Hp
          by (unfold Game.pids; rewrite nth_error_map, Gk; reflexivity).
      rewrite P, (numbered_nth _ _ Lk) in Hp. congruence. }
    exists k, (List.length done), r. split; [exact Lk|].
    split; [rewrite nth_error_app1 by exact Lk; exact Hk|].
    split; [apply nth_error_mid|].
    unfold Game.add_player. rewrite Ip.
    assert (existsb (pid_eqb (Some (Z.of_nat k))) (Game.pids g) = true) as X.
    { apply existsb_pid. rewrite P. apply numbered_in. eauto. }
    rewrite X. reflexivity.
  - (* a new object *)
    pose proof (Fresh r p NI Ep) as Ip.
    set (n := List.length done) in *.
    set (p' := BasePlayer.set_id p (Some (Z.of_nat n))).
    set (g1 := Game.set_players g (Game.players g ++ [p'])).
    assert (Game.add_player g p = Ok g1) as A.
    { apply add_player_ok.
      - rewrite Ip, P. intros C. apply numbered_in in C.
        destruct C as (k & _ & C). discriminate.
      - apply max_pid_numbered, P.
      - rewrite P, <- numbered_S. apply numbered_NoDup. }
    rewrite A. cbn [rbind].
    assert (last (Game.players g1) p = p') as ->.
    { unfold g1. cbn [Game.set_players Game.players]. apply last_last. }
    assert (List.length (Game.players g) = n) as Lg.
    { rewrite <- (length_map BasePlayer._id). fold (Game.pids g).
      rewrite P. apply numbered_length. }
    assert (joined g1 (BasePlayer.set_nth r p' objs) (done ++ [r])) as J1.
    { split.
      { unfold g1, Game.pids. cbn [Game.set_players Game.players].
        rewrite map_app, length_app. cbn [List.length map].
        fold (Game.pids g). rewrite P, Nat.add_1_r, numbered_S. reflexivity. }
      split.
      { apply NoDup_app; [exact N | repeat constructor; cbn; tauto|].
        intros x X [<-|[]]. contradiction. }
      split.
      { intros k x Hk. unfold g1. cbn [Game.set_players Game.players].
        destruct (Nat.lt_ge_cases k n) as [Lk|Lk].
        - rewrite nth_error_app1 in Hk by exact Lk.
          destruct (Obj k x Hk) as (q & Eq & Gk). exists q.
          rewrite set_nth_other.
          + split; [exact Eq|]. rewrite nth_error_app1 by lia. exact Gk.
          + intros ->. apply NI. eapply nth_error_In, Hk.
        - rewrite nth_error_app2 in Hk by exact Lk. fold n in Hk.
          destruct (k - n)%nat as [|d] eqn:Ed; cbn in Hk;
            [|destruct d; cbn in Hk; discriminate].
          injection Hk as <-. exists p'.
          split; [apply set_nth_same, Hr|].
          rewrite nth_error_app2 by lia.
          replace (k - List.length (Game.players g))%nat with 0%nat by lia.
          reflexivity. }
      split.
      { intros x q NX Eq. rewrite set_nth_other in Eq.
        - apply (Fresh x q); [|exact Eq].
          intros C. apply NX, in_or_app. left. exact C.
        - intros ->. apply NX, in_or_app. right. left. reflexivity. }
      unfold g1. cbn [Game.set_players Game.players].
      rewrite (set_nth_names r p p' objs Ep eq_refl), !map_app, Nm.
      cbn [map]. do 2 f_equal.
      symmetry. apply nth_error_nth. rewrite nth_error_map, Ep. reflexivity. }
    assert (Forall (fun x => (x < List.length (BasePlayer.set_nth r p' objs))%nat) refs)
      as F1 by (rewrite set_nth_length; exact F').
    destruct (IH g1 (BasePlayer.set_nth r p' objs) (done ++ [r]) J1 F1) as (IH1 & IH2).
    rewrite <- app_assoc in IH1, IH2. cbn [app] in IH1, IH2.
    split.
    + intros C. destruct (IH1 C) as (g' & objs' & E & J' & L' & Nm' & R').
      exists g', objs'. split; [exact E|]. split; [exact J'|].
      split; [rewrite L'; apply set_nth_length|].
      split; [rewrite Nm'; apply (set_nth_names r p p' objs Ep eq_refl)|].
      exact R'.
    + intros C. exact (IH2 C).
Qed.

(** [add_player] with a list of players that have not joined a game, on a
    new game.  An empty list is refused.  When the list names every object
    once, the call returns: the players stand in the game in the order of
    the list with the ids 0, 1, 2, ..., each object carries the id it was
    given, and names and number of the objects are unchanged.  When the
    list names an object twice, the call raises the ValueError of a player
    that already exists: the id in the message is a position [k] of the
    list whose object occurs again at a later position. *)
Theorem add_players_numbering (objs : list BasePlayer.t) (refs : list nat) :
  Forall (fun p => BasePlayer._id p = None) objs ->
  Forall (fun r => (r < List.length objs)%nat) refs ->
  (refs = [] ->
   Game.add_player_list Game.new objs refs
   = Raise (ValueError "player cannot be empty."))
  /\ (refs <> [] -> NoDup refs ->
      exists g objs',
        Game.add_player_list Game.new objs refs = Ok (g, objs')
        /\ Game.pids g = numbered (List.length refs)
        /\ NoDup (Game.pids g)
        /\ map BasePlayer.name (Game.players g)
           = map (fun r => nth r (map BasePlayer.name objs) EmptyString) refs
        /\ (forall k r, nth_error refs k = Some r ->
              exists p,
                nth_error objs' r = Some p
                /\ nth_error (Game.players g) k = Some p
                /\ BasePlayer._id p = Some (Z.of_nat k))
        /\ (forall r p, ~ In r refs -> nth_error objs' r = Some p ->
              BasePlayer._id p = None)
        /\ List.length objs' = List.length objs
        /\ map BasePlayer.name objs' = map BasePlayer.name objs
        /\ Game.rounds g = [])
  /\ (~ NoDup refs ->
      exists k j r,
        (k < j)%nat
        /\ nth_error refs k = Some r
        /\ nth_error refs j = Some r
        /\ Game.add_player_list Game.new objs refs
           = Raise (ValueError ("Player with id=" ++ Game.repr_pid (Some (Z.of_nat k))
                                ++ " already exists.")%string)).
Proof.
  intros Fo Fr.
  assert (joined Game.new objs []) as J0.
  { split; [reflexivity|]. split; [constructor|].
    split; [intros [|k] r; discriminate|].
    split; [|reflexivity].
    intros r p _ E. rewrite Forall_forall in Fo. eapply Fo, nth_error_In, E. }
  destruct (add_player_refs_run refs Game.new objs [] J0 Fr) as (R1 & R2).
  cbn [app] in R1, R2.
  split; [intros ->; reflexivity|]. split.
  - intros NE N. destruct (R1 N) as (g & objs' & E & J & L & Nm & Rd).
    destruct J as (P & _ & Obj & Fresh & NmG).
    exists g, objs'. unfold Game.add_player_list.
    destruct refs as [|r0 refs0] eqn:Er; [contradiction|]. rewrite <- Er in *.
    rewrite E. cbn [rbind].
    assert (NoDup (Game.pids g)) as Ng by (rewrite P; apply numbered_NoDup).
    rewrite (len_set_nodup _ Ng). unfold Game.pids at 1.
    rewrite length_map, Nat.eqb_refl.
    split; [reflexivity|]. split; [exact P|]. split; [exact Ng|].
    split; [rewrite NmG, Nm; reflexivity|].
    split.
    { intros k r Hk. destruct (Obj k r Hk) as (p & Ep & Gk). exists p.
      split; [exact Ep|]. split; [exact Gk|].
      assert (k < List.length refs)%nat as Lk
          by (apply nth_error_Some; rewrite Hk; discriminate).
      assert (nth_error (Game.pids g) k = Some (BasePlayer._id p)) as Hp
          by (unfold Game.pids; rewrite nth_error_map, Gk; reflexivity).
      rewrite P, (numbered_nth _ _ Lk) in Hp. congruence. }
    split; [exact Fresh|]. split; [exact L|]. split; [exact Nm | exact Rd].
  - intros C. destruct (R2 C) as (k & j & r & Lk & Hk & Hj & E).
    exists k, j, r. split; [exact Lk|]. split; [exact Hk|]. split; [exact Hj|].
    unfold Game.add_player_list.
    destruct refs as [|r0 refs0] eqn:Er; [exfalso; apply C; constructor|].
    rewrite <- Er in *. rewrite E. reflexivity.
Qed.

Lemma add_players_numbering_witness :
  exists a b,
    BasePlayer.Player "A" = Ok a /\ BasePlayer.Player "B" = Ok b
    /\ (exists g objs',
           Game.add_player_list Game.new [a; b] [0; 1]%nat = Ok (g, objs')
           /\ Game.pids g = [Some 0; Some 1])
    /\ (exists msg,
           Game.add_player_list Game.new [a; b] [0; 0]%nat
           = Raise (ValueError msg)).
Proof.
  assert (exists a b,
             BasePlayer.Player "A" = Ok a /\ BasePlayer.Player "B" = Ok b
             /\ BasePlayer._id a = None /\ BasePlayer._id b = None)
    as (a & b & A & B & Ia & Ib) by (do 2 eexists; by_evaluation).
  assert (Forall (fun p => BasePlayer._id p = None) [a; b]) as Fo
      by (repeat constructor; assumption).
  exists a, b. split; [exact A|]. split; [exact B|]. split.
  - destruct (add_players_numbering [a; b] [0; 1]%nat Fo) as (_ & R & _).
    { repeat constructor. }
    destruct R as (g & objs' & E & P & _).
    { discriminate. }
    { repeat constructor; cbn; intuition discriminate. }
    exists g, objs'. split; [exact E | exact P].
  - destruct (add_players_numbering [a; b] [0; 0]%nat Fo) as (_ & _ & R).
    { repeat constructor. }
    destruct R as (k & j & r & _ & _ & _ & E).
    { intros N. inversion N as [|? ? NI _]; subst. apply NI. left. reflexivity. }
    eexists. exact E.
Defined.

(** ** get_player_by_id *)

(** In a game whose players carry distinct ids, [get_player_by_id] returns
    the player it is asked for: the id of any player of the game leads back
    to that player.  A player that is returned is in the game and has the
    id asked for, and an id that no player has is a ValueError. *)
Theorem get_player_by_id_spec (g : Game.t) :
  (NoDup (Game.pids g) ->
   forall p, In p (Game.players g) ->
             Game.get_player_by_id g (BasePlayer._id p) = Ok p)
  /\ (forall pid p, Game.get_player_by_id g pid = Ok p ->
                    In p (Game.players g) /\ BasePlayer._id p = pid)
  /\ (forall pid, ~ In pid (Game.pids g) ->
                  Game.get_player_by_id g pid
                  = Raise (ValueError ("No player found with id=" ++ Game.repr_pid pid)%string)).
Proof.
  unfold Game.get_player_by_id, Game.pids. split; [|split].
  - induction (Game.players g) as [|q l IH]; intros N p I; [contradiction|].
    cbn [find map] in *. inversion N as [|? ? NI N']; subst.
    destruct (pid_eqb (BasePlayer._id q) (BasePlayer._id p)) eqn:E.
    + apply pid_eqb_eq in E. destruct I as [->|I]; [reflexivity|].
      exfalso. apply NI. rewrite E. apply in_map, I.
    + destruct I as [->|I]; [|apply (IH N' p I)].
      assert (pid_eqb (BasePlayer._id p) (BasePlayer._id p) = true)
        by (apply pid_eqb_eq; reflexivity). congruence.
  - intros pid p H. destruct (find _ _) as [q|] eqn:F; [|discriminate].
    injection H as <-. apply find_some in F. destruct F as (I & E).
    apply pid_eqb_eq in E. auto.
  - intros pid NI. destruct (find _ _) as [q|] eqn:F; [|reflexivity].
    apply find_some in F. destruct F as (I & E). apply pid_eqb_eq in E.
    exfalso. apply NI. rewrite <- E. apply in_map, I.
Qed.

Lemma get_player_by_id_spec_witness :
  exists p,
    nth_error (Game.players (game_of DummyPlayer ["A"; "B"])) 1 = Some p
    /\ BasePlayer.name p = "B"
    /\ Game.get_player_by_id (game_of DummyPlayer ["A"; "B"]) (BasePlayer._id p)
       = Ok p
    /\ Game.get_player_by_id (game_of DummyPlayer ["A"; "B"]) (Some 2)
       = Raise (ValueError "No player found with id=PID(2)").
Proof.
  pose (G := game_of DummyPlayer ["A"; "B"]).
  assert (exists p, nth_error (Game.players G) 1 = Some p
                    /\ BasePlayer.name p = "B"
                    /\ Game.pids G = [Some 0; Some 1])
    as (p & N & Nm & P) by (eexists; by_evaluation).
  destruct (get_player_by_id_spec G) as (Back & _ & Missing).
  exists p. split; [exact N|]. split; [exact Nm|]. split.
  - apply Back; [|apply (nth_error_In _ _ N)].
    rewrite P. repeat constructor; cbn; intuition discriminate.
  - apply (Missing (Some 2)). rewrite P. cbn. intuition discriminate.
Defined.

(** ** _change_starting_player *)

Lemma pid_index_some (l : list (option PlayerID)) (k : option PlayerID) (n : nat) :
  Game.pid_index l k = Some n ->
  exists pre post, l = pre ++ k :: post /\ List.length pre = n /\ ~ In k pre.
Proof.
  revert n. induction l as [|x l IH]; intros n H; cbn in H; [discriminate|].
  destruct (pid_eqb x k) eqn:E.
  - injection H as <-. apply pid_eqb_eq in E. subst x.
    exists [], l. repeat split; auto.
  - destruct (Game.pid_index l k) as [m|]; [|discriminate]. injection H as <-.
    destruct (IH m eq_refl) as (pre & post & -> & L & NI).
    exists (x :: pre), post. cbn. repeat split; [congruence|].
    intros [X|X]; [|contradiction]. subst x.
    assert (pid_eqb k k = true) by (apply pid_eqb_eq; reflexivity). congruence.
Qed.


Lemma firstn_skipn_at {A} (pre post : list A) :
  firstn (List.length pre) (pre ++ post) = pre
  /\ skipn (List.length pre) (pre ++ post) = post.
Proof.
  induction pre as [|x pre (F & S)]; cbn; [auto|]. rewrite F, S. auto.
Qed.



(** ** Players that are out *)

Lemma list_remove_spec (p : BasePlayer.t) (l l' : list BasePlayer.t) :
  Game.list_remove p l = Ok l' ->
  exists pre q post,
    l = pre ++ q :: post /\ l' = pre ++ post
    /\ BasePlayer._id q = BasePlayer._id p
    /\ Forall (fun x => BasePlayer._id x <> BasePlayer._id p) pre.
Proof.
  revert l'. induction l as [|x l IH]; intros l' H; cbn in H; [discriminate|].
  destruct (Game.same_player x p) eqn:E.
  - injection H as <-. apply pid_eqb_eq in E. exists [], x, l. repeat split; auto.
  - monad_inv. destruct (IH _ E0) as (pre & q & post & -> & -> & I & NP).
    exists (x :: pre), q, post. repeat split; auto. constructor; [|exact NP].
    intros C. unfold Game.same_player in E.
    assert (pid_eqb (BasePlayer._id x) (BasePlayer._id p) = true)
      by (apply pid_eqb_eq; exact C). congruence.
Qed.

Lemma firstn_shorter {A} (i : nat) (l l' : list A) :
  firstn (S i) l' = firstn (S i) l -> firstn i l' = firstn i l.
Proof.
  intros H. rewrite <- (Nat.min_l i (S i)) by lia.
  rewrite <- !firstn_firstn, H. reflexivity.
Qed.

Lemma remove_players_out_keeps (balances : dict) (fuel : nat) :
  forall i l l',
    Game.remove_players_out fuel i balances l = Ok l' ->
    (forall x, In x l' -> In x l)
    /\ (forall x c, In x l -> dict_get balances (BasePlayer._id x) = Ok c ->
                    c <> 0 -> In x l')
    /\ (NoDup (map BasePlayer._id l) -> firstn i l' = firstn i l).
Proof.
  induction fuel as [|fuel IH]; intros i l l' H; cbn in H.
  - injection H as <-. auto.
  - destruct (nth_error l i) as [p|] eqn:N; [|injection H as <-; auto].
    monad_inv. destruct (Z.eqb_spec a 0) as [->|NZ].
    + monad_inv. destruct (list_remove_spec _ _ _ E0) as (pre & q & post & -> & -> & I & NP).
      destruct (IH _ _ _ H) as (Sub & Keep & Pre).
      split; [|split].
      * intros x X. apply Sub in X. apply in_app_or in X. apply in_or_app.
        destruct X; [left | right; right]; assumption.
      * intros x c X D C. apply Keep with c; [|assumption..].
        apply in_app_or in X. apply in_or_app.
        destruct X as [X|[X|X]]; [left; exact X | | right; exact X].
        subst x. rewrite I in D. congruence.
      * intros ND.
        (* the player removed sits at position [i] *)
        assert (List.length pre = i) as Li.
        { rewrite map_app in ND. cbn [map] in ND.
          destruct (Nat.lt_trichotomy i (List.length pre)) as [Lt|[Eq|Gt]];
            [|auto|].
          - rewrite nth_error_app1 in N by exact Lt.
            apply nth_error_In in N. rewrite Forall_forall in NP.
            exfalso. apply (NP p N). reflexivity.
          - exfalso. rewrite nth_error_app2 in N by lia.
            destruct (i - List.length pre)%nat as [|k] eqn:K; [lia|].
            cbn in N. apply nth_error_In in N.
            apply NoDup_remove_2 in ND. apply ND. apply in_or_app. right.
            rewrite I. apply in_map, N. }
        assert (NoDup (map BasePlayer._id (pre ++ post))) as ND1.
        { rewrite map_app in *. cbn [map] in ND. apply NoDup_remove_1 in ND. exact ND. }
        apply firstn_shorter in Pre; [|exact ND1]. rewrite Pre. subst i.
        rewrite (proj1 (firstn_skipn_at pre post)),
          (proj1 (firstn_skipn_at pre (q :: post))). reflexivity.
    + destruct (IH _ _ _ H) as (Sub & Keep & Pre).
      split; [exact Sub|]. split; [exact Keep|].
      intros ND. apply firstn_shorter, Pre, ND.
Qed.

(** The loop of [play_half] that drops the players without chips runs over
    the very list it removes from.  Whatever it returns, nobody is added
    and a player who holds chips is never dropped.  But when the players
    have distinct ids and the first player is out, the player after the
    first is passed over by the iteration and stays in the list whatever
    chips that player holds. *)
Theorem remove_players_out_spec (balances : dict) (l l' : list BasePlayer.t) :
  Game.remove_players_out (List.length l) 0 balances l = Ok l' ->
  (forall x, In x l' -> In x l)
  /\ (forall x c, In x l -> dict_get balances (BasePlayer._id x) = Ok c ->
                  c <> 0 -> In x l')
  /\ (forall a b rest,
        l = a :: b :: rest -> NoDup (map BasePlayer._id l) ->
        dict_get balances (BasePlayer._id a) = Ok 0 ->
        exists rest', l' = b :: rest' /\ ~ In a l').
Proof.
  intros H. destruct (remove_players_out_keeps _ _ _ _ _ H) as (Sub & Keep & _).
  split; [exact Sub|]. split; [exact Keep|].
  intros a b rest -> ND Za.
  assert (Game.same_player a a = true) as Sa by (apply pid_eqb_eq; reflexivity).
  assert (forall f, Game.remove_players_out (S f) 0 balances (a :: b :: rest)
                    = Game.remove_players_out f 1 balances (b :: rest)) as Step.
  { intros f. cbn [Game.remove_players_out nth_error]. rewrite Za.
    cbn [rbind Z.eqb Game.list_remove]. rewrite Sa. reflexivity. }
  cbn [List.length] in H. rewrite Step in H.
  destruct (remove_players_out_keeps _ _ _ _ _ H) as (Sub1 & _ & Pre).
  cbn [map] in ND. inversion ND as [|? ? NI ND1]; subst.
  specialize (Pre ND1). cbn [firstn] in Pre.
  destruct l' as [|b' rest']; [discriminate|]. cbn in Pre. injection Pre as ->.
  exists rest'. split; [reflexivity|].
  intros X. apply Sub1 in X. apply NI. change (In (BasePlayer._id a)
    (map BasePlayer._id (b :: rest))). apply in_map, X.
Qed.

Lemma remove_players_out_spec_witness :
  exists l',
    Game.remove_players_out 3 0 [(Some 0, 0); (Some 1, 0); (Some 2, 13)]
      (Game.players (game_of DummyPlayer ["A"; "B"; "C"])) = Ok l'
    /\ map BasePlayer.name l' = ["B"; "C"]
    /\ forall x, In x l' -> In x (Game.players (game_of DummyPlayer ["A"; "B"; "C"])).
Proof.
  pose (G := game_of DummyPlayer ["A"; "B"; "C"]).
  assert (exists l',
             Game.remove_players_out (List.length (Game.players G)) 0
               [(Some 0, 0); (Some 1, 0); (Some 2, 13)] (Game.players G) = Ok l'
             /\ map BasePlayer.name l' = ["B"; "C"])
    as (l' & E & N) by (eexists; by_evaluation).
  destruct (remove_players_out_spec _ _ _ E) as (Sub & _).
  exists l'. split; [exact E|]. split; [exact N | exact Sub].
Defined.

(** ** The loser of a half *)

Lemma find_loser_ok (items : dict) (lost_by r : option PlayerID) :
  Game.find_loser items lost_by = Ok r ->
  Forall (fun kv => 0 <= snd kv <= 13) items
  /\ ((r = lost_by /\ Forall (fun kv => snd kv <> 13) items) \/ In (r, 13) items).
Proof.
  revert lost_by. induction items as [|[k c] items IH]; intros lost_by H; cbn in H.
  - injection H as <-. split; [constructor | left; split; [reflexivity | constructor]].
  - destruct (Z.eqb_spec c 13) as [->|N13].
    + destruct (IH _ H) as (F & [(-> & A)|I]).
      * split; [constructor; [cbn; lia | exact F]|]. right. left. reflexivity.
      * split; [constructor; [cbn; lia | exact F]|]. right. right. exact I.
    + destruct (Z.gtb_spec c 13); [discriminate|].
      destruct (Z.ltb_spec c 0); [discriminate|]. cbn [orb] in H.
      destruct (IH _ H) as (F & [(-> & A)|I]).
      * split; [constructor; [cbn; lia | exact F]|]. left.
        split; [reflexivity | constructor; [exact N13 | exact A]].
      * split; [constructor; [cbn; lia | exact F]|]. right. right. exact I.
Qed.

Lemma thirteen_is_all (items : dict) (r : option PlayerID) :
  Forall (fun kv => 0 <= snd kv) items -> dict_sum items <= 13 ->
  In (r, 13) items ->
  forall k c, In (k, c) items -> c = 13 \/ c = 0.
Proof.
  intros NN S I k c K. revert S. induction items as [|[k' c'] items IH];
    [contradiction|].
  cbn [dict_sum fold_right snd]. fold (dict_sum items). intros S.
  inversion NN as [|? ? P NN']; subst. cbn in P.
  pose proof (proj1 (dict_nonneg_le_sum items NN')) as Pos.
  destruct (dict_nonneg_le_sum items NN') as (_ & Le).
  rewrite Forall_forall in Le.
  destruct I as [I|I], K as [K|K].
  - left. congruence.
  - right. injection I as _ ->. specialize (Le _ K). cbn in Le. lia.
  - right. injection K as _ ->. specialize (Le _ I). cbn in Le. lia.
  - apply IH; auto. lia.
Qed.

(** The search for the loser of a half among the chip balances.  When
    every balance lies between 0 and 13 the search returns: the loser found
    holds 13 chips, and when nobody holds 13 the loser is left as it was.
    When the balances are those of a half, adding up to at most 13 with
    none negative, the loser found is the only player holding chips.  A
    balance outside 0 to 13 is a ValueError. *)
Theorem find_loser_spec (items : dict) (lost_by : option PlayerID) :
  (Forall (fun kv => 0 <= snd kv <= 13) items ->
   exists r,
     Game.find_loser items lost_by = Ok r
     /\ ((r = lost_by /\ Forall (fun kv => snd kv <> 13) items) \/ In (r, 13) items)
     /\ (Exists (fun kv => snd kv = 13) items -> In (r, 13) items)
     /\ (dict_sum items <= 13 -> In (r, 13) items ->
         forall k c, In (k, c) items -> c = 13 \/ c = 0))
  /\ (Exists (fun kv => snd kv < 0 \/ 13 < snd kv) items ->
      exists msg, Game.find_loser items lost_by = Raise (ValueError msg)).
Proof.
  split.
  - intros F.
    assert (exists r, Game.find_loser items lost_by = Ok r) as (r & E).
    { revert lost_by. induction F as [|[k c] items B _ IH]; intros lost_by; cbn.
      - eexists; reflexivity.
      - cbn in B. destruct (c =? 13); [apply IH|].
        destruct (Z.gtb_spec c 13); [lia|]. destruct (Z.ltb_spec c 0); [lia|].
        apply IH. }
    exists r. split; [exact E|].
    destruct (find_loser_ok _ _ _ E) as (_ & C). split; [exact C|].
    split.
    + intros X. destruct C as [(_ & A)|I]; [|exact I].
      exfalso. apply Exists_exists in X. destruct X as (kv & I & V).
      rewrite Forall_forall in A. apply (A kv I V).
    + intros S I k c K.
      assert (Forall (fun kv => 0 <= snd kv) items) as NN
          by (eapply Forall_impl; [|exact F]; cbn; intros; lia).
      exact (thirteen_is_all items r NN S I k c K).
  - intros X. revert lost_by. induction items as [|[k c] items IH]; intros lost_by;
      [inversion X|].
    cbn. inversion X as [? ? B|? ? X']; subst.
    + cbn in B. destruct (Z.eqb_spec c 13); [lia|].
      destruct (Z.gtb_spec c 13), (Z.ltb_spec c 0); try (eexists; reflexivity); lia.
    + destruct (c =? 13); [apply IH, X'|].
      destruct (_ || _); [eexists; reflexivity | apply IH, X'].
Qed.

Lemma find_loser_spec_witness :
  Game.find_loser [(Some 0, 0); (Some 1, 13); (Some 2, 0)] None = Ok (Some 1)
  /\ exists msg, Game.find_loser [(Some 0, 14)] None = Raise (ValueError msg).
Proof.
  destruct (find_loser_spec [(Some 0, 0); (Some 1, 13); (Some 2, 0)] None)
    as (Run & _).
  destruct (find_loser_spec [(Some 0, 14)] None) as (_ & Bad).
  split.
  - destruct Run as (r & E & _ & Thirteen & _).
    { repeat constructor; cbn; lia. }
    rewrite E. f_equal.
    destruct Thirteen as [X|[X|[X|[]]]];
      [right; left; reflexivity | | |]; injection X; intros; try lia; congruence.
  - apply Bad. left. cbn. lia.
Defined.

Lemma half_loop_end (reg : bool) (n : nat) :
  forall g half i rng g' half' rng',
    Game.half_loop n reg g half i rng = Ok (g', half', rng') ->
    chip_inv half -> Half.lost_by half = None ->
    Z.of_nat (List.length (Half.mini_rounds half)) = i ->
    ended_by_schock_out half' \/ ended_by_chips half'
    \/ (Half.lost_by half' = None
        /\ Z.of_nat (List.length (Half.mini_rounds half')) = i + Z.of_nat n).
Proof.
  induction n as [|n IH]; intros g half i rng g' half' rng' H I L Len.
  - cbn in H. monad_inv. right. right. split; [exact L | lia].
  - cbn [Game.half_loop] in H. rewrite L in H. monad_inv.
    rename b into stop, t0 into g1, t into half1.
    pose proof (half_pass_chip_inv _ _ _ _ _ _ _ _ _ E I) as I1.
    apply half_pass_inv in E.
    destruct E as (hr & mr0 & best & hand & ty & _ & _ & Hb & Hh & Ht & Hs & _
                   & Hstop & Hgo).
    destruct stop.
    + monad_inv. left. destruct (Hstop eq_refl) as (_ & _ & Lb & M & _).
      exists (Half.mini_rounds half), mr0, best, hand, ty. auto 10.
    + destruct (Hgo eq_refl) as (? & ? & ? & mr3 & _ & _ & _ & _ & _ & M & _ & _ & _
                                 & _ & Fl).
      rewrite L in Fl.
      assert (Z.of_nat (List.length (Half.mini_rounds half1)) = i + 1) as Len1
          by (rewrite M, length_app; cbn; lia).
      destruct (Half.lost_by half1) as [k|] eqn:L1.
      * (* a loser was found: the loop is left *)
        assert ((g', half', rng') = (g1, half1, r)) as X.
        { destruct n; cbn [Game.half_loop] in H; [|rewrite L1 in H];
            apply ret_ok in H; exact H. }
        injection X as -> -> ->. right. left.
        destruct (find_loser_ok _ _ _ Fl) as (Rg & [(C & _)|In13]); [discriminate|].
        destruct I1 as (Sum & NN & Gone & Left).
        destruct (dict_nonneg_le_sum _ NN) as (_ & Le).
        rewrite Forall_forall in Le. pose proof (Le _ In13) as B13. cbn in B13.
        assert (Half.stock half1 = 0) as St.
        { destruct (Half.stock_chips_gone half1); [apply Gone; reflexivity|].
          specialize (Left eq_refl). lia. }
        unfold ended_by_chips. rewrite L1.
        split; [discriminate|]. split; [exact In13|]. split; [exact St|].
        intros k' c' K.
        apply (thirteen_is_all _ _ NN ltac:(lia) In13 k' c' K).
      * specialize (IH _ _ _ _ _ _ _ H I1 L1 Len1).
        destruct IH as [A|[B|(C & D)]]; auto. right. right. split; [exact C | lia].
Qed.

(** How a half ends.  When [play_half] returns, one to a thousand
    mini-rounds were played, and one of three things holds: the last
    mini-round was won with a Schock-out and its loser lost the half; or
    the loser of the half holds all thirteen chips, the stock being empty
    and every other balance zero; or a thousand mini-rounds went by and the
    half has no loser. *)
Theorem half_ends (g g' : Game.t) (hi : Z) (arg : option (list BasePlayer.t))
    (half' : Half.t) (rng rng' : Rng) :
  Game.play_half g hi arg rng = Ok (g', half', rng') ->
  (1 <= List.length (Half.mini_rounds half') <= 1000)%nat
  /\ (ended_by_schock_out half' \/ ended_by_chips half'
      \/ (Half.lost_by half' = None
          /\ List.length (Half.mini_rounds half') = 1000%nat)).
Proof.
  intros H. destruct (play_half_ok _ _ _ _ _ _ _ H) as (_ & _ & _ & half0 & St & _ & Loop).
  destruct (start_half_inv _ _ _ _ St) as (I & L & M & _).
  assert (forall n g half i rng g' half' rng',
             Game.half_loop n (negb (hi =? 2)) g half i rng = Ok (g', half', rng') ->
             (List.length (Half.mini_rounds half')
              <= List.length (Half.mini_rounds half) + n)%nat) as Most.
  { induction n as [|n IH]; intros g1 h1 i r1 g2 h2 r2 X.
    - cbn in X. monad_inv. lia.
    - cbn [Game.half_loop] in X. destruct (Half.lost_by h1); [monad_inv; lia|].
      monad_inv. rename b into stop.
      assert (exists mr, Half.mini_rounds t = Half.mini_rounds h1 ++ [mr])
        as (mr & Hm).
      { apply half_pass_inv in E.
        destruct E as (? & mr0 & ? & ? & ? & _ & _ & _ & _ & _ & _ & _ & Hstop & Hgo).
        destruct stop.
        - destruct (Hstop eq_refl) as (_ & _ & _ & X' & _). eauto.
        - destruct (Hgo eq_refl) as (? & ? & ? & mr3 & _ & _ & _ & _ & _ & X' & _).
          eauto. }
      destruct stop; [monad_inv; rewrite Hm, length_app; cbn; lia|].
      apply IH in X. rewrite Hm, length_app in X. cbn in X. lia. }
  assert (forall n g half i rng g' half' rng',
             Game.half_loop (S n) (negb (hi =? 2)) g half i rng = Ok (g', half', rng') ->
             Half.lost_by half = None ->
             (1 <= List.length (Half.mini_rounds half'))%nat) as Least.
  { intros n g1 h1 i r1 g2 h2 r2 X L1.
    cbn [Game.half_loop] in X. rewrite L1 in X. monad_inv.
    rename b into stop.
    assert (exists mr, Half.mini_rounds t = Half.mini_rounds h1 ++ [mr])
      as (mr & Hm).
    { apply half_pass_inv in E.
      destruct E as (? & mr0 & ? & ? & ? & _ & _ & _ & _ & _ & _ & _ & Hstop & Hgo).
      destruct stop.
      - destruct (Hstop eq_refl) as (_ & _ & _ & X' & _). eauto.
      - destruct (Hgo eq_refl) as (? & ? & ? & mr3 & _ & _ & _ & _ & _ & X' & _).
        eauto. }
    destruct stop; [monad_inv; rewrite Hm, length_app; cbn; lia|].
    apply half_loop_ok in X. destruct X as (_ & _ & _ & more & X).
    rewrite X, Hm, !length_app. cbn. lia. }
  split.
  - split; [exact (Least 999%nat _ _ _ _ _ _ _ Loop L)|].
    apply Most in Loop. rewrite M in Loop. cbn [List.length] in Loop. lia.
  - destruct (half_loop_end _ _ _ _ _ _ _ _ _ Loop I L) as [A|[B|(C & D)]];
      [rewrite M; reflexivity | auto..|].
    right. right. split; [exact C | lia].
Qed.

Lemma half_ends_witness :
  exists g' half' rng',
    Game.play_half (game_of DummyPlayer ["A"; "B"]) 0 None
      (tape_of [6; 6; 6; 1; 1; 1] 1) = Ok (g', half', rng')
    /\ List.length (Half.mini_rounds half') = 1%nat
    /\ ended_by_schock_out half'.
Proof.
  assert (exists g' half' rng',
             Game.play_half (game_of DummyPlayer ["A"; "B"]) 0 None
               (tape_of [6; 6; 6; 1; 1; 1] 1) = Ok (g', half', rng')
             /\ List.length (Half.mini_rounds half') = 1%nat
             /\ Half.stock half' = 13)
    as (g' & half' & rng' & E & L & S) by (do 3 eexists; by_evaluation).
  destruct (half_ends _ _ _ _ _ _ _ E) as (_ & [A|[B|(_ & C)]]).
  - exists g', half', rng'. auto.
  - exfalso. destruct B as (_ & _ & Z0 & _). lia.
  - exfalso. lia.
Defined.

(** ** The start of a half *)

Lemma dict_set_keys (d : dict) (k : option PlayerID) (v : Z) (k' : option PlayerID) :
  In k' (map fst (dict_set d k v)) <-> In k' (map fst d) \/ k' = k.
Proof.
  induction d as [|[x c] d IH]; cbn.
  - intuition congruence.
  - destruct (pid_eqb x k) eqn:E; cbn.
    + apply pid_eqb_eq in E. subst x. intuition congruence.
    + rewrite IH. tauto.
Qed.

Lemma zero_get (d : dict) (k : option PlayerID) :
  Forall (fun kv => snd kv = 0) d -> In k (map fst d) -> dict_get d k = Ok 0.
Proof.
  induction 1 as [|[x c] d Z0 _ IH]; cbn; [tauto|].
  cbn in Z0. subst c. destruct (pid_eqb x k) eqn:E; [reflexivity|].
  intros [X|X]; [|apply IH, X]. subst x.
  assert (pid_eqb k k = true) by (apply pid_eqb_eq; reflexivity). congruence.
Qed.

Lemma zero_fold (l : list BasePlayer.t) (d : dict) :
  Forall (fun kv => snd kv = 0) d ->
  Forall (fun kv => snd kv = 0)
    (fold_left (fun d p => dict_set d (BasePlayer._id p) 0) l d)
  /\ forall k,
      In k (map fst (fold_left (fun d p => dict_set d (BasePlayer._id p) 0) l d))
      <-> In k (map fst d) \/ In k (map BasePlayer._id l).
Proof.
  revert d. induction l as [|p l IH]; intros d Z0; cbn [fold_left map].
  - split; [exact Z0|]. intros k. cbn. tauto.
  - destruct (IH (dict_set d (BasePlayer._id p) 0) (dict_set_zero _ _ Z0)) as (A & B).
    split; [exact A|]. intros k. rewrite B, dict_set_keys. cbn. intuition congruence.
Qed.

(** How [play_half] sets a half up.  A regular half (index other than 2)
    called with a list of players is refused with a Warning, a tie-break
    half (index 2) called without players with a ValueError.  Otherwise the
    half starts with the index asked for, the given players (all the
    players of the game in a regular half), no mini-round, no loser, a full
    stock of thirteen chips, and a balance of zero for exactly the players
    taking part. *)
Theorem start_half_spec (g : Game.t) (hi : Z) (arg : option (list BasePlayer.t)) :
  (hi <> 2 -> forall p ps, arg = Some (p :: ps) ->
   Game.start_half g hi arg
   = Raise (Warning "Regular half (no final) is played with specific players, potentially not all."))
  /\ (hi = 2 -> arg = None \/ arg = Some [] ->
      Game.start_half g hi arg
      = Raise (ValueError "Please either choose halves index of 0 or 1 OR provide a list of players for the final half."))
  /\ (forall half,
        Game.start_half g hi arg = Ok half ->
        Half.halves_index half = hi
        /\ ((hi <> 2 /\ Half.active_players half = Game.players g)
            \/ (hi = 2 /\ arg = Some (Half.active_players half)
                /\ Half.active_players half <> []))
        /\ Half.mini_rounds half = [] /\ Half.lost_by half = None
        /\ Half.stock half = 13 /\ Half.stock_chips_gone half = false
        /\ Forall (fun kv => snd kv = 0) (Half.balances half)
        /\ (forall k, In k (map fst (Half.balances half))
                      <-> In k (map BasePlayer._id (Half.active_players half)))
        /\ (forall p, In p (Half.active_players half) ->
                      dict_get (Half.balances half) (BasePlayer._id p) = Ok 0)).
Proof.
  unfold Game.start_half. split; [|split].
  - intros N p ps ->. destruct (Z.eqb_spec hi 2); [contradiction|]. reflexivity.
  - intros E2 [A|A]; subst hi arg; reflexivity.
  - intros half H.
    assert (forall h0 : Half.t,
               Half.mini_rounds h0 = [] -> Half.lost_by h0 = None ->
               Half.stock h0 = 13 -> Half.stock_chips_gone h0 = false ->
               Half.halves_index h0 = hi ->
               half = Half.set_chip_balances h0
                        (fold_left (fun d p => dict_set d (BasePlayer._id p) 0)
                           (Half.active_players h0) []) ->
               Half.halves_index half = hi
               /\ Half.active_players half = Half.active_players h0
               /\ Half.mini_rounds half = [] /\ Half.lost_by half = None
               /\ Half.stock half = 13 /\ Half.stock_chips_gone half = false
               /\ Forall (fun kv => snd kv = 0) (Half.balances half)
               /\ (forall k, In k (map fst (Half.balances half))
                             <-> In k (map BasePlayer._id (Half.active_players half)))
               /\ (forall p, In p (Half.active_players half) ->
                             dict_get (Half.balances half) (BasePlayer._id p) = Ok 0))
      as Built.
    { intros h0 M L S G I ->.
      destruct (zero_fold (Half.active_players h0) [] (Forall_nil _)) as (Z0 & K).
      destruct h0 as [i a m l s c]. unfold Half.stock, Half.balances in *.
      cbn in *. repeat (split; [first [assumption | reflexivity]|]).
      split; [intros k; rewrite K; tauto|].
      intros p Ip. apply zero_get; [exact Z0|]. apply K. right. apply in_map, Ip. }
    destruct arg as [[|p ps]|]; destruct (Z.eqb_spec hi 2) as [E2|N2];
      cbn [negb] in H; try discriminate; cbn [rbind] in H; injection H as H;
      symmetry in H; apply Built in H; try reflexivity;
      destruct H as (A & B & C); cbn in B;
      (split; [exact A|]); (split; [|exact C]); rewrite B.
    + left. auto.
    + right. split; [exact E2|]. split; [reflexivity | discriminate].
    + left. auto.
Qed.

Lemma start_half_spec_witness :
  exists half,
    Game.start_half (game_of DummyPlayer ["A"; "B"]) 0 None = Ok half
    /\ Half.balances half = [(Some 0, 0); (Some 1, 0)]
    /\ Half.stock half = 13
    /\ Game.start_half (game_of DummyPlayer ["A"; "B"]) 2 None
       = Raise (ValueError "Please either choose halves index of 0 or 1 OR provide a list of players for the final half.").
Proof.
  pose (G := game_of DummyPlayer ["A"; "B"]).
  assert (exists half, Game.start_half G 0 None = Ok half
                       /\ Half.balances half = [(Some 0, 0); (Some 1, 0)])
    as (half & E & B) by (eexists; by_evaluation).
  destruct (start_half_spec G 0 None) as (_ & _ & Built).
  destruct (start_half_spec G 2 None) as (_ & Refused & _).
  destruct (Built half E) as (_ & _ & _ & _ & S & _).
  exists half. split; [exact E|]. split; [exact B|]. split; [exact S|].
  apply Refused; auto.
Defined.

(** ** The throws of a mini-round *)

Lemma insert_sorted_perm {A} (lt : A -> A -> result bool) (x : A) (acc r : list A) :
  insert_sorted lt x acc = Ok r -> Permutation r (x :: acc).
Proof.
  revert r. induction acc as [|y acc IH]; intros r H; cbn in H.
  - injection H as <-. reflexivity.
  - monad_inv. destruct a; monad_inv; [reflexivity|].
    rewrite (IH _ E0). apply perm_swap.
Qed.

Lemma sort_into_perm {A} (lt : A -> A -> result bool) (l acc r : list A) :
  sort_into lt acc l = Ok r -> Permutation r (acc ++ l).
Proof.
  revert acc r. induction l as [|x l IH]; intros acc r H; cbn in H.
  - injection H as <-. rewrite app_nil_r. reflexivity.
  - monad_inv. rewrite (IH _ _ H), (insert_sorted_perm _ _ _ _ E).
    cbn [app]. apply Permutation_middle.
Qed.

Lemma play_turns_bounded (ps : list BasePlayer.t) :
  forall i m ps' turns rng rng',
    0 < i ->
    Game.play_turns ps i m rng = Ok (ps', turns, rng') ->
    Forall (fun t => 1 <= Turn.num_throws t <= Z.max 1 m) turns.
Proof.
  induction ps as [|p ps IH]; intros i m ps' turns rng rng' P H;
    cbn [Game.play_turns] in H; monad_inv; [constructor|].
  destruct (Z.eqb_spec i 0); [lia|].
  apply play_turn_ok in E. destruct E as (_ & _ & _ & B & _).
  constructor.
  - unfold Turn.set_players_turn_ind. cbn. exact B.
  - apply (IH (i + 1) m _ _ _ _ ltac:(lia) E0).
Qed.

(** The throws of a mini-round are limited by the player who starts, when
    the decision methods of the players work on the snapshot of the hand
    they are given and leave the player objects and the game alone (as the
    methods of the repository do; a method that assigns [throw_count] is
    outside this statement).  In every mini-round [play_mini_round] then
    returns, the turn of the first player of the list is among the turns,
    marked with turn index 0, with between one and three throws; and no
    player threw more often than the first player did. *)
Theorem mini_round_throws (g : Game.t) (ps : list BasePlayer.t) (idx : Z)
    (rng rng' : Rng) (mr : MiniRound.t) :
  Game.play_mini_round g ps idx rng = Ok (mr, rng') ->
  exists p0 first h,
    hd_error (match ps with [] => Game.players g | _ => ps end) = Some p0
    /\ In first (MiniRound.turns mr)
    /\ Turn.player_id first = BasePlayer._id p0
    /\ Turn.final_hand first = Some h /\ Hand.players_turn_ind h = 0
    /\ 1 <= Turn.num_throws first <= 3
    /\ Forall (fun t => 1 <= Turn.num_throws t <= Turn.num_throws first)
         (MiniRound.turns mr).
Proof.
  unfold Game.play_mini_round.
  set (players := match ps with [] => Game.players g | _ => ps end).
  destruct (((List.length players <? 2)%nat || (50 <? List.length players)%nat))
    eqn:C; [discriminate|].
  apply orb_false_iff in C. destruct C as [C1 _]. apply Nat.ltb_ge in C1.
  intros H. monad_inv.
  rename l0 into turns0, a into turns.
  cbn [MiniRound.turns].
  apply sort_into_perm in E0. cbn [app] in E0.
  destruct players as [|p0 rest]; [cbn in C1; lia|].
  cbn [Game.play_turns] in E. monad_inv.
  match goal with
  | Hp : BasePlayer.play_turn _ _ _ _ = Ok (_, ?t, _) |- _ =>
      rename Hp into Ep; rename t into tf
  end.
  match goal with
  | Hr : Game.play_turns rest _ _ _ = Ok (_, ?l, _) |- _ =>
      rename Hr into Er; rename l into rest_turns
  end.
  cbn [Z.eqb] in Er.
  pose proof (play_turn_ok _ _ _ _ _ _ _ Ep) as (_ & _ & Pid & B & h & ty & Fh & _).
  apply play_turns_bounded in Er; [|lia].
  set (first := Turn.set_players_turn_ind tf 0) in *.
  assert (Turn.num_throws first = Turn.num_throws tf) as Nf by reflexivity.
  exists p0, first, (Hand.set_players_turn_ind h 0).
  split; [reflexivity|].
  split; [apply (Permutation_in _ (Permutation_sym E0)); left; reflexivity|].
  split; [exact Pid|].
  split; [subst first; unfold Turn.set_players_turn_ind; rewrite Fh; reflexivity|].
  split; [reflexivity|]. rewrite !Nf. split; [lia|].
  eapply Permutation_Forall; [symmetry; exact E0|].
  constructor; [rewrite Nf; lia|].
  eapply Forall_impl; [|exact Er]. cbn beta. intros x Bx. lia.
Qed.

Lemma mini_round_throws_witness :
  exists mr rng' first,
    Game.play_mini_round (game_of BasePlayer.Player ["A"; "B"]) [] 0
      (tape_of [] 3) = Ok (mr, rng')
    /\ In first (MiniRound.turns mr)
    /\ Turn.player_id first = Some 0
    /\ Forall (fun t => 1 <= Turn.num_throws t <= Turn.num_throws first)
         (MiniRound.turns mr).
Proof.
  pose (G := game_of BasePlayer.Player ["A"; "B"]).
  assert (exists mr rng' p0,
             Game.play_mini_round G [] 0 (tape_of [] 3) = Ok (mr, rng')
             /\ hd_error (Game.players G) = Some p0
             /\ BasePlayer._id p0 = Some 0)
    as (mr & rng' & p0 & E & Hd & I0) by (do 3 eexists; by_evaluation).
  destruct (mini_round_throws _ _ _ _ _ _ E) as (p & first & h & Hd' & I & Pid & _ & _ & _ & A).
  cbn [hd_error] in Hd'. fold G in Hd'. rewrite Hd in Hd'. injection Hd' as <-.
  exists mr, rng', first. repeat (split; [first [assumption | congruence]|]).
  exact A.
Defined.

(** ** Several rounds *)

Lemma play_round_ok (g g' : Game.t) (idx : Z) (rng rng' : Rng) (r : Round.t) :
  Game.play_round g idx rng = Ok (g', r, rng') ->
  Round.round_index r = idx
  /\ Game.rounds g' = Game.rounds g ++ [r]
  /\ map BasePlayer._id (Game.players g') = map BasePlayer._id (Game.players g)
  /\ (2 <= List.length (Round.halves r) <= 3)%nat
  /\ exists h, hd_error (rev (Round.halves r)) = Some h
               /\ Round.lost_by r = Half.lost_by h.
Proof.
  unfold Game.play_round. intros H. monad_inv.
  match goal with
  | H0 : Game.play_half g 0 None rng = Ok (?g1, ?h0, ?r1),
    H1 : Game.play_half ?g1 1 None ?r1 = Ok (?g2, ?h1, ?r2) |- _ =>
      destruct (play_half_ok _ _ _ _ _ _ _ H0) as (_ & P0 & R0 & _);
      destruct (play_half_ok _ _ _ _ _ _ _ H1) as (_ & P1 & R1 & _);
      rename h0 into half0, h1 into half1
  end.
  cbn [Game.len_set_pid existsb] in H. rewrite orb_false_r in H.
  destruct (pid_eqb (Half.lost_by half0) (Half.lost_by half1)) eqn:EQ.
  - apply pid_eqb_eq in EQ. cbn in H. monad_inv. cbn.
    repeat split; try congruence; try lia.
    exists half1. split; [reflexivity | congruence].
  - cbn in H. monad_inv.
    match goal with
    | H2 : Game.play_half _ 2 _ _ = Ok (_, ?h2, _) |- _ =>
        destruct (play_half_ok _ _ _ _ _ _ _ H2) as (_ & P2 & R2 & _);
        rename h2 into half2
    end.
    cbn. repeat split; try congruence; try lia.
    exists half2. split; reflexivity.
Qed.

Lemma play_rounds_from_ok (n : nat) :
  forall i g g' rounds rng rng',
    Game.play_rounds_from n i g rng = Ok (g', rounds, rng') ->
    map Round.round_index rounds = map (fun k => i + Z.of_nat k) (seq 0 n)
    /\ Game.rounds g' = Game.rounds g ++ rounds
    /\ map BasePlayer._id (Game.players g') = map BasePlayer._id (Game.players g)
    /\ Forall (fun r => (2 <= List.length (Round.halves r) <= 3)%nat
                        /\ exists h, hd_error (rev (Round.halves r)) = Some h
                                     /\ Round.lost_by r = Half.lost_by h) rounds.
Proof.
  induction n as [|n IH]; intros i g g' rounds rng rng' H;
    cbn [Game.play_rounds_from] in H; monad_inv.
  - cbn. rewrite app_nil_r. auto.
  - match goal with
    | H1 : Game.play_round _ _ _ = Ok _, H2 : Game.play_rounds_from _ _ _ _ = Ok _ |- _ =>
        apply play_round_ok in H1; destruct H1 as (I1 & R1 & P1 & L1);
        apply IH in H2; destruct H2 as (I2 & R2 & P2 & L2)
    end.
    split.
    { cbn [map seq]. rewrite I1, I2, <- seq_shift, map_map. f_equal; [lia|].
      apply map_ext. intros k. lia. }
    split; [rewrite R2, R1, <- app_assoc; reflexivity|].
    split; [congruence|]. constructor; assumption.
Qed.

(** [play_rounds] plays the rounds one after the other.  Whenever it
    returns, it returns as many rounds as were asked for (none for a number
    below 1), numbered 0, 1, 2, ... in order, and has appended exactly these
    rounds to the rounds of the game; the players of the game and their
    order are unchanged.  Every round has two or three halves, and the
    loser of the round is the loser of its last half. *)
Theorem play_rounds_spec (g g' : Game.t) (num_rounds : Z) (rounds : list Round.t)
    (rng rng' : Rng) :
  Game.play_rounds g num_rounds rng = Ok (g', rounds, rng') ->
  List.length rounds = Z.to_nat num_rounds
  /\ map Round.round_index rounds = map Z.of_nat (seq 0 (Z.to_nat num_rounds))
  /\ Game.rounds g' = Game.rounds g ++ rounds
  /\ map BasePlayer._id (Game.players g') = map BasePlayer._id (Game.players g)
  /\ Forall (fun r => (2 <= List.length (Round.halves r) <= 3)%nat
                      /\ exists h, hd_error (rev (Round.halves r)) = Some h
                                   /\ Round.lost_by r = Half.lost_by h) rounds
  /\ (num_rounds <= 0 -> rounds = [] /\ g' = g /\ rng' = rng).
Proof.
  unfold Game.play_rounds. intros H.
  pose proof (play_rounds_from_ok _ _ _ _ _ _ _ H) as (I & R & P & L).
  split.
  { apply (f_equal (@List.length _)) in I. rewrite !length_map, length_seq in I.
    exact I. }
  split; [rewrite I; apply map_ext; intros; lia|].
  repeat (split; [assumption|]).
  intros N. replace (Z.to_nat num_rounds) with 0%nat in H by lia.
  cbn in H. apply ret_ok in H. injection H as <- <- <-. auto.
Qed.

Lemma play_rounds_spec_witness :
  exists g' rounds rng',
    Game.play_rounds (game_of DummyPlayer ["A"; "B"]) 2 (tape_of [] 1)
      = Ok (g', rounds, rng')
    /\ map Round.round_index rounds = [0; 1]
    /\ Game.rounds g' = rounds.
Proof.
  pose (G := game_of DummyPlayer ["A"; "B"]).
  assert (exists g' rounds rng',
             Game.play_rounds G 2 (tape_of [] 1) = Ok (g', rounds, rng')
             /\ Game.rounds G = [])
    as (g' & rounds & rng' & E & R0) by (do 3 eexists; by_evaluation).
  destruct (play_rounds_spec _ _ _ _ _ _ E) as (_ & I & R & _).
  exists g', rounds, rng'. split; [exact E|]. split; [exact I|].
  rewrite R, R0. reflexivity.
Defined.

(** ** A mini-round among the players of custom_player.py *)





(** ** A half that fails *)

Lemma pid_index_not_in (l : list (option PlayerID)) (k : option PlayerID) :
  ~ In k l -> Game.pid_index l k = None.
Proof.
  intros NI. destruct (Game.pid_index l k) as [n|] eqn:E; [|reflexivity].
  destruct (pid_index_some _ _ _ E) as (pre & post & -> & _).
  exfalso. apply NI. apply in_or_app. right. left. reflexivity.
Qed.

(** [play_half] does not always return.  In a regular half every pass of
    the loop lets the loser of the last mini-round start; when that player
    is no longer among the active players, the pass raises the ValueError
    of [_change_starting_player].  This happens in play: after the stock is
    exhausted the loop that drops the players without chips can drop the
    loser of the mini-round just played, who received no chips because the
    winner, passed over earlier by that loop, had none to give.  Six
    players of custom_player.py meet this on rolls that are all faces. *)
Theorem half_fails_on_removed_loser :
  (forall g half i rng mr,
      Game.last_mr g = Some mr ->
      ~ In (MiniRound.lost_by mr)
           (map BasePlayer._id
              (filter (fun p => Game.player_in p (Half.active_players half))
                 (Game.players g))) ->
      Game.half_pass true g half i rng
      = Raise (ValueError "Player who should start is not playing..."))
  /\ exists rolls,
      Forall (fun v => 1 <= v <= 6) rolls
      /\ Game.play_half (game_of BasePlayer.Player ["A"; "B"; "C"; "D"; "E"; "F"])
           0 None (tape_of rolls 1)
         = Raise (ValueError "Player who should start is not playing...").
Proof.
  split.
  - intros g half i rng mr L NI.
    unfold Game.half_pass, Game.reorder_players, Game._change_starting_player.
    rewrite L, (pid_index_not_in _ _ NI). reflexivity.
  - exists [6; 1; 6; 4; 5; 1; 1; 6; 6; 2; 4; 2; 3; 3; 4; 1; 6; 2; 5; 4; 4; 1; 5; 1;
            5; 2; 6; 3; 1; 2; 5; 2; 4; 6; 5; 6; 5; 6; 5; 4; 3; 6; 5; 5; 2; 3; 4; 6;
            3; 3; 5; 6; 4; 4; 4; 6; 6; 2; 6; 6; 3; 2; 1; 5; 2; 4; 2; 6; 1; 4; 3; 6;
            6; 6; 1; 2; 6; 2; 3; 3; 5; 3; 4; 4; 3; 2; 2; 1; 6; 2; 1; 4; 4; 2; 3; 2;
            2; 3; 1; 1; 2; 6; 1; 4; 1; 3; 2; 5; 5; 2; 5; 4; 3; 5; 5; 2; 6; 2; 4; 4;
            4; 4; 6; 2; 2; 6; 6; 6; 3; 6; 1; 6; 5; 2; 5; 4; 4; 5; 2; 4; 6; 3; 6; 3;
            5; 3; 5; 1; 6; 6; 1].
    split.
    + repeat (constructor; [lia|]). constructor.
    + vm_compute. reflexivity.
Qed.

(** * The score register *)

Lemma dict_set_same_keys (d : dict) (k : option PlayerID) (v v' : Z) :
  dict_get d k = Ok v -> map fst (dict_set d k v') = map fst d.
Proof.
  induction d as [|[x c] d IH]; cbn; [discriminate|].
  destruct (pid_eqb x k); cbn; [reflexivity|]. intros H. rewrite (IH H). reflexivity.
Qed.

Lemma incr_ok (d d' : dict) (k : option PlayerID) :
  Scores.incr d k = Ok d' ->
  dict_sum d' = dict_sum d + 1 /\ map fst d' = map fst d.
Proof.
  unfold Scores.incr. intros H. monad_inv.
  split; [rewrite (dict_set_sum _ _ _ _ E); lia|].
  apply (dict_set_same_keys _ _ _ _ E).
Qed.

(** The number of hand names listed for all players. *)
Lemma names_set (d : list (option PlayerID * list string)) (k : option PlayerID)
    (l : list string) (nm : string) :
  assoc_get pid_eqb d k = Ok l ->
  fold_right (fun kv s => Z.of_nat (List.length (snd kv)) + s) 0
    (assoc_set pid_eqb d k (l ++ [nm]))
  = fold_right (fun kv s => Z.of_nat (List.length (snd kv)) + s) 0 d + 1
  /\ map fst (assoc_set pid_eqb d k (l ++ [nm])) = map fst d.
Proof.
  induction d as [|[x c] d IH]; cbn; [discriminate|].
  destruct (pid_eqb x k); cbn.
  - intros H. injection H as ->. rewrite length_app. cbn. split; [lia | reflexivity].
  - intros H. destruct (IH H) as (A & B). rewrite A, B. split; [lia | reflexivity].
Qed.

Lemma rfoldM_inv {A S : Type} (f : S -> A -> result S) (m : S -> Z) (w : A -> Z)
    (P : S -> S -> Prop) :
  (forall s, P s s) ->
  (forall s1 s2 s3, P s1 s2 -> P s2 s3 -> P s1 s3) ->
  (forall s a s', f s a = Ok s' -> m s' = m s + w a /\ P s s') ->
  forall l s s',
    rfoldM f l s = Ok s' ->
    m s' = m s + fold_right (fun a t => w a + t) 0 l /\ P s s'.
Proof.
  intros Refl Trans Step. induction l as [|a l IH]; intros s s' H; cbn in H.
  - injection H as <-. cbn. split; [lia | apply Refl].
  - monad_inv. destruct (Step _ _ _ E) as (M1 & P1).
    destruct (IH _ _ H) as (M2 & P2). cbn. split; [lia | eauto].
Qed.

Lemma sum_lengths {A B} (f : A -> list B) (l : list A) :
  fold_right (fun a t => Z.of_nat (List.length (f a)) + t) 0 l
  = Z.of_nat (List.length (flat_map f l)).
Proof.
  induction l as [|a l IH]; cbn; [reflexivity|]. rewrite length_app, IH. lia.
Qed.

Lemma sum_ones {A} (l : list A) :
  fold_right (fun (_ : A) t => 1 + t) 0 l = Z.of_nat (List.length l).
Proof. induction l as [|a l IH]; cbn [fold_right List.length]; [reflexivity|]. lia. Qed.

Lemma incr_nonneg (d d' : dict) (k : option PlayerID) :
  Scores.incr d k = Ok d' ->
  Forall (fun kv => 0 <= snd kv) d -> Forall (fun kv => 0 <= snd kv) d'.
Proof.
  unfold Scores.incr. intros H NN. monad_inv.
  apply dict_set_nonneg; [exact NN|].
  pose proof (dict_get_nonneg _ _ _ NN E). lia.
Qed.

Lemma counted_refl (c : Scores.counting) : counted c c 0 0 0 0.
Proof. constructor; try lia; auto. Qed.

Lemma counted_trans (c1 c2 c3 : Scores.counting) (r h m t r' h' m' t' : Z) :
  counted c1 c2 r h m t -> counted c2 c3 r' h' m' t' ->
  counted c1 c3 (r + r') (h + h') (m + m') (t + t').
Proof.
  intros [A1 A2 A3 A4 (K1 & K2 & K3 & K4) N] [B1 B2 B3 B4 (L1 & L2 & L3 & L4) N'].
  constructor; try lia; [|auto].
  repeat split; congruence.
Qed.

Lemma rfoldM_counted {A} (f : Scores.counting -> A -> result Scores.counting)
    (r h m t : A -> Z) :
  (forall c a c', f c a = Ok c' -> counted c c' (r a) (h a) (m a) (t a)) ->
  forall l c c',
    rfoldM f l c = Ok c' ->
    counted c c'
      (fold_right (fun a s => r a + s) 0 l) (fold_right (fun a s => h a + s) 0 l)
      (fold_right (fun a s => m a + s) 0 l) (fold_right (fun a s => t a + s) 0 l).
Proof.
  intros Step. induction l as [|a l IH]; intros c c' H; cbn in H.
  - injection H as <-. apply counted_refl.
  - monad_inv. cbn [fold_right].
    eapply counted_trans; [apply Step; eassumption | apply IH; assumption].
Qed.

Lemma sum_zeros {A} (l : list A) : fold_right (fun (_ : A) s => 0 + s) 0 l = 0.
Proof. induction l; cbn [fold_right]; lia. Qed.

Lemma count_turn_ok (c c' : Scores.counting) (t : Turn.t) :
  Scores.count_turn c t = Ok c' -> counted c c' 0 0 0 1.
Proof.
  unfold Scores.count_turn. intros H. monad_inv.
  destruct (names_set _ _ _ a1 E) as (S & K).
  constructor;
    cbn [Scores.all_rounds_lost Scores.all_halves_lost Scores.all_minirounds_lost
         Scores.all_players_hands];
    try lia; auto.
Qed.

Lemma counted_eq (c c' : Scores.counting) (r h m t r' h' m' t' : Z) :
  counted c c' r h m t -> r = r' -> h = h' -> m = m' -> t = t' ->
  counted c c' r' h' m' t'.
Proof. intros X -> -> -> ->. exact X. Qed.

Ltac counted_step :=
  constructor;
  cbn [Scores.all_rounds_lost Scores.all_halves_lost Scores.all_minirounds_lost
       Scores.all_players_hands];
  try lia; auto.

Lemma count_mini_round_ok (c c' : Scores.counting) (mr : MiniRound.t) :
  Scores.count_mini_round c mr = Ok c' ->
  counted c c' 0 0 1 (Z.of_nat (List.length (MiniRound.turns mr))).
Proof.
  unfold Scores.count_mini_round. intros H. monad_inv.
  destruct (incr_ok _ _ _ E) as (S & K).
  pose proof (rfoldM_counted Scores.count_turn (fun _ => 0) (fun _ => 0)
                (fun _ => 0) (fun _ => 1)
                (fun c a c' => count_turn_ok c c' a) _ _ _ H) as X.
  rewrite !sum_zeros, sum_ones in X.
  eapply counted_eq; [eapply (counted_trans _ _ _ 0 0 1 0); [|exact X]|lia..].
  counted_step.
  intros (N1 & N2 & N3). repeat split; auto. apply (incr_nonneg _ _ _ E N3).
Qed.

Lemma count_half_ok (c c' : Scores.counting) (h : Half.t) :
  Scores.count_half c h = Ok c' ->
  counted c c' 0 1 (Z.of_nat (List.length (Half.mini_rounds h)))
    (Z.of_nat (List.length (flat_map MiniRound.turns (Half.mini_rounds h)))).
Proof.
  unfold Scores.count_half. intros H. monad_inv.
  destruct (incr_ok _ _ _ E) as (S & K).
  pose proof (rfoldM_counted Scores.count_mini_round (fun _ => 0) (fun _ => 0)
                (fun _ => 1)
                (fun mr => Z.of_nat (List.length (MiniRound.turns mr)))
                (fun c a c' => count_mini_round_ok c c' a) _ _ _ H) as X.
  rewrite !sum_zeros, sum_ones, (sum_lengths MiniRound.turns) in X.
  eapply counted_eq; [eapply (counted_trans _ _ _ 0 1 0 0); [|exact X]|lia..].
  counted_step.
  intros (N1 & N2 & N3). repeat split; auto. apply (incr_nonneg _ _ _ E N2).
Qed.

Lemma flat_map_nested {A B C} (f : A -> list B) (k : B -> list C) (l : list A) :
  flat_map (fun a => flat_map k (f a)) l = flat_map k (flat_map f l).
Proof.
  induction l as [|a l IH]; cbn; [reflexivity|]. rewrite flat_map_app, IH. reflexivity.
Qed.

Lemma count_round_ok (c c' : Scores.counting) (r : Round.t) :
  Scores.count_round c r = Ok c' ->
  counted c c' 1 (Z.of_nat (List.length (Round.halves r)))
    (Z.of_nat (List.length (flat_map Half.mini_rounds (Round.halves r))))
    (Z.of_nat (List.length
                 (flat_map MiniRound.turns
                    (flat_map Half.mini_rounds (Round.halves r))))).
Proof.
  unfold Scores.count_round. intros H. monad_inv.
  destruct (incr_ok _ _ _ E) as (S & K).
  pose proof (rfoldM_counted Scores.count_half (fun _ => 0) (fun _ => 1)
                (fun h => Z.of_nat (List.length (Half.mini_rounds h)))
                (fun h => Z.of_nat (List.length
                                      (flat_map MiniRound.turns (Half.mini_rounds h))))
                (fun c a c' => count_half_ok c c' a) _ _ _ H) as X.
  rewrite !sum_zeros, sum_ones, (sum_lengths Half.mini_rounds),
    (sum_lengths (fun h => flat_map MiniRound.turns (Half.mini_rounds h))) in X.
  rewrite flat_map_nested in X.
  eapply counted_eq; [eapply (counted_trans _ _ _ 1 0 0 0); [|exact X]|lia..].
  counted_step.
  intros (N1 & N2 & N3). repeat split; auto. apply (incr_nonneg _ _ _ E N1).
Qed.

(** *** Histograms *)

Lemma count_hand_skip (k hand : string) (n : Z) (rest : list (string * Z)) :
  (k =? hand)%string = false ->
  Scores.count_hand ((k, n) :: rest) hand
  = (r <- Scores.count_hand rest hand ;; Ok ((k, n) :: r))%res.
Proof.
  intros E. unfold Scores.count_hand, assoc_mem. cbn [existsb fst]. rewrite E.
  cbn [orb]. destruct (existsb _ rest).
  - cbn [assoc_get]. rewrite E.
    destruct (assoc_get String.eqb rest hand) eqn:G; cbn [rbind]; [|reflexivity].
    cbn [assoc_set]. rewrite E. reflexivity.
  - cbn [assoc_set]. rewrite E. cbn [assoc_get]. rewrite E.
    destruct (assoc_get String.eqb (assoc_set String.eqb rest hand 0) hand) eqn:G;
      cbn [rbind]; [|reflexivity].
    cbn [assoc_set]. rewrite E. reflexivity.
Qed.

Lemma count_hand_ok (hist hist' : list (string * Z)) (hand : string) :
  Scores.count_hand hist hand = Ok hist' ->
  hist_total hist' = hist_total hist + 1.
Proof.
  revert hist'. induction hist as [|[k n] rest IH]; intros hist' H.
  - unfold Scores.count_hand, assoc_mem in H.
    cbn [existsb assoc_set assoc_get fst] in H. rewrite String.eqb_refl in H.
    cbn [rbind assoc_set] in H. rewrite ?String.eqb_refl in H.
    injection H as <-. reflexivity.
  - destruct (k =? hand)%string eqn:E.
    + unfold Scores.count_hand, assoc_mem in H.
      cbn [existsb assoc_set assoc_get fst orb] in H. rewrite E in H.
      cbn [existsb assoc_set assoc_get fst orb rbind] in H. rewrite ?E in H.
      cbn [rbind assoc_set] in H. rewrite ?E in H. injection H as <-.
      cbn [hist_total fold_right snd]. lia.
    + rewrite (count_hand_skip _ _ _ _ E) in H. monad_inv.
      apply IH in E0. cbn [hist_total fold_right snd] in *. fold (hist_total a).
      fold (hist_total rest). lia.
Qed.

Lemma histogram_ok (hands : list string) (hist : list (string * Z)) :
  Scores.histogram hands = Ok hist ->
  hist_total hist = Z.of_nat (List.length hands).
Proof.
  unfold Scores.histogram.
  assert (forall l h0 h1, rfoldM Scores.count_hand l h0 = Ok h1 ->
                          hist_total h1 = hist_total h0 + Z.of_nat (List.length l))
    as G.
  { induction l as [|x l IH]; intros h0 h1 H; cbn in H.
    - injection H as <-. cbn. lia.
    - monad_inv. apply count_hand_ok in E. apply IH in H.
      cbn [List.length]. lia. }
  intros H. apply G in H. cbn in H. lia.
Qed.

Lemma condensed_ok (d : list (option PlayerID * list string))
    (d' : list (option PlayerID * list (string * Z))) :
  rmapM (fun kv => (hist <- Scores.histogram (snd kv) ;; Ok (fst kv, hist))%res) d
  = Ok d' ->
  hands_total d'
  = fold_right (fun kv s => Z.of_nat (List.length (snd kv)) + s) 0 d
  /\ map fst d' = map fst d.
Proof.
  revert d'. induction d as [|[k l] d IH]; intros d' H; cbn in H; monad_inv.
  - split; reflexivity.
  - match goal with
    | Hh : rfoldM Scores.count_hand ?x [] = Ok ?h, Hr : rmapM _ d = Ok ?r |- _ =>
        change (Scores.histogram x = Ok h) in Hh;
        apply histogram_ok in Hh; destruct (IH _ Hr) as (T & K);
        cbn [hands_total fold_right snd fst map]; fold (hands_total r);
        rewrite T, K, Hh
    end.
    split; reflexivity.
Qed.

(** *** The empty register *)

Lemma zeros_ok (ids : list (option PlayerID)) (d : dict) :
  Forall (fun kv => snd kv = 0) d ->
  Forall (fun kv => snd kv = 0) (fold_left (fun d pid => dict_set d pid 0) ids d)
  /\ forall k, In k (map fst (fold_left (fun d pid => dict_set d pid 0) ids d))
               <-> In k (map fst d) \/ In k ids.
Proof.
  revert d. induction ids as [|i ids IH]; intros d Z0; cbn [fold_left].
  - split; [exact Z0|]. intros k. cbn. tauto.
  - destruct (IH (dict_set d i 0) (dict_set_zero _ _ Z0)) as (A & B).
    split; [exact A|]. intros k. rewrite B, dict_set_keys. cbn. intuition congruence.
Qed.

Lemma zero_sum (d : dict) : Forall (fun kv => snd kv = 0) d -> dict_sum d = 0.
Proof.
  induction 1 as [|[k c] d Z0 _ IH]; cbn; [reflexivity|].
  cbn in Z0. fold (dict_sum d). lia.
Qed.

Lemma assoc_set_keys {V} (d : list (option PlayerID * V)) (k : option PlayerID)
    (v : V) (k' : option PlayerID) :
  In k' (map fst (assoc_set pid_eqb d k v)) <-> In k' (map fst d) \/ k' = k.
Proof.
  induction d as [|[x c] d IH]; cbn.
  - intuition congruence.
  - destruct (pid_eqb x k) eqn:E; cbn.
    + apply pid_eqb_eq in E. subst x. intuition congruence.
    + rewrite IH. tauto.
Qed.

Lemma no_hands_ok (ids : list (option PlayerID))
    (d : list (option PlayerID * list string)) :
  Forall (fun kv => snd kv = []) d ->
  Forall (fun kv => snd kv = [])
    (fold_left (fun d pid => assoc_set pid_eqb d pid []) ids d)
  /\ forall k,
      In k (map fst (fold_left (fun d pid => assoc_set pid_eqb d pid []) ids d))
      <-> In k (map fst d) \/ In k ids.
Proof.
  revert d. induction ids as [|i ids IH]; intros d Z0; cbn [fold_left].
  - split; [exact Z0|]. intros k. cbn. tauto.
  - destruct (IH (assoc_set pid_eqb d i [])) as (A & B).
    { clear - Z0. induction Z0 as [|[x c] d E F IH]; cbn.
      - repeat constructor.
      - destruct (pid_eqb x i); constructor; auto. }
    split; [exact A|]. intros k. rewrite B, assoc_set_keys. cbn. intuition congruence.
Qed.

(** The totals of the score register.  Whenever [_calculate_scores]
    returns, the three counters and the histograms are keyed by exactly the
    ids of the players of the game; no count is negative; the rounds lost
    add up to the number of rounds played, the halves lost to the number of
    halves, the mini-rounds lost to the number of mini-rounds, and the
    hands in the histograms of all players to the number of turns. *)
Theorem calculate_scores_totals (g : Game.t) (s : Scores.t) :
  Scores._calculate_scores g = Ok s ->
  dict_sum (Scores.rounds_lost s) = Z.of_nat (List.length (Game.rounds g))
  /\ dict_sum (Scores.halves_lost s) = Z.of_nat (List.length (halves_of g))
  /\ dict_sum (Scores.minirounds_lost s) = Z.of_nat (List.length (mini_rounds_of g))
  /\ hands_total (Scores.hands_played s) = Z.of_nat (List.length (turns_of g))
  /\ (forall k, In k (Game.pids g) <->
                In k (map fst (Scores.rounds_lost s)))
  /\ (forall k, In k (Game.pids g) <->
                In k (map fst (Scores.halves_lost s)))
  /\ (forall k, In k (Game.pids g) <->
                In k (map fst (Scores.minirounds_lost s)))
  /\ (forall k, In k (Game.pids g) <->
                In k (map fst (Scores.hands_played s)))
  /\ Forall (fun kv => 0 <= snd kv <= Z.of_nat (List.length (Game.rounds g)))
       (Scores.rounds_lost s)
  /\ Forall (fun kv => 0 <= snd kv <= Z.of_nat (List.length (halves_of g)))
       (Scores.halves_lost s)
  /\ Forall (fun kv => 0 <= snd kv <= Z.of_nat (List.length (mini_rounds_of g)))
       (Scores.minirounds_lost s).
Proof.
  unfold Scores._calculate_scores. intros H. monad_inv.
  rename a into c, a0 into hands.
  pose proof (rfoldM_counted Scores.count_round (fun _ => 1)
                (fun r => Z.of_nat (List.length (Round.halves r)))
                (fun r => Z.of_nat (List.length
                                      (flat_map Half.mini_rounds (Round.halves r))))
                (fun r => Z.of_nat (List.length
                                      (flat_map MiniRound.turns
                                         (flat_map Half.mini_rounds (Round.halves r)))))
                (fun c a c' => count_round_ok c c' a) _ _ _ E) as X.
  rewrite sum_ones, (sum_lengths Round.halves),
    (sum_lengths (fun r => flat_map Half.mini_rounds (Round.halves r))),
    (sum_lengths (fun r => flat_map MiniRound.turns
                             (flat_map Half.mini_rounds (Round.halves r)))) in X.
  rewrite !flat_map_nested in X.
  fold (halves_of g) in X. fold (mini_rounds_of g) in X. fold (turns_of g) in X.
  destruct X as [S1 S2 S3 S4 (K1 & K2 & K3 & K4) NN].
  cbn [Scores.all_rounds_lost Scores.all_halves_lost Scores.all_minirounds_lost
       Scores.all_players_hands] in *.
  destruct (zeros_ok (Game.pids g) [] (Forall_nil _)) as (Z0 & ZK).
  fold (Scores.zeros g) in Z0, ZK.
  destruct (no_hands_ok (Game.pids g) [] (Forall_nil _)) as (H0 & HK).
  fold (Scores.no_hands g) in H0, HK.
  rewrite (zero_sum _ Z0) in S1, S2, S3.
  assert (fold_right (fun kv s => Z.of_nat (List.length (snd kv)) + s) 0
            (Scores.no_hands g) = 0) as NH.
  { clear - H0. induction H0 as [|[k l] d E _ IH]; cbn; [reflexivity|].
    cbn in E. subst l. cbn. exact IH. }
  rewrite NH in S4.
  destruct (condensed_ok _ _ E0) as (T & KH).
  assert (Forall (fun kv => 0 <= snd kv) (Scores.zeros g)) as NZ.
  { eapply Forall_impl; [|exact Z0]. cbn. intros; lia. }
  destruct (NN (conj NZ (conj NZ NZ))) as (N1 & N2 & N3).
  cbn [Scores.rounds_lost Scores.halves_lost Scores.minirounds_lost
       Scores.hands_played].
  split; [lia|]. split; [lia|]. split; [lia|]. split; [lia|].
  split; [intros k; rewrite K1, ZK; cbn; tauto|].
  split; [intros k; rewrite K2, ZK; cbn; tauto|].
  split; [intros k; rewrite K3, ZK; cbn; tauto|].
  split; [intros k; rewrite KH, K4, HK; cbn; tauto|].
  split; [|split].
  - destruct (dict_nonneg_le_sum _ N1) as (_ & Le).
    eapply Forall_impl; [|exact Le]. cbn beta. intros kv B. lia.
  - destruct (dict_nonneg_le_sum _ N2) as (_ & Le).
    eapply Forall_impl; [|exact Le]. cbn beta. intros kv B. lia.
  - destruct (dict_nonneg_le_sum _ N3) as (_ & Le).
    eapply Forall_impl; [|exact Le]. cbn beta. intros kv B. lia.
Qed.

Lemma calculate_scores_totals_witness :
  exists g' r rng' s,
    Game.play_round (game_of DummyPlayer ["A"; "B"]) 0 (tape_of [] 1)
      = Ok (g', r, rng')
    /\ Scores._calculate_scores g' = Ok s
    /\ Scores.rounds_lost s = [(Some 0, 1); (Some 1, 0)]
    /\ dict_sum (Scores.halves_lost s) = 3
    /\ hands_total (Scores.hands_played s) = Z.of_nat (List.length (turns_of g')).
Proof.
  assert (exists g' r rng' s,
             Game.play_round (game_of DummyPlayer ["A"; "B"]) 0 (tape_of [] 1)
               = Ok (g', r, rng')
             /\ Scores._calculate_scores g' = Ok s
             /\ Scores.rounds_lost s = [(Some 0, 1); (Some 1, 0)]
             /\ List.length (halves_of g') = 3%nat)
    as (g' & r & rng' & s & E & C & R & L) by (do 4 eexists; by_evaluation).
  destruct (calculate_scores_totals g' s C) as (_ & H & _ & T & _).
  exists g', r, rng', s. repeat (split; [assumption|]).
  split; [rewrite H, L; reflexivity | exact T].
Defined.
